(** * Hotel reservation prediction pipeline: ingestion, processing, training

    A shallow embedding of [src/custom_exception.py], [src/data_ingestion.py],
    [src/data_preprocessing.py] and [src/model_training.py].

    - Tables are pandas frames: an index and an ordered list of labelled
      columns.  Frames are mutable objects; they live in a heap and the
      methods pass references, as the Python code does.
    - Every method runs in a state-and-exception monad over the world
      (filesystem, frame heap, log file, numpy's global random state, the
      experiment tracker).
    - The numeric and ML libraries (label encoder, SMOTE, random forest,
      randomized search, metrics, mlflow, cloud storage) are not
      reimplemented: they are the fields of the class [Libs]. *)

From Stdlib Require Import ZArith Floats Lia List Permutation.
From stdpp Require Import base option list strings gmap pretty.

Open Scope Z_scope.
Open Scope string_scope.
Open Scope list_scope.

(** ** Python values and exceptions *)

(** The content of one table cell. *)
Inductive cell : Type :=
| VInt (z : Z)
| VFloat (f : float)
| VStr (s : string).

(** A column of values (a pandas Series without its index, or an ndarray). *)
Definition Series : Type := list cell.

(** A pandas DataFrame: row labels and labelled columns, in order. *)
Record DataFrame : Type := mkDataFrame {
  df_index : list Z;
  df_data : list (string * Series)
}.

Definition empty_frame : DataFrame := mkDataFrame [] [].

#[global] Instance DataFrame_inhabited : Inhabited DataFrame := populate empty_frame.

(** Exceptions.  [PyError] stands for any exception raised by the
    interpreter or a library (KeyError, ValueError, OSError, ...): its class
    and what it was raised about (the label that is missing, the path, a
    message).  The text [str] gives for it is the library's, see [str_error]
    below.  [CustomException] is the class of [src/custom_exception.py]:
    [error_message] is the attribute set by [__init__], [args0] the argument
    given to [super().__init__], and [context] the exception that was being
    handled when it was raised (Python's implicit [__context__]). *)
Inductive exn : Type :=
| PyError (type_name : string) (about : string)
| CustomException (error_message : string) (args0 : string) (context : exn).

Definition is_CustomException (e : exn) : bool :=
  match e with
  | CustomException _ _ _ => true
  | PyError _ _ => false
  end.

Definition KeyError (label : string) : exn := PyError "KeyError" label.
Definition ValueError (msg : string) : exn := PyError "ValueError" msg.
Definition FileNotFoundError (path : string) : exn := PyError "FileNotFoundError" path.
(** What [pd.read_csv] raises on a file without a header line. *)
Definition EmptyDataError (path : string) : exn := PyError "EmptyDataError" path.

(** The outcome of a call: a value or a raised exception. *)
Inductive outcome (E A : Type) : Type :=
| Returns (a : A)
| Raises (e : E).
Arguments Returns {E A} a.
Arguments Raises {E A} e.

(** [CustomException.get_detailed_error_message].  [file_name] and
    [line_number] are what the method reads from [sys.exc_info()]: the first
    traceback entry of the exception being handled, that is the file of the
    function holding the [try] and the line of the statement of its body
    that failed.  [error_detail] is not used by the method. *)
Definition get_detailed_error_message {D : Type}
    (file_name : string) (line_number : nat)
    (error_message : string) (error_detail : D) : string :=
  "Error in " +:+ file_name +:+ " at line " +:+ pretty line_number +:+ ": "
    +:+ error_message.

(** [CustomException(error_message, error_detail)] evaluated while [handled]
    is being handled, its traceback starting at [file_name], [line_number]. *)
Definition new_CustomException {D : Type}
    (file_name : string) (line_number : nat) (handled : exn)
    (error_message : string) (error_detail : D) : exn :=
  CustomException
    (get_detailed_error_message file_name line_number error_message error_detail)
    error_message handled.

(** ** pandas operations used by the pipeline *)

Definition columns (df : DataFrame) : list string := map fst (df_data df).

Definition has_column (df : DataFrame) (c : string) : bool :=
  existsb (String.eqb c) (columns df).

(** [df[c]]: the column labelled [c], KeyError when there is none. *)
Definition getitem (df : DataFrame) (c : string) : outcome exn Series :=
  match List.find (fun p => String.eqb (fst p) c) (df_data df) with
  | Some p => Returns (snd p)
  | None => Raises (KeyError c)
  end.

(** [df[c] = values]: replaces the column in place, or appends a new last
    column.  At every call site the values are aligned with the frame's
    index. *)
Definition setitem (df : DataFrame) (c : string) (values : Series) : DataFrame :=
  if has_column df c then
    mkDataFrame (df_index df)
      (map (fun p => if String.eqb (fst p) c then (c, values) else p) (df_data df))
  else
    mkDataFrame (df_index df) (df_data df ++ [(c, values)]).

(** [df.drop(columns=labels)]: KeyError when a label is absent
    (the default [errors='raise']). *)
Definition drop_columns (df : DataFrame) (labels : list string) : outcome exn DataFrame :=
  match List.filter (fun c => negb (has_column df c)) labels with
  | [] =>
      Returns (mkDataFrame (df_index df)
        (List.filter (fun p => negb (existsb (String.eqb (fst p)) labels)) (df_data df)))
  | c :: _ => Raises (KeyError c)
  end.

(** [df[labels]] with a list of labels: the projection, in the order of
    [labels]; KeyError when a label is absent. *)
Definition getitem_list (df : DataFrame) (labels : list string) : outcome exn DataFrame :=
  match List.filter (fun c => negb (has_column df c)) labels with
  | [] =>
      Returns (mkDataFrame (df_index df)
        (flat_map (fun c => List.filter (fun p => String.eqb (fst p) c) (df_data df)) labels))
  | c :: _ => Raises (KeyError c)
  end.

(** Equality of cells as [drop_duplicates] sees it (NaN equals NaN). *)
Definition cell_eqb (a b : cell) : bool :=
  match a, b with
  | VInt x, VInt y => Z.eqb x y
  | VFloat x, VFloat y =>
      PrimFloat.eqb x y || (PrimFloat.is_nan x && PrimFloat.is_nan y)
  | VStr x, VStr y => String.eqb x y
  | _, _ => false
  end.

Definition row_at (df : DataFrame) (i : nat) : list (option cell) :=
  map (fun p => snd p !! i) (df_data df).

Definition rows (df : DataFrame) : list (list (option cell)) :=
  map (row_at df) (seq 0 (length (df_index df))).

Definition option_cell_eqb (a b : option cell) : bool :=
  match a, b with
  | Some x, Some y => cell_eqb x y
  | None, None => true
  | _, _ => false
  end.

Fixpoint row_eqb (r1 r2 : list (option cell)) : bool :=
  match r1, r2 with
  | [], [] => true
  | a :: r1', b :: r2' => option_cell_eqb a b && row_eqb r1' r2'
  | _, _ => false
  end.

(** [~df.duplicated()]: true at the first occurrence of each row. *)
Fixpoint first_occurrences (seen rs : list (list (option cell))) : list bool :=
  match rs with
  | [] => []
  | r :: rs' =>
      if existsb (row_eqb r) seen then false :: first_occurrences seen rs'
      else true :: first_occurrences (r :: seen) rs'
  end.

Definition select_mask {A : Type} (mask : list bool) (l : list A) : list A :=
  map snd (List.filter fst (combine mask l)).

(** [df.drop_duplicates()]: keeps the first of equal rows, with its index
    label; a frame without columns is returned as it is. *)
Definition drop_duplicates (df : DataFrame) : DataFrame :=
  match df_data df with
  | [] => df
  | _ =>
      let mask := first_occurrences [] (rows df) in
      mkDataFrame (select_mask mask (df_index df))
        (map (fun p => (fst p, select_mask mask (snd p))) (df_data df))
  end.

(** [s.head(n)]: the first [n] entries, all but the last [-n] when [n] is
    negative. *)
Definition head {A : Type} (n : Z) (l : list A) : list A :=
  if (n <? 0)%Z then firstn (length l - Z.to_nat (- n))%nat l
  else firstn (Z.to_nat n) l.

(** The content of a delimited text file: the header and the columns under
    it.  Printing and parsing of the numerals are not modelled. *)
Definition csv : Type := list (string * Series).

(** [df.to_csv(path, index=...)]: with [index=True] (the default) the row
    labels are written as a first column under an empty header. *)
Definition to_csv (df : DataFrame) (index : bool) : csv :=
  if index then ("", map VInt (df_index df)) :: df_data df
  else df_data df.

Fixpoint name_unnamed (i : nat) (c : csv) : list (string * Series) :=
  match c with
  | [] => []
  | (h, s) :: c' =>
      (if String.eqb h "" then "Unnamed: " +:+ pretty i else h, s)
        :: name_unnamed (S i) c'
  end.

Definition range_index (n : nat) : list Z := map Z.of_nat (seq 0 n).

(** [pd.read_csv(path)] on the content of the file: a fresh range index,
    and a column with an empty header at position [i] is labelled
    ["Unnamed: i"].  pandas also renames a repeated header, so that the
    labels it delivers are distinct, and reads the type of each column
    off its text; neither is modelled: the cells are delivered as they
    were written, and the statements that need distinct labels say so. *)
Definition read_csv (c : csv) : DataFrame :=
  mkDataFrame
    (range_index (match c with [] => 0%nat | (_, s) :: _ => length s end))
    (name_unnamed 0 c).

(** ** The external libraries and the absent configuration modules *)

(** A file on disk: delimited text, or a model serialized by [joblib]. *)
Inductive file (model : Type) : Type :=
| FCsv (c : csv)
| FModel (m : model).
Arguments FCsv {model} c.
Arguments FModel {model} m.

(** What a failed write leaves at its destination. *)
Inductive leftover (model : Type) : Type :=
| Untouched                  (* it failed before the file was opened *)
| Removed                    (* the file was opened, then removed *)
| Partial (f : file model).  (* the file holds what had been written *)
Arguments Untouched {model}.
Arguments Removed {model}.
Arguments Partial {model} f.

(** The keys of [RANDOM_SEARCH_PARAMS] that [train_lgbm] reads. *)
Record rs_params : Type := mk_rs_params {
  n_iter : Z;
  cv : Z;
  n_jobs : Z;
  verbose : Z;
  random_state : Z;
  scoring : string
}.

(** What the pipeline calls and does not define: scikit-learn,
    imbalanced-learn, numpy, lightgbm, mlflow, google-cloud-storage, and
    Python's own formatting of values in f-strings. *)
Class Libs : Type := {
  model : Type;        (* a fitted estimator *)
  params : Type;       (* a dict of hyperparameters *)
  param_dist : Type;   (* the distributions searched *)
  rng : Type;          (* numpy's global random state *)
  tracker : Type;      (* the state of the experiment tracker *)
  (* str() of the values interpolated in log messages *)
  str_error : string -> string -> string;  (* of an exception: class, about *)
  str_dict : list (cell * cell) -> string;
  str_array : list string -> string;
  str_float : float -> string;
  str_params : params -> string;
  (* LabelEncoder: fit yields classes_, transform needs them *)
  le_fit : Series -> outcome exn Series;
  le_transform : Series -> Series -> outcome exn Series;
  np_log1p : Series -> outcome exn Series;
  skew : Series -> outcome exn float;
  (* sort_values(ascending=False) on labelled numbers; the order among
     equal values is the library's *)
  sort_values_desc : list (string * float) -> list (string * float);
  sort_values_desc_perm : forall l, Permutation (sort_values_desc l) l;
  (* SMOTE().fit_resample: no random_state, so it draws from the global one *)
  smote_fit_resample :
    rng -> DataFrame -> Series -> outcome exn (DataFrame * Series) * rng;
  (* RandomForestClassifier(random_state=seed).fit(X, y).feature_importances_ *)
  rf_feature_importances : Z -> DataFrame -> Series -> outcome exn (list float);
  (* train_test_split(data, test_size=..., random_state=...) *)
  train_test_split : DataFrame -> float -> Z -> outcome exn (DataFrame * DataFrame);
  (* writing a file at a path (to_csv, joblib.dump): done, or the
     exception and what is left at the path *)
  file_write : string -> file model -> outcome (exn * leftover model) unit;
  os_path_dirname : string -> string;
  (* os.makedirs(path, exist_ok=True) *)
  os_makedirs : string -> outcome exn unit;
  (* storage.Client(): fails without credentials *)
  storage_client : outcome exn unit;
  (* client.bucket(b).blob(name).download_to_filename(path): the content
     written at the path, or the exception and what is left there *)
  storage_download :
    string -> string -> string -> outcome (exn * leftover model) (file model);
  (* RandomizedSearchCV(LGBMClassifier(random_state=seed), ...).fit(X, y):
     best_params_ and best_estimator_ *)
  random_search_fit :
    Z -> param_dist -> rs_params -> DataFrame -> Series -> outcome exn (params * model);
  predict : model -> DataFrame -> outcome exn Series;
  accuracy_score : Series -> Series -> outcome exn float;
  precision_score : Series -> Series -> outcome exn float;
  recall_score : Series -> Series -> outcome exn float;
  f1_score : Series -> Series -> outcome exn float;
  get_params : model -> params;
  (* mlflow; end_run is what leaving the [with] block calls *)
  mlflow_start_run : tracker -> outcome exn unit * tracker;
  mlflow_end_run : string -> tracker -> outcome exn unit * tracker;
  mlflow_log_artifact :
    string -> option string -> option (file model) -> tracker -> outcome exn unit * tracker;
  mlflow_log_params : params -> tracker -> outcome exn unit * tracker;
  mlflow_log_metrics : list (string * float) -> tracker -> outcome exn unit * tracker
}.

(** [str(e)]: the library's text for its own exceptions;
    [CustomException.__str__] returns [self.error_message]. *)
Definition str_exn `{Libs} (e : exn) : string :=
  match e with
  | PyError type_name about => str_error type_name about
  | CustomException error_message _ _ => error_message
  end.

(** The constants of [config/paths_config.py] and [config/model_params.py],
    which are not part of the sources at hand, and the file name each module
    is loaded under, which [CustomException] reads from the traceback. *)
Class Consts `{Libs} : Type := {
  RAW_FILE_PATH : string;
  TRAIN_FILE_PATH : string;
  TEST_FILE_PATH : string;
  PROCESSED_TRAIN_DATA_PATH : string;
  PROCESSED_TEST_DATA_PATH : string;
  MODEL_OUTPUT_PATH : string;
  LIGHTGBM_PARAMS : param_dist;
  RANDOM_SEARCH_PARAMS : rs_params;
  data_ingestion_py : string;
  data_preprocessing_py : string;
  model_training_py : string
}.

(** The configuration mapping that [read_yaml] returns, with the keys the
    code looks up. *)
Module Yaml.

Record data_ingestion_config : Type := mk_data_ingestion_config {
  bucket_name : string;
  bucket_file_name : string;
  train_ratio : float
}.

Record data_processing_config : Type := mk_data_processing_config {
  categorical_columns : list string;
  numerical_columns : list string;
  skewness_threshold : float;
  no_of_features : Z
}.

Record Config : Type := mkConfig {
  data_ingestion : data_ingestion_config;
  data_processing : data_processing_config
}.

End Yaml.
Import Yaml.

(** ** The world and the monad of the methods *)

Inductive level : Type := INFO | ERROR.

(** A reference to a frame object. *)
Abbreviation loc := nat.

Section Runtime.
Context `{L : Libs}.

Record world : Type := mkWorld {
  fs : gmap string (file model);
  heap : list DataFrame;
  log : list (level * string);
  np_random : rng;
  mlflow : tracker
}.

Definition set_fs (f : gmap string (file model)) (w : world) : world :=
  mkWorld f (heap w) (log w) (np_random w) (mlflow w).
Definition set_heap (h : list DataFrame) (w : world) : world :=
  mkWorld (fs w) h (log w) (np_random w) (mlflow w).
Definition set_log (l : list (level * string)) (w : world) : world :=
  mkWorld (fs w) (heap w) l (np_random w) (mlflow w).
Definition set_np_random (r : rng) (w : world) : world :=
  mkWorld (fs w) (heap w) (log w) r (mlflow w).
Definition set_mlflow (t : tracker) (w : world) : world :=
  mkWorld (fs w) (heap w) (log w) (np_random w) t.

(** A computation that may change the world and may raise an [E]. *)
Definition ST (E A : Type) : Type := world -> outcome E A * world.

Definition ret {E A : Type} (a : A) : ST E A := fun w => (Returns a, w).

Definition bind {E A B : Type} (m : ST E A) (k : A -> ST E B) : ST E B :=
  fun w =>
    match m w with
    | (Returns a, w') => k a w'
    | (Raises e, w') => (Raises e, w')
    end.

Definition raise {E A : Type} (e : E) : ST E A := fun w => (Raises e, w).

End Runtime.

(** A method: raises exceptions. *)
Abbreviation M := (ST exn).
(** The body of a [try] block: an exception comes with the line of the
    statement of the block it went through. *)
Abbreviation MB := (ST (nat * exn)).

Notation "x <- m ;; k" := (bind m (fun x => k))
  (at level 100, m at next level, right associativity).
Notation "m ;; k" := (bind m (fun _ => k))
  (at level 100, right associativity).

Section Primitives.
Context `{L : Libs}.

(** The statement at line [n] of the enclosing function. *)
Definition at_line {A : Type} (n : nat) (m : M A) : MB A :=
  fun w =>
    match m w with
    | (Returns a, w') => (Returns a, w')
    | (Raises e, w') => (Raises (n, e), w')
    end.

Definition lift_at {A : Type} (n : nat) (o : outcome exn A) : MB A :=
  fun w =>
    match o with
    | Returns a => (Returns a, w)
    | Raises e => (Raises (n, e), w)
    end.

(** [try: body  except Exception as e: handler]. *)
Definition try_except {A : Type} (body : MB A) (handler : nat -> exn -> M A) : M A :=
  fun w =>
    match body w with
    | (Returns a, w') => (Returns a, w')
    | (Raises (n, e), w') => handler n e w'
    end.

(** [try: body  except CustomException as ce: handler]: other exceptions
    go through. *)
Definition try_except_CustomException {A : Type}
    (body : MB A) (handler : nat -> exn -> M A) : M A :=
  fun w =>
    match body w with
    | (Returns a, w') => (Returns a, w')
    | (Raises (n, e), w') =>
        if is_CustomException e then handler n e w' else (Raises e, w')
    end.

(** [try: ...  finally: final]. *)
Definition try_finally {A : Type} (m : M A) (final : M unit) : M A :=
  fun w =>
    match m w with
    | (r, w') =>
        match final w' with
        | (Returns _, w'') => (r, w'')
        | (Raises e, w'') => (Raises e, w'')
        end
    end.

(** [with cm: body] at line [n], for a context manager whose [__exit__]
    does not suppress exceptions: [leave] receives whether the body
    completed. *)
Definition with_ {A : Type} (n : nat) (enter : M unit) (leave : bool -> M unit)
    (body : MB A) : MB A :=
  fun w =>
    match enter w with
    | (Raises e, w1) => (Raises (n, e), w1)
    | (Returns _, w1) =>
        match body w1 with
        | (Returns a, w2) =>
            match leave true w2 with
            | (Returns _, w3) => (Returns a, w3)
            | (Raises e, w3) => (Raises (n, e), w3)
            end
        | (Raises ne, w2) =>
            match leave false w2 with
            | (Returns _, w3) => (Raises ne, w3)
            | (Raises e, w3) => (Raises (n, e), w3)
            end
        end
    end.

(** [for x in l: s = body(s, x)]. *)
Fixpoint for_each {E A S : Type} (l : list A) (s : S) (body : S -> A -> ST E S) : ST E S :=
  match l with
  | [] => ret s
  | x :: l' => s' <- body s x ;; for_each l' s' body
  end.

(** [logger.info(msg)] and [logger.error(msg)]: a record is appended to
    the log file. *)
Definition logger_info {E : Type} (msg : string) : ST E unit :=
  fun w => (Returns tt, set_log (log w ++ [(INFO, msg)]) w).
Definition logger_error {E : Type} (msg : string) : ST E unit :=
  fun w => (Returns tt, set_log (log w ++ [(ERROR, msg)]) w).

(** The frame a reference points to. *)
Definition deref {E : Type} (l : loc) : ST E DataFrame :=
  fun w => (Returns (heap w !!! l), w).

(** A new frame object. *)
Definition alloc {E : Type} (df : DataFrame) : ST E loc :=
  fun w => (Returns (length (heap w)), set_heap (heap w ++ [df]) w).

(** The object at [l] is changed in place. *)
Definition store {E : Type} (l : loc) (df : DataFrame) : ST E unit :=
  fun w => (Returns tt, set_heap (<[l := df]> (heap w)) w).

(** An [inplace=True] operation of the frame at [l], at line [n]. *)
Definition inplace (n : nat) (l : loc) (f : DataFrame -> outcome exn DataFrame) : MB unit :=
  d <- deref l ;; d' <- lift_at n (f d) ;; store l d'.

(** [df[c] = f(df[c])] at line [n]. *)
Definition update_column (n : nat) (l : loc) (c : string)
    (f : Series -> outcome exn Series) : MB unit :=
  d <- deref l ;;
  s <- lift_at n (getitem d c) ;;
  s' <- lift_at n (f s) ;;
  store l (setitem d c s').

Definition write_file {E : Type} (path : string) (f : file model) : ST E unit :=
  fun w => (Returns tt, set_fs (<[path := f]> (fs w)) w).

(** The disk after a write to [path] that failed. *)
Definition leave {E : Type} (path : string) (remains : leftover model) : ST E unit :=
  fun w =>
    (Returns tt,
     set_fs (match remains with
             | Untouched => fs w
             | Removed => delete path (fs w)
             | Partial f => <[path := f]> (fs w)
             end) w).

(** The statement at line [n] writes [f] at [path]. *)
Definition write_at (n : nat) (path : string) (f : file model) : MB unit :=
  match file_write path f with
  | Returns _ => write_file path f
  | Raises (e, remains) => leave path remains ;; raise (n, e)
  end.

(** [client.bucket(b).blob(name).download_to_filename(path)] at line [n]:
    the destination is opened for writing before anything is fetched, so a
    failure may leave it empty, or be followed by its removal. *)
Definition download_to_filename (n : nat) (b name path : string) : MB unit :=
  match storage_download b name path with
  | Returns content => write_file path content
  | Raises (e, remains) => leave path remains ;; raise (n, e)
  end.

Definition read_file {E : Type} (path : string) : ST E (option (file model)) :=
  fun w => (Returns (fs w !! path), w).

(** A call into the tracker. *)
Definition tracker_call (f : tracker -> outcome exn unit * tracker) : M unit :=
  fun w => let '(r, t) := f (mlflow w) in (r, set_mlflow t w).

(** [pd.read_csv(path)] as a new frame object; a file without a header
    line is refused. *)
Definition pd_read_csv (path : string) : M loc :=
  f <- read_file path ;;
  match f with
  | Some (FCsv []) => raise (EmptyDataError path)
  | Some (FCsv c) => alloc (read_csv c)
  | Some (FModel _) => raise (PyError "ParserError" path)
  | None => raise (FileNotFoundError path)
  end.

(** Modelled from the spec: [utils.common_functions.load_data], whose
    source is absent; the processed and raw tables are delimited text with
    headers, read into a table. *)
Definition load_data (path : string) : M loc :=
  f <- read_file path ;;
  match f with
  | Some (FCsv c) => alloc (read_csv c)
  | Some (FModel _) => raise (PyError "ParserError" path)
  | None => raise (FileNotFoundError path)
  end.

(** [d[k] = v] on a dict kept in insertion order. *)
Fixpoint dict_set {V : Type} (d : list (string * V)) (k : string) (v : V) : list (string * V) :=
  match d with
  | [] => [(k, v)]
  | (k', v') :: d' =>
      if String.eqb k' k then (k, v) :: d' else (k', v') :: dict_set d' k v
  end.

End Primitives.

(** ** [src/data_preprocessing.py] *)

Module DataProcessor.
Section Methods.
Context `{L : Libs} `{C : !Consts}.

(** The attributes set by [__init__]; [config] is what [read_yaml] gave. *)
Record t : Type := mk {
  train_path : string;
  test_path : string;
  processed_dir : string;
  config : Config
}.

(** The [except Exception as e] clause shared by the methods: the error is
    logged and a [CustomException] is raised in its place. *)
Definition wrap {A : Type} (log_prefix error_message : string) (n : nat) (e : exn) : M A :=
  logger_error (log_prefix +:+ str_exn e) ;;
  raise (new_CustomException data_preprocessing_py n e error_message e).

(** [label_encoder.fit_transform(col)]: the fitted classes and the codes. *)
Definition fit_transform (col : Series) : outcome exn (Series * Series) :=
  match le_fit col with
  | Raises e => Raises e
  | Returns classes_ =>
      match le_transform classes_ col with
      | Raises e => Raises e
      | Returns codes => Returns (classes_, codes)
      end
  end.

(** The columns the second loop of [preprocess_data] goes through:
    [skewness[skewness > skew_threshold].index]. *)
Definition skewed_columns (skewness : list (string * float)) (skew_threshold : float)
    : list string :=
  map fst (List.filter (fun p => PrimFloat.ltb skew_threshold (snd p)) skewness).

(** [df[num_cols].apply(lambda x: x.skew())]: one entry per selected column. *)
Fixpoint apply_skew (cols : list (string * Series)) : outcome exn (list (string * float)) :=
  match cols with
  | [] => Returns []
  | (c, s) :: cols' =>
      match skew s with
      | Raises e => Raises e
      | Returns v =>
          match apply_skew cols' with
          | Raises e => Raises e
          | Returns vs => Returns ((c, v) :: vs)
          end
      end
  end.

(** Line 61: the skewness of the configured columns, sorted descending. *)
Definition measure_skewness (d : DataFrame) (num_cols : list string)
    : outcome exn (list (string * float)) :=
  match getitem_list d num_cols with
  | Raises e => Raises e
  | Returns sub =>
      match apply_skew (df_data sub) with
      | Raises e => Raises e
      | Returns sk => Returns (sort_values_desc sk)
      end
  end.

(** Lines 63-64: [for column in ...: df[column] = np.log1p(df[column])]. *)
Definition transform_skewed (df : loc) (cols : list string) : MB unit :=
  for_each cols tt (fun _ column => update_column 64 df column np_log1p).

(** The [try] block of [preprocess_data]. *)
Definition preprocess_data_try (self : t) (df : loc) : MB loc :=
  logger_info " Starting the Preprocessing data" ;;
  logger_info "Dropping unnecessary columns" ;;
  inplace 35 df (fun d => drop_columns d ["Booking_ID"]) ;;
  inplace 36 df (fun d => Returns (drop_duplicates d)) ;;
  let cat_cols := categorical_columns (data_processing (config self)) in
  let num_cols := numerical_columns (data_processing (config self)) in
  logger_info "Applying Label Encoding" ;;
  mappings <- for_each cat_cols []
    (fun mappings column =>
       d <- deref df ;;
       col <- lift_at 46 (getitem d column) ;;
       fitted <- lift_at 46 (fit_transform col) ;;
       store df (setitem d column (snd fitted)) ;;
       codes <- lift_at 48 (le_transform (fst fitted) (fst fitted)) ;;
       ret (dict_set mappings column (combine (fst fitted) codes))) ;;
  logger_info "Label Mapping are: " ;;
  for_each mappings tt
    (fun _ cm => logger_info (fst cm +:+ ": " +:+ str_dict (snd cm))) ;;
  logger_info "Skewness handling" ;;
  update_column 57 df "no_of_previous_cancellations" np_log1p ;;
  update_column 58 df "no_of_previous_bookings_not_canceled" np_log1p ;;
  let skew_threshold := skewness_threshold (data_processing (config self)) in
  d <- deref df ;;
  skewness <- lift_at 61 (measure_skewness d num_cols) ;;
  transform_skewed df (skewed_columns skewness skew_threshold) ;;
  ret df.

(** [preprocess_data(self, df)]: works on the object it is given and
    returns that same object. *)
Definition preprocess_data (self : t) (df : loc) : M loc :=
  try_except (preprocess_data_try self df)
    (wrap "Error occurred during data preprocessing: " "Failed to preprocess the data").

(** A column of [n] missing values. *)
Definition nan_column (n : nat) : Series := repeat (VFloat PrimFloat.nan) n.

(** [pd.DataFrame(data, columns=cols)] for a frame [data]: its columns
    labelled [cols], in that order, missing ones filled with NaN. *)
Definition DataFrame_with_columns (data : DataFrame) (cols : list string) : DataFrame :=
  mkDataFrame (df_index data)
    (map (fun c =>
            match getitem data c with
            | Returns s => (c, s)
            | Raises _ => (c, nan_column (length (df_index data)))
            end) cols).

(** [smote.fit_resample(X, y)], drawing from the global random state. *)
Definition fit_resample (n : nat) (X : DataFrame) (y : Series) : MB (DataFrame * Series) :=
  fun w =>
    match smote_fit_resample (np_random w) X y with
    | (Returns r, g) => (Returns r, set_np_random g w)
    | (Raises e, g) => (Raises (n, e), set_np_random g w)
    end.

(** The [try] block of [balanced_data]. *)
Definition balanced_data_try (self : t) (df : loc) : MB loc :=
  logger_info "Balancing the data using SMOTE" ;;
  d <- deref df ;;
  X <- lift_at 76 (drop_columns d ["booking_status"]) ;;
  y <- lift_at 77 (getitem d "booking_status") ;;
  resampled <- fit_resample 80 X y ;;
  let balanced_df := DataFrame_with_columns (fst resampled) (columns X) in
  let balanced_df := setitem balanced_df "booking_status" (snd resampled) in
  r <- alloc balanced_df ;;
  logger_info "Data balanced successfully" ;;
  ret r.

(** [balanced_data(self, df)]: a new frame. *)
Definition balanced_data (self : t) (df : loc) : M loc :=
  try_except (balanced_data_try self df)
    (wrap "Error occurred during data balancing: " "Failed to balance the data").

(** [pd.DataFrame({'Feature': features, 'Importance': importance})]. *)
Definition feature_importance_frame (features : list string) (importance : list float)
    : outcome exn (list (string * float)) :=
  if Nat.eqb (length features) (length importance) then
    Returns (combine features importance)
  else Raises (ValueError "All arrays must be of the same length").

(** The labels [select_feature] keeps, in order: the first
    [num_features_to_select] features by descending importance. *)
Definition top_features (features : list string) (importance : list float)
    (num_features_to_select : Z) : outcome exn (list string) :=
  match feature_importance_frame features importance with
  | Raises e => Raises e
  | Returns fi => Returns (head num_features_to_select (map fst (sort_values_desc fi)))
  end.

(** The [try] block of [select_feature]. *)
Definition select_feature_try (self : t) (df : loc) : MB loc :=
  logger_info "Feature selection using Random Forest" ;;
  d <- deref df ;;
  X <- lift_at 95 (drop_columns d ["booking_status"]) ;;
  y <- lift_at 96 (getitem d "booking_status") ;;
  feature_importance <- lift_at 99 (rf_feature_importances 42 X y) ;;
  let num_features_to_select := no_of_features (data_processing (config self)) in
  top_10_features <-
    lift_at 102 (top_features (columns X) feature_importance num_features_to_select) ;;
  top_10_df <- lift_at 109 (getitem_list d (top_10_features ++ ["booking_status"])) ;;
  r <- alloc top_10_df ;;
  logger_info "Feature selection completed" ;;
  logger_info ("Top " +:+ pretty num_features_to_select +:+ " features selected: "
                 +:+ str_array top_10_features) ;;
  ret r.

(** [select_feature(self, df)]: a new frame. *)
Definition select_feature (self : t) (df : loc) : M loc :=
  try_except (select_feature_try self df)
    (wrap "Error occurred during feature selection: " "Failed to select features").

(** The [try] block of [save_data]. *)
Definition save_data_try (self : t) (df : loc) (file_path : string) : MB unit :=
  logger_info ("Saving processed data to " +:+ file_path) ;;
  d <- deref df ;;
  write_at 124 file_path (FCsv (to_csv d false)) ;;
  logger_info "Data saved successfully".

(** [save_data(self, df, file_path)]: the frame is written without its
    index. *)
Definition save_data (self : t) (df : loc) (file_path : string) : M unit :=
  try_except (save_data_try self df file_path)
    (wrap "Error occurred while saving the data: " "Failed to save the processed data").

(** The [try] block of [process]. *)
Definition process_try (self : t) : MB unit :=
  logger_info "Loading data from RAW directory" ;;
  train_df <- at_line 134 (load_data (train_path self)) ;;
  test_df <- at_line 135 (load_data (test_path self)) ;;
  train_df <- at_line 137 (preprocess_data self train_df) ;;
  test_df <- at_line 138 (preprocess_data self test_df) ;;
  train_df <- at_line 140 (balanced_data self train_df) ;;
  test_df <- at_line 141 (balanced_data self test_df) ;;
  train_df <- at_line 143 (select_feature self train_df) ;;
  d <- deref train_df ;;
  test_df <- (sub <- lift_at 144 (getitem_list d (columns d)) ;; alloc sub) ;;
  at_line 146 (save_data self train_df PROCESSED_TRAIN_DATA_PATH) ;;
  at_line 147 (save_data self test_df PROCESSED_TEST_DATA_PATH) ;;
  logger_info "Data processing completed successfully".

(** [process(self)]. *)
Definition process (self : t) : M unit :=
  try_except (process_try self)
    (wrap "Error occurred during data processing: " "Failed to process the data").

End Methods.
End DataProcessor.

(** ** [src/data_ingestion.py] *)

Module DataIngestion.
Section Methods.
Context `{L : Libs} `{C : !Consts}.

Record t : Type := mk {
  config : data_ingestion_config;
  bucket_name : string;
  file_name : string;
  train_test_ratio : float
}.

(** The attributes [__init__(self, config)] sets from the keys of the
    mapping it is given. *)
Definition attributes (config : Config) : t :=
  let c := data_ingestion config in
  mk c (Yaml.bucket_name c) (bucket_file_name c) (train_ratio c).

(** The [try] block of [download_csv_from_gcp]. *)
Definition download_csv_from_gcp_try (self : t) : MB unit :=
  lift_at 28 storage_client ;;
  download_to_filename 32 (bucket_name self) (file_name self) RAW_FILE_PATH ;;
  logger_info ("CSV file is successfully downloaded to " +:+ RAW_FILE_PATH).

Definition download_csv_from_gcp (self : t) : M unit :=
  try_except (download_csv_from_gcp_try self)
    (fun n e =>
       logger_error ("Error while downloading the csv file: " +:+ str_exn e) ;;
       raise (new_CustomException data_ingestion_py n e
                ("Failed to download csv file: " +:+ str_exn e +:+ " ") e)).

(** The [try] block of [split_data]. *)
Definition split_data_try (self : t) : MB unit :=
  logger_info "Splitting the data into train and test sets" ;;
  data <- at_line 44 (pd_read_csv RAW_FILE_PATH) ;;
  d <- deref data ;;
  parts <- lift_at 46
    (train_test_split d (PrimFloat.sub 1 (train_test_ratio self)) 42) ;;
  write_at 48 TRAIN_FILE_PATH (FCsv (to_csv (fst parts) true)) ;;
  write_at 49 TEST_FILE_PATH (FCsv (to_csv (snd parts) true)) ;;
  logger_info ("Train data saved to " +:+ TRAIN_FILE_PATH) ;;
  logger_info ("Test data saved to " +:+ TEST_FILE_PATH).

Definition split_data (self : t) : M unit :=
  try_except (split_data_try self)
    (fun n e =>
       logger_error "Error occurred while splitting the data into train and test sets" ;;
       raise (new_CustomException data_ingestion_py n e
                "Failed to split the data into train and test sets" e)).

Definition run (self : t) : M unit :=
  try_finally
    (try_except_CustomException
       (logger_info "Starting the data ingestion process" ;;
        at_line 64 (download_csv_from_gcp self) ;;
        at_line 65 (split_data self) ;;
        logger_info "Data ingestion process completed successfully")
       (fun _ ce => logger_error ("Custom Exception: " +:+ str_exn ce)))
    (logger_info "Data ingestion Completed").

End Methods.
End DataIngestion.

(** ** [src/model_training.py] *)

Module ModelTraining.
Section Methods.
Context `{L : Libs} `{C : !Consts}.

Record t : Type := mk {
  train_path : string;
  test_path : string;
  model_output_path : string;
  params_dist : param_dist;
  random_search_params : rs_params
}.

(** [__init__(self, train_path, test_path, model_output_path)]. *)
Definition init (train_path test_path model_output_path : string) : t :=
  mk train_path test_path model_output_path LIGHTGBM_PARAMS RANDOM_SEARCH_PARAMS.

Definition wrap {A : Type} (log_prefix error_message : string) (n : nat) (e : exn) : M A :=
  logger_error (log_prefix +:+ str_exn e) ;;
  raise (new_CustomException model_training_py n e error_message e).

(** What [load_and_split_data] returns. *)
Record split : Type := mk_split {
  X_train : DataFrame;
  y_train : Series;
  X_test : DataFrame;
  y_test : Series
}.

(** The [try] block of [load_and_split_data]. *)
Definition load_and_split_data_try (self : t) : MB split :=
  logger_info ("Loading the data from " +:+ train_path self) ;;
  train_df <- at_line 35 (load_data (train_path self)) ;;
  logger_info ("Loading the data from " +:+ test_path self) ;;
  test_df <- at_line 38 (load_data (test_path self)) ;;
  logger_info "Deleting the unnecessary columns" ;;
  train_d <- deref train_df ;;
  train_d <- lift_at 41 (drop_columns train_d ["Unnamed: 0"]) ;;
  test_d <- deref test_df ;;
  test_d <- lift_at 42 (drop_columns test_d ["Unnamed: 0"]) ;;
  X_train <- lift_at 44 (drop_columns train_d ["booking_status"]) ;;
  y_train <- lift_at 45 (getitem train_d "booking_status") ;;
  X_test <- lift_at 47 (drop_columns test_d ["booking_status"]) ;;
  y_test <- lift_at 48 (getitem test_d "booking_status") ;;
  logger_info "Data loaded and split into features and target variable" ;;
  ret (mk_split X_train y_train X_test y_test).

Definition load_and_split_data (self : t) : M split :=
  try_except (load_and_split_data_try self)
    (wrap "Error occurred while loading and splitting the data: "
          "Failed to load and split the data").

(** The [try] block of [train_lgbm]. *)
Definition train_lgbm_try (self : t) (X_train : DataFrame) (y_train : Series)
    : MB model :=
  logger_info "Training the model using LightGBM" ;;
  logger_info "Performing Randomized Search for hyperparameter tuning" ;;
  logger_info "Hyperparameter tuning started" ;;
  fitted <- lift_at 79
    (random_search_fit (random_state (random_search_params self))
       (params_dist self) (random_search_params self) X_train y_train) ;;
  logger_info "Hyperparameter tuning completed" ;;
  let best_params := fst fitted in
  let best_lgbm_model := snd fitted in
  logger_info ("Best parameters found: " +:+ str_params best_params) ;;
  logger_info "Model training completed successfully" ;;
  ret best_lgbm_model.

Definition train_lgbm (self : t) (X_train : DataFrame) (y_train : Series) : M model :=
  try_except (train_lgbm_try self X_train y_train)
    (wrap "Error occurred during model training: " "Failed to train the model").

(** The [try] block of [evaluate_model]. *)
Definition evaluate_model_try (self : t) (m : model) (X_test : DataFrame) (y_test : Series)
    : MB (list (string * float)) :=
  logger_info "Evaluating the model" ;;
  y_pred <- lift_at 98 (predict m X_test) ;;
  accuracy <- lift_at 100 (accuracy_score y_test y_pred) ;;
  precision <- lift_at 101 (precision_score y_test y_pred) ;;
  recall <- lift_at 102 (recall_score y_test y_pred) ;;
  f1 <- lift_at 103 (f1_score y_test y_pred) ;;
  logger_info ("Model evaluation completed with accuracy: " +:+ str_float accuracy) ;;
  logger_info ("Model evaluation completed with precision: " +:+ str_float precision) ;;
  logger_info ("Model evaluation completed with recall: " +:+ str_float recall) ;;
  logger_info ("Model evaluation completed with f1: " +:+ str_float f1) ;;
  ret [("accuracy", accuracy); ("precision", precision);
       ("recall", recall); ("f1_score", f1)].

Definition evaluate_model (self : t) (m : model) (X_test : DataFrame) (y_test : Series)
    : M (list (string * float)) :=
  try_except (evaluate_model_try self m X_test y_test)
    (wrap "Error occurred during model evaluation: " "Failed to evaluate the model").

(** The [try] block of [save_model]. *)
Definition save_model_try (self : t) (m : model) : MB unit :=
  lift_at 124 (os_makedirs (os_path_dirname (model_output_path self))) ;;
  logger_info ("Saving the model to " +:+ model_output_path self) ;;
  write_at 127 (model_output_path self) (FModel m) ;;
  logger_info ("Model saved successfully to " +:+ model_output_path self).

(** [save_model(self, model)]: the directory is made, then [joblib.dump]
    writes the model file. *)
Definition save_model (self : t) (m : model) : M unit :=
  try_except (save_model_try self m)
    (wrap "Error occurred while saving the model: " "Failed to save the model").

(** [mlflow.log_artifact(path, artifact_path)]: uploads the local file. *)
Definition log_artifact (path : string) (artifact_path : option string) : M unit :=
  f <- read_file path ;;
  tracker_call (mlflow_log_artifact path artifact_path f).

(** The block under [with mlflow.start_run():]. *)
Definition run_body (self : t) : MB unit :=
  logger_info "Starting the model training process" ;;
  logger_info "Starting our MLFLOW experiment" ;;
  logger_info "Logging the training and testing dataset to MLFLOW" ;;
  at_line 143 (log_artifact (train_path self) (Some "datasets")) ;;
  at_line 144 (log_artifact (test_path self) (Some "datasets")) ;;
  data <- at_line 146 (load_and_split_data self) ;;
  best_lgbm_model <- at_line 147 (train_lgbm self (X_train data) (y_train data)) ;;
  metrics <- at_line 148
    (evaluate_model self best_lgbm_model (X_test data) (y_test data)) ;;
  at_line 149 (save_model self best_lgbm_model) ;;
  logger_info "Logging the model parameters and metrics to MLFLOW" ;;
  at_line 152 (log_artifact (model_output_path self) None) ;;
  at_line 154 (tracker_call (mlflow_log_params (get_params best_lgbm_model))) ;;
  logger_info "Logging the model metrics to MLFLOW" ;;
  at_line 157 (tracker_call (mlflow_log_metrics metrics)) ;;
  logger_info "Model training process completed successfully".

(** The [try] block of [run]. *)
Definition run_try (self : t) : MB unit :=
  with_ 136 (tracker_call mlflow_start_run)
    (fun completed =>
       tracker_call (mlflow_end_run (if completed then "FINISHED" else "FAILED")))
    (run_body self).

Definition run (self : t) : M unit :=
  try_except (run_try self)
    (wrap "Error occurred during model training: " "Failed to train the model").

End Methods.
End ModelTraining.

(** ** Notions the statements use *)

(** The number of entries of [y] of class [a]. *)
Definition count_class (a : cell) (y : Series) : nat :=
  length (List.filter (cell_eqb a) y).

(** The number of records [r] in a log. *)
Definition count_record (r : level * string) (l : list (level * string)) : nat :=
  length (List.filter
            (fun q => match fst q, fst r with
                      | INFO, INFO | ERROR, ERROR => String.eqb (snd q) (snd r)
                      | _, _ => false
                      end) l).

(** [X'] holds the rows of [X] and possibly more below them. *)
Definition extends_rows (X X' : DataFrame) : Prop :=
  forall c s, getitem X c = Returns s -> exists more, getitem X' c = Returns (s ++ more).

Section Notions.
Context `{L : Libs} `{C : !Consts}.

(** [post m w Q]: if [m] returns from [w], its result and final world
    satisfy [Q]. *)
Definition post {E A : Type} (m : ST E A) (w : world) (Q : A -> world -> Prop) : Prop :=
  match m w with
  | (Returns a, w') => Q a w'
  | (Raises _, _) => True
  end.

(** A step that only changes the frame at [df], in place. *)
Definition touches_only (df : loc) (w w' : world) : Prop :=
  fs w' = fs w /\ length (heap w') = length (heap w) /\
  (forall l, l <> df -> heap w' !! l = heap w !! l) /\
  np_random w' = np_random w /\ mlflow w' = mlflow w.

(** The log only grows, by records satisfying [P]. *)
Definition log_grows (P : level * string -> Prop) (w w' : world) : Prop :=
  exists added, log w' = log w ++ added /\ Forall P added.

(** The records [preprocess_data] writes when it completes. *)
Definition preprocess_record (q : level * string) : Prop :=
  fst q = INFO /\
  (In (snd q) [" Starting the Preprocessing data"; "Dropping unnecessary columns";
               "Applying Label Encoding"; "Label Mapping are: "; "Skewness handling"]
   \/ exists a b, snd q = a +:+ ": " +:+ b).

(** What the loops of [preprocess_data] keep. *)
Definition preprocess_inv (df : loc) (w0 : world) (cols : list string) (w : world) : Prop :=
  touches_only df w0 w /\ log_grows preprocess_record w0 w /\
  columns (heap w !!! df) = cols.

(** [out] is the frame [balanced_data] builds from [d], the oversampler
    taking the random state from [g] to [g']. *)
Definition balanced_from (g : rng) (d : DataFrame) (g' : rng) (out : DataFrame) : Prop :=
  exists X y X' y',
    drop_columns d ["booking_status"] = Returns X /\
    getitem d "booking_status" = Returns y /\
    smote_fit_resample g X y = (Returns (X', y'), g') /\
    out = setitem (DataProcessor.DataFrame_with_columns X' (columns X)) "booking_status" y'.

(** [sel] is the frame [select_feature] projects [d] onto, [top] the
    features the random forest fitted on [d] ranks first. *)
Definition selected_from (self : DataProcessor.t) (d : DataFrame)
    (top : list string) (sel : DataFrame) : Prop :=
  exists X y importance,
    drop_columns d ["booking_status"] = Returns X /\
    getitem d "booking_status" = Returns y /\
    rf_feature_importances 42 X y = Returns importance /\
    DataProcessor.top_features (columns X) importance
      (no_of_features (data_processing (DataProcessor.config self))) = Returns top /\
    getitem_list d (top ++ ["booking_status"]) = Returns sel.

(** [d] is what [preprocess_data] makes, in place, of a frame [raw]. *)
Definition preprocessed_from (self : DataProcessor.t) (raw d : DataFrame) : Prop :=
  exists l wa wb,
    heap wa !!! l = raw /\
    DataProcessor.preprocess_data self l wa = (Returns l, wb) /\
    heap wb !!! l = d.

(** Whether a string holds a colon. *)
Fixpoint contains_colon (s : string) : bool :=
  match s with
  | EmptyString => false
  | String c s' => Ascii.eqb c (Ascii.ascii_of_nat 58) || contains_colon s'
  end.


(** The exception is the [CustomException] raised, in the module loaded
    from [file_name], for the cause [cause] with the message
    [error_message cause]. *)
Definition wrapped_by (file_name : string) (error_message : exn -> string) (e : exn) : Prop :=
  exists n cause,
    e = new_CustomException file_name n cause (error_message cause) cause.

End Notions.

(** ** Further notions *)

Section MoreNotions.
Context `{L : Libs} `{C : !Consts}.

(** [ends m w Q]: the world [m] leaves from [w] satisfies [Q], whether
    [m] returns or raises. *)
Definition ends {E A : Type} (m : ST E A) (w : world) (Q : world -> Prop) : Prop :=
  Q (snd (m w)).

(** The columns [preprocess_data] assigns to: the configured categorical
    columns (line 46), the two counters (lines 57-58), and, among the
    configured numerical columns, the skewed ones (line 64). *)
Definition assigned_columns (self : DataProcessor.t) : list string :=
  categorical_columns (data_processing (DataProcessor.config self))
    ++ ["no_of_previous_cancellations"; "no_of_previous_bookings_not_canceled"]
    ++ numerical_columns (data_processing (DataProcessor.config self)).

End MoreNotions.

(** A frame with one value per row in every column. *)
Definition rectangular (d : DataFrame) : Prop :=
  Forall (fun p => length (snd p) = length (df_index d)) (df_data d).

(** Labels that [read_csv] delivers as they were written: distinct, and
    none empty. *)
Definition plain_labels (d : DataFrame) : Prop :=
  List.NoDup (columns d) /\ ~ In "" (columns d).

(** ** The entry point of the training module *)

Section EntryPoints.
Context `{L : Libs} `{C : !Consts}.

(** [src/model_training.py], lines 166-177: the block under
    [if __name__ == "__main__":]. *)
Definition model_training_main : M unit :=
  try_except_CustomException
    (let model_trainer :=
       ModelTraining.init PROCESSED_TRAIN_DATA_PATH PROCESSED_TEST_DATA_PATH
         MODEL_OUTPUT_PATH in
     at_line 173 (ModelTraining.run model_trainer) ;;
     logger_info "Model training completed with evaluation metrics")
    (fun _ ce => logger_error ("Custom Exception: " +:+ str_exn ce)).

End EntryPoints.

(** ** A small instance of the libraries, to run the pipeline on examples

    These are stand-ins with the interface of the libraries, not the
    libraries: an oversampler that repeats rows, importances that count
    distinct values, a split that cuts the table at the ratio, a tracker
    that is reachable for a number of calls. *)

Module Toy.

Definition float_of_nat (n : nat) : float :=
  PrimFloat.of_uint63 (Uint63.of_Z (Z.of_nat n)).

Definition number (c : cell) : option float :=
  match c with
  | VInt z => Some (PrimFloat.of_uint63 (Uint63.of_Z z))
  | VFloat f => Some f
  | VStr _ => None
  end.

Definition numbers (s : Series) : outcome exn (list float) :=
  match mapM number s with
  | Some fs => Returns fs
  | None => Raises (PyError "TypeError" "could not convert string to float")
  end.

(** Stands for [log1p]: [x / (1 + x)]. *)
Definition log1p (s : Series) : outcome exn Series :=
  match numbers s with
  | Returns fs => Returns (map (fun x => VFloat (x / (1 + x))%float) fs)
  | Raises e => Raises e
  end.

Definition fsum (fs : list float) : float := fold_right PrimFloat.add 0%float fs.

Definition fmax (fs : list float) : float :=
  fold_right (fun x m => if PrimFloat.ltb m x then x else m) 0%float fs.

(** Stands for the skewness: the largest value minus twice the mean. *)
Definition tail_weight (s : Series) : outcome exn float :=
  match numbers s with
  | Returns fs =>
      Returns (fmax fs - 2 * (fsum fs / float_of_nat (length fs)))%float
  | Raises e => Raises e
  end.

Fixpoint insert_desc (p : string * float) (l : list (string * float)) : list (string * float) :=
  match l with
  | [] => [p]
  | q :: l' =>
      if PrimFloat.ltb (snd q) (snd p) then p :: q :: l' else q :: insert_desc p l'
  end.

Definition sort_desc (l : list (string * float)) : list (string * float) :=
  fold_right insert_desc [] l.

(** The distinct values of a column, in order of first appearance. *)
Fixpoint distinct (s : Series) : Series :=
  match s with
  | [] => []
  | a :: s' => a :: List.filter (fun b => negb (cell_eqb a b)) (distinct s')
  end.

Fixpoint position (a : cell) (s : Series) : option nat :=
  match s with
  | [] => None
  | b :: s' => if cell_eqb a b then Some 0%nat else option_map S (position a s')
  end.

Definition fit (col : Series) : outcome exn Series := Returns (distinct col).

Definition transform (classes_ col : Series) : outcome exn Series :=
  match mapM (fun a => option_map (fun i => VInt (Z.of_nat i)) (position a classes_)) col with
  | Some codes => Returns codes
  | None => Raises (ValueError "y contains previously unseen labels")
  end.

(** The rows the oversampler repeats: for each class short of the largest
    one, its first row as many times as it is short. *)
Definition repeated_rows (y : Series) : list nat :=
  let most := fold_right Nat.max 0%nat (map (fun a => count_class a y) (distinct y)) in
  flat_map (fun a =>
              match position a y with
              | Some i => repeat i (most - count_class a y)%nat
              | None => []
              end) (distinct y).

Definition take_rows (s : Series) (idx : list nat) : Series :=
  omap (fun i => s !! i) idx.

Definition fit_resample (g : nat) (X : DataFrame) (y : Series)
    : outcome exn (DataFrame * Series) * nat :=
  if (length (distinct y) <? 2)%nat then
    (Raises (ValueError "The target 'y' needs to have more than 1 class."), g)
  else
    let idx := repeated_rows y in
    (Returns
       (mkDataFrame (range_index (length y + length idx))
          (map (fun p => (fst p, snd p ++ take_rows (snd p) idx)) (df_data X)),
        y ++ take_rows y idx),
     S g).

Definition feature_importances (seed : Z) (X : DataFrame) (y : Series)
    : outcome exn (list float) :=
  Returns (map (fun p => float_of_nat (length (distinct (snd p)))) (df_data X)).

(** The number of test rows: the least [k] with [n * test_size <= k]. *)
Definition n_test (n : nat) (test_size : float) : nat :=
  length (List.filter
            (fun k => PrimFloat.ltb (float_of_nat k) (float_of_nat n * test_size)%float)
            (seq 0 n)).

Definition split (d : DataFrame) (test_size : float) (seed : Z)
    : outcome exn (DataFrame * DataFrame) :=
  let n := length (df_index d) in
  let k := n_test n test_size in
  if (k =? 0)%nat || (n <=? k)%nat then
    Raises (ValueError "the resulting train set will be empty")
  else
    Returns
      (mkDataFrame (firstn (n - k) (df_index d))
         (map (fun p => (fst p, firstn (n - k) (snd p))) (df_data d)),
       mkDataFrame (skipn (n - k) (df_index d))
         (map (fun p => (fst p, skipn (n - k) (snd p))) (df_data d))).

(** The bookings table in the bucket. *)
Definition bookings : csv :=
  [ ("Booking_ID",
     map VStr ["INN01"; "INN02"; "INN03"; "INN04"; "INN05";
               "INN06"; "INN07"; "INN08"; "INN09"; "INN10"]);
    ("type_of_meal_plan",
     map VStr ["Meal Plan 1"; "Not Selected"; "Meal Plan 1"; "Meal Plan 2"; "Meal Plan 1";
               "Meal Plan 1"; "Not Selected"; "Meal Plan 1"; "Meal Plan 2"; "Meal Plan 1"]);
    ("lead_time", map VInt [5; 2; 1; 211; 48; 3; 34; 83; 4; 7]);
    ("no_of_previous_cancellations", map VInt [0; 0; 1; 0; 0; 0; 2; 0; 0; 0]);
    ("no_of_previous_bookings_not_canceled", map VInt [0; 3; 0; 0; 1; 0; 0; 5; 0; 0]);
    ("booking_status",
     map VStr ["Not_Canceled"; "Not_Canceled"; "Canceled"; "Canceled"; "Not_Canceled";
               "Canceled"; "Not_Canceled"; "Canceled"; "Not_Canceled"; "Not_Canceled"]) ].

(** The model of the toy search: the class it always predicts. *)
Definition search_fit (seed : Z) (dist : unit) (rs : rs_params) (X : DataFrame) (y : Series)
    : outcome exn (list (string * Z) * cell) :=
  match y with
  | [] => Raises (ValueError "Found array with 0 sample(s)")
  | a :: _ => Returns ([("n_estimators", 100)], a)
  end.

Definition score (y_true y_pred : Series) : outcome exn float :=
  if Nat.eqb (length y_true) (length y_pred) then
    Returns (float_of_nat
               (length (List.filter (fun p => cell_eqb (fst p) (snd p)) (combine y_true y_pred)))
             / float_of_nat (length y_true))%float
  else Raises (ValueError "Found input variables with inconsistent numbers of samples").

(** The model of the toy search predicts its class for every row; a table
    without rows is refused. *)
Definition toy_predict (m : cell) (X : DataFrame) : outcome exn Series :=
  match df_index X with
  | [] => Raises (ValueError "Found array with 0 sample(s)")
  | index => Returns (repeat m (length index))
  end.

(** The tracker answers as many logging calls as its state says, then it
    is unreachable; closing a run is local and always succeeds. *)
Definition tracker_call (t : nat) : outcome exn unit * nat :=
  match t with
  | O => (Raises (PyError "MlflowException" "API request failed"), O)
  | S t' => (Returns tt, t')
  end.

Fixpoint has_slash (p : string) : bool :=
  match p with
  | EmptyString => false
  | String c rest => String.eqb (String c EmptyString) "/" || has_slash rest
  end.

(** The directory part of a path: what comes before its last slash. *)
Fixpoint dirname (p : string) : string :=
  match p with
  | EmptyString => EmptyString
  | String c rest => if has_slash rest then String c (dirname rest) else EmptyString
  end.

(** Nothing can be written under [/mnt/readonly], and a write under
    [/mnt/full] stops after the file was opened. *)
Definition write (path : string) (f : file cell) : outcome (exn * leftover cell) unit :=
  if String.prefix "/mnt/readonly" path then
    Raises (PyError "PermissionError" path, Untouched)
  else if String.prefix "/mnt/full" path then
    Raises (PyError "OSError" "No space left on device", Partial (FCsv []))
  else Returns tt.

Definition makedirs (path : string) : outcome exn unit :=
  if String.prefix "/mnt/readonly" path then Raises (PyError "PermissionError" path)
  else Returns tt.

(** The bucket holds one object; a download of another one is refused and
    the file it had opened is removed. *)
Definition download (bucket name path : string)
    : outcome (exn * leftover cell) (file cell) :=
  if String.eqb bucket "hotel-bucket" && String.eqb name "Hotel_Reservations.csv"
  then Returns (FCsv bookings)
  else Raises (PyError "NotFound" ("No such object: " +:+ bucket +:+ "/" +:+ name),
               Removed).

Lemma insert_desc_perm p l : Permutation (insert_desc p l) (p :: l).
Proof.
  induction l as [|q l IH]; simpl; [reflexivity|].
  destruct (PrimFloat.ltb (snd q) (snd p)); [reflexivity|].
  rewrite IH. apply perm_swap.
Qed.

Lemma sort_desc_perm l : Permutation (sort_desc l) l.
Proof.
  induction l as [|p l IH]; simpl; [reflexivity|].
  rewrite insert_desc_perm. now constructor.
Qed.

Definition libs : Libs := {|
  model := cell;
  params := list (string * Z);
  param_dist := unit;
  rng := nat;
  tracker := nat;
  str_error := fun _ about => about;
  str_dict := fun _ => "{...}";
  str_array := fun l => String.concat " " l;
  str_float := fun _ => "0.5";
  str_params := fun _ => "{...}";
  le_fit := fit;
  le_transform := transform;
  np_log1p := log1p;
  skew := tail_weight;
  sort_values_desc := sort_desc;
  sort_values_desc_perm := sort_desc_perm;
  smote_fit_resample := fit_resample;
  rf_feature_importances := feature_importances;
  train_test_split := split;
  file_write := write;
  os_path_dirname := dirname;
  os_makedirs := makedirs;
  storage_client := Returns tt;
  storage_download := download;
  random_search_fit := search_fit;
  predict := toy_predict;
  accuracy_score := score;
  precision_score := score;
  recall_score := score;
  f1_score := score;
  get_params := fun _ => [("n_estimators", 100)];
  mlflow_start_run := tracker_call;
  mlflow_end_run := fun _ t => (Returns tt, t);
  mlflow_log_artifact := fun _ _ f t =>
    match f with
    | Some _ => tracker_call t
    | None => (Raises (PyError "MlflowException" "no such file"), t)
    end;
  mlflow_log_params := fun _ => tracker_call;
  mlflow_log_metrics := fun _ => tracker_call
|}.

#[local] Existing Instance libs.

Definition consts : Consts := {|
  RAW_FILE_PATH := "artifacts/raw/raw.csv";
  TRAIN_FILE_PATH := "artifacts/raw/train.csv";
  TEST_FILE_PATH := "artifacts/raw/test.csv";
  PROCESSED_TRAIN_DATA_PATH := "artifacts/processed/processed_train.csv";
  PROCESSED_TEST_DATA_PATH := "artifacts/processed/processed_test.csv";
  MODEL_OUTPUT_PATH := "artifacts/models/lgbm_model.pkl";
  LIGHTGBM_PARAMS := tt;
  RANDOM_SEARCH_PARAMS := mk_rs_params 4 2 (-1) 2 42 "accuracy";
  data_ingestion_py := "src/data_ingestion.py";
  data_preprocessing_py := "src/data_preprocessing.py";
  model_training_py := "src/model_training.py"
|}.

#[local] Existing Instance consts.

(** The configuration, with the train ratio left open. *)
Definition config (ratio : float) (bucket : string) : Config :=
  mkConfig
    (mk_data_ingestion_config bucket "Hotel_Reservations.csv" ratio)
    (mk_data_processing_config
       ["type_of_meal_plan"; "booking_status"]
       ["lead_time"; "no_of_previous_cancellations"; "no_of_previous_bookings_not_canceled"]
       5 3).

Definition ingestion (ratio : float) (bucket : string) : DataIngestion.t :=
  DataIngestion.attributes (config ratio bucket).

Definition processor : DataProcessor.t :=
  DataProcessor.mk TRAIN_FILE_PATH TEST_FILE_PATH "artifacts/processed"
    (config 0.75 "hotel-bucket").

Definition trainer : ModelTraining.t :=
  ModelTraining.init PROCESSED_TRAIN_DATA_PATH PROCESSED_TEST_DATA_PATH MODEL_OUTPUT_PATH.

(** An empty disk, no frame, an empty log; the tracker answers [calls]
    calls. *)
Definition start (calls : nat) : world := mkWorld ∅ [] [] 0%nat calls.

(** The world after the ingestion stage ran with [ratio]. *)
Definition ingested (ratio : float) (calls : nat) : world :=
  snd (DataIngestion.run (ingestion ratio "hotel-bucket") (start calls)).

(** ... and after the processing stage. *)
Definition processed (ratio : float) (calls : nat) : world :=
  snd (DataProcessor.process processor (ingested ratio calls)).

(** The table in the file at [path]. *)
Definition table_at (w : world) (path : string) : csv :=
  match fs w !! path with
  | Some (FCsv c) => c
  | _ => []
  end.

(** The train table of the ingestion stage, read into a frame at
    reference 0. *)
Definition loaded : world :=
  mkWorld ∅ [read_csv (table_at (ingested 0.75 10) TRAIN_FILE_PATH)] [] 0%nat 10%nat.

(** The world after the download alone. *)
Definition downloaded : world :=
  snd (DataIngestion.download_csv_from_gcp (ingestion 0.75 "hotel-bucket") (start 10)).

(** The exception of an outcome. *)
Definition raised {A : Type} (r : outcome exn A) : exn :=
  match r with
  | Raises e => e
  | Returns _ => PyError "" ""
  end.

(** ... and preprocessed in place. *)
Definition preprocessed : world :=
  snd (DataProcessor.preprocess_data processor 0%nat loaded).

Definition features (d : DataFrame) : DataFrame :=
  match drop_columns d ["booking_status"] with
  | Returns X => X
  | Raises _ => empty_frame
  end.

Definition labels (d : DataFrame) : Series :=
  match getitem d "booking_status" with
  | Returns y => y
  | Raises _ => []
  end.

(** What the oversampler makes of a table. *)
Definition oversampled_frame (d : DataFrame) : DataFrame :=
  mkDataFrame
    (range_index (length (labels d) + length (repeated_rows (labels d))))
    (map (fun p : string * Series =>
            (fst p, (snd p ++ take_rows (snd p) (repeated_rows (labels d)) : Series)))
       (df_data (features d))).

Definition oversampled_labels (d : DataFrame) : Series :=
  labels d ++ take_rows (labels d) (repeated_rows (labels d)).

(** The skewness measured on a table, for the configured columns. *)
Definition skewness_of (d : DataFrame) : list (string * float) :=
  match DataProcessor.measure_skewness d
          (numerical_columns (data_processing (DataProcessor.config processor))) with
  | Returns sk => sk
  | Raises _ => []
  end.

End Toy.

(** ** The same instance with two refusals of the real libraries

    No credentials for the bucket, and SMOTE's need of six rows (a row and
    its five neighbours) in every class it has to fill up. *)

Module Strict.

(** The classes the oversampler has to fill up and cannot: fewer rows than
    the largest class, and fewer than six. *)
Definition short_classes (y : Series) : list cell :=
  let most := fold_right Nat.max 0%nat (map (fun a => count_class a y) (Toy.distinct y)) in
  List.filter (fun a => (count_class a y <? most)%nat && (count_class a y <? 6)%nat)
    (Toy.distinct y).

Definition fit_resample (g : nat) (X : DataFrame) (y : Series)
    : outcome exn (DataFrame * Series) * nat :=
  match short_classes y with
  | [] => Toy.fit_resample g X y
  | a :: _ =>
      (Raises (ValueError
                 ("Expected n_neighbors <= n_samples_fit, but n_neighbors = 6, "
                    +:+ "n_samples_fit = " +:+ pretty (count_class a y)
                    +:+ ", n_samples = " +:+ pretty (count_class a y))), g)
  end.

Definition libs : Libs := {|
  model := cell;
  params := list (string * Z);
  param_dist := unit;
  rng := nat;
  tracker := nat;
  str_error := @str_error Toy.libs;
  str_dict := @str_dict Toy.libs;
  str_array := @str_array Toy.libs;
  str_float := @str_float Toy.libs;
  str_params := @str_params Toy.libs;
  le_fit := Toy.fit;
  le_transform := Toy.transform;
  np_log1p := Toy.log1p;
  skew := Toy.tail_weight;
  sort_values_desc := Toy.sort_desc;
  sort_values_desc_perm := Toy.sort_desc_perm;
  smote_fit_resample := fit_resample;
  rf_feature_importances := Toy.feature_importances;
  train_test_split := Toy.split;
  file_write := Toy.write;
  os_path_dirname := Toy.dirname;
  os_makedirs := Toy.makedirs;
  storage_client :=
    Raises (PyError "DefaultCredentialsError"
              "Your default credentials were not found.");
  storage_download := Toy.download;
  random_search_fit := Toy.search_fit;
  predict := @predict Toy.libs;
  accuracy_score := Toy.score;
  precision_score := Toy.score;
  recall_score := Toy.score;
  f1_score := Toy.score;
  get_params := @get_params Toy.libs;
  mlflow_start_run := Toy.tracker_call;
  mlflow_end_run := @mlflow_end_run Toy.libs;
  mlflow_log_artifact := @mlflow_log_artifact Toy.libs;
  mlflow_log_params := @mlflow_log_params Toy.libs;
  mlflow_log_metrics := @mlflow_log_metrics Toy.libs
|}.

Definition consts : @Consts libs := {|
  RAW_FILE_PATH := @RAW_FILE_PATH _ Toy.consts;
  TRAIN_FILE_PATH := @TRAIN_FILE_PATH _ Toy.consts;
  TEST_FILE_PATH := @TEST_FILE_PATH _ Toy.consts;
  PROCESSED_TRAIN_DATA_PATH := @PROCESSED_TRAIN_DATA_PATH _ Toy.consts;
  PROCESSED_TEST_DATA_PATH := @PROCESSED_TEST_DATA_PATH _ Toy.consts;
  MODEL_OUTPUT_PATH := @MODEL_OUTPUT_PATH _ Toy.consts;
  LIGHTGBM_PARAMS := (tt : @param_dist libs);
  RANDOM_SEARCH_PARAMS := @RANDOM_SEARCH_PARAMS _ Toy.consts;
  data_ingestion_py := @data_ingestion_py _ Toy.consts;
  data_preprocessing_py := @data_preprocessing_py _ Toy.consts;
  model_training_py := @model_training_py _ Toy.consts
|}.

(** A world of this instance holding one table, at reference 0. *)
Definition holding (d : DataFrame) : @world libs := @mkWorld libs ∅ [d] [] 0%nat 10%nat.


End Strict.

(** ** More tables of the small instance *)

Module ToyTables.

#[local] Existing Instance Toy.libs.
#[local] Existing Instance Toy.consts.

(** The two partitions of the bookings table at the train ratio 0.75. *)
Definition partitions : DataFrame * DataFrame :=
  match train_test_split (read_csv Toy.bookings) (PrimFloat.sub 1 0.75) 42 with
  | Returns p => p
  | Raises _ => (empty_frame, empty_frame)
  end.

Definition train_data : DataFrame := fst partitions.
Definition test_data : DataFrame := snd partitions.

(** Three bookings, the first two alike in every field but "Booking_ID". *)
Definition twins : DataFrame :=
  mkDataFrame [4; 7; 9]
    [ ("Booking_ID", map VStr ["INN05"; "INN08"; "INN10"]);
      ("type_of_meal_plan", map VStr ["Meal Plan 1"; "Meal Plan 1"; "Not Selected"]);
      ("lead_time", map VInt [48; 48; 7]);
      ("no_of_previous_cancellations", map VInt [0; 0; 1]);
      ("no_of_previous_bookings_not_canceled", map VInt [1; 1; 0]);
      ("booking_status", map VStr ["Canceled"; "Canceled"; "Not_Canceled"]) ].

(** The twins written with their row labels, as the splitter writes, and
    read into a frame at reference 0. *)
Definition twins_loaded : world :=
  mkWorld ∅ [read_csv (to_csv twins true)] [] 0%nat 10%nat.

(** The twins written without row labels. *)
Definition twins_unlabelled : world :=
  mkWorld ∅ [read_csv (to_csv twins false)] [] 0%nat 10%nat.

(** The preprocessed train table without its label column, at
    reference 0. *)
Definition unlabelled : world :=
  mkWorld ∅ [Toy.features (heap Toy.preprocessed !!! 0%nat)] [] 0%nat 10%nat.

(** Two bookings of one class, at reference 0. *)
Definition one_class : world :=
  mkWorld ∅
    [mkDataFrame [0; 1]
       [ ("lead_time", map VInt [5; 48]); ("booking_status", map VInt [0; 0]) ]]
    [] 0%nat 10%nat.

(** The preprocessed train table balanced: the new table is at
    reference 1. *)
Definition balanced : world :=
  snd (DataProcessor.balanced_data Toy.processor 0%nat Toy.preprocessed).

(** The processor configured to keep [k] features. *)
Definition processor_keeping (k : Z) : DataProcessor.t :=
  DataProcessor.mk TRAIN_FILE_PATH TEST_FILE_PATH "artifacts/processed"
    (mkConfig
       (mk_data_ingestion_config "hotel-bucket" "Hotel_Reservations.csv" 0.75)
       (mk_data_processing_config
          ["type_of_meal_plan"; "booking_status"]
          ["lead_time"; "no_of_previous_cancellations";
           "no_of_previous_bookings_not_canceled"]
          5 k)).

(** The disk after the download, the raw file emptied. *)
Definition headerless : world :=
  mkWorld (<[RAW_FILE_PATH := FCsv []]> (fs Toy.downloaded)) [] [] 0%nat 10%nat.

(** The disk after the processing stage, the processed test file cut
    down to its header line. *)
Definition no_test_rows : world :=
  mkWorld
    (<[PROCESSED_TEST_DATA_PATH :=
         FCsv (map (fun p : string * Series => (fst p, []))
                 (Toy.table_at (Toy.processed 0.75 10) PROCESSED_TEST_DATA_PATH))]>
       (fs (Toy.processed 0.75 10)))
    [] [] 0%nat 10%nat.

(** The world after the processing stage, and then the training run. *)
Definition trained : world :=
  snd (ModelTraining.run Toy.trainer (Toy.processed 0.75 10)).

End ToyTables.

(** * Properties *)

(** ** Floating-point comparison *)



(** ** Frames *)

Lemma has_column_In d c : has_column d c = true <-> In c (columns d).
Proof.
  unfold has_column. rewrite existsb_exists. split.
  - intros (x & Hx & Heq). apply String.eqb_eq in Heq. now subst.
  - intros H. exists c. split; [assumption|apply String.eqb_refl].
Qed.

Lemma getitem_has d c s : getitem d c = Returns s -> has_column d c = true.
Proof.
  unfold getitem. destruct (List.find _ _) as [p|] eqn:Hf; [|discriminate].
  intros _. apply find_some in Hf as [Hin Heq]. apply String.eqb_eq in Heq.
  apply has_column_In. subst c. unfold columns. now apply in_map.
Qed.

Lemma has_getitem d c : has_column d c = true -> exists s, getitem d c = Returns s.
Proof.
  rewrite has_column_In. unfold columns, getitem. intros H.
  apply in_map_iff in H as (p & Hp & Hin).
  destruct (List.find _ _) as [q|] eqn:Hf; [eauto|].
  apply (find_none _ _ Hf) in Hin. rewrite Hp, String.eqb_refl in Hin. discriminate.
Qed.

Lemma columns_setitem d c s :
  has_column d c = true -> columns (setitem d c s) = columns d.
Proof.
  intros H. unfold setitem. rewrite H. unfold columns. simpl.
  rewrite map_map. apply map_ext_in. intros p _.
  destruct (String.eqb (fst p) c) eqn:E; [|reflexivity].
  apply String.eqb_eq in E. now subst.
Qed.

Lemma columns_setitem_new d c s :
  has_column d c = false -> columns (setitem d c s) = columns d ++ [c].
Proof.
  intros H. unfold setitem. rewrite H. unfold columns. simpl.
  now rewrite map_app.
Qed.

Lemma getitem_setitem d c s :
  has_column d c = true -> getitem (setitem d c s) c = Returns s.
Proof.
  intros H. unfold setitem. rewrite H. unfold getitem. simpl.
  apply has_column_In in H. unfold columns in H.
  induction (df_data d) as [|p l IH]; simpl in *; [contradiction|].
  destruct (String.eqb (fst p) c) eqn:E; simpl.
  - now rewrite String.eqb_refl.
  - rewrite E. apply IH. destruct H as [H|H]; [|assumption].
    subst. rewrite String.eqb_refl in E. discriminate.
Qed.

Lemma getitem_setitem_other d c c' s :
  c' <> c -> getitem (setitem d c s) c' = getitem d c'.
Proof.
  intros Hne. unfold setitem, getitem.
  assert (Hmap : forall l,
    List.find (fun p => String.eqb (fst p) c')
      (map (fun p : string * Series => if String.eqb (fst p) c then (c, s) else p) l)
    = match List.find (fun p => String.eqb (fst p) c') l with
      | Some p => Some p
      | None => None
      end).
  { induction l as [|p l IH]; simpl; [reflexivity|].
    destruct (String.eqb (fst p) c) eqn:E; simpl.
    - apply String.eqb_eq in E. rewrite E.
      destruct (String.eqb c c') eqn:E'.
      + apply String.eqb_eq in E'. congruence.
      + exact IH.
    - destruct (String.eqb (fst p) c'); [reflexivity|exact IH]. }
  destruct (has_column d c); simpl.
  - rewrite Hmap. now destruct (List.find _ _).
  - induction (df_data d) as [|p l IH]; simpl.
    + destruct (String.eqb c c') eqn:E'; [|reflexivity].
      apply String.eqb_eq in E'. congruence.
    + destruct (String.eqb (fst p) c'); [reflexivity|exact IH].
Qed.

Lemma drop_columns_one d c d' :
  drop_columns d [c] = Returns d' ->
  has_column d c = true /\
  df_index d' = df_index d /\
  df_data d' = List.filter (fun p => negb (String.eqb (fst p) c)) (df_data d).
Proof.
  unfold drop_columns. simpl. destruct (has_column d c); simpl; [|discriminate].
  intros [= <-]. simpl. repeat split.
  apply filter_ext. intros p. now rewrite orb_false_r.
Qed.

Lemma drop_columns_one_raises d c e :
  drop_columns d [c] = Raises e -> has_column d c = false /\ e = KeyError c.
Proof.
  unfold drop_columns. simpl. destruct (has_column d c); simpl; [discriminate|].
  now intros [= <-].
Qed.

Lemma columns_drop d c d' :
  drop_columns d [c] = Returns d' ->
  columns d' = List.filter (fun x => negb (String.eqb x c)) (columns d).
Proof.
  intros H. apply drop_columns_one in H as (_ & _ & Hd). unfold columns. rewrite Hd.
  clear Hd. induction (df_data d) as [|p l IH]; simpl; [reflexivity|].
  destruct (negb (String.eqb (fst p) c)); simpl; now rewrite IH.
Qed.

Lemma getitem_drop_other d c d' c' :
  drop_columns d [c] = Returns d' -> c' <> c -> getitem d' c' = getitem d c'.
Proof.
  intros H Hne. apply drop_columns_one in H as (_ & _ & Hd).
  unfold getitem. rewrite Hd. clear Hd.
  induction (df_data d) as [|p l IH]; simpl; [reflexivity|].
  destruct (String.eqb (fst p) c) eqn:E; simpl.
  - apply String.eqb_eq in E. destruct (String.eqb (fst p) c') eqn:E'; [|exact IH].
    apply String.eqb_eq in E'. congruence.
  - destruct (String.eqb (fst p) c'); [reflexivity|exact IH].
Qed.

Lemma columns_drop_duplicates d : columns (drop_duplicates d) = columns d.
Proof.
  unfold drop_duplicates, columns. destruct (df_data d) as [|p l] eqn:E.
  - now rewrite E.
  - simpl. f_equal. rewrite map_map. reflexivity.
Qed.

Lemma NoDup_filter_labels (f : string -> bool) l : List.NoDup l -> List.NoDup (List.filter f l).
Proof.
  induction 1 as [|x l Hx Hl IH]; simpl; [constructor|].
  destruct (f x); [|assumption]. constructor; [|assumption].
  intros Hin. apply Hx. now apply filter_In in Hin as [Hin _].
Qed.

(** With distinct labels, a label selects exactly the column so labelled. *)
Lemma filter_label_absent (data : list (string * Series)) c :
  ~ In c (map fst data) -> List.filter (fun p => String.eqb (fst p) c) data = [].
Proof.
  induction data as [|p l IH]; simpl; [reflexivity|]. intros Hn.
  destruct (String.eqb (fst p) c) eqn:E.
  - apply String.eqb_eq in E. exfalso. apply Hn. now left.
  - apply IH. intros Hin. apply Hn. now right.
Qed.

Lemma select_labelled (data : list (string * Series)) c :
  List.NoDup (map fst data) -> In c (map fst data) ->
  exists s, List.filter (fun p => String.eqb (fst p) c) data = [(c, s)].
Proof.
  induction data as [|[c0 s0] l IH]; simpl; [contradiction|].
  intros Hnd Hin. apply List.NoDup_cons_iff in Hnd as [Hc0 Hnd].
  destruct (String.eqb c0 c) eqn:E.
  - apply String.eqb_eq in E. subst c0. exists s0.
    now rewrite filter_label_absent.
  - destruct Hin as [Hin|Hin]; [subst; rewrite String.eqb_refl in E; discriminate|].
    exact (IH Hnd Hin).
Qed.

Lemma getitem_list_Returns d labels sub :
  getitem_list d labels = Returns sub ->
  (forall c, In c labels -> In c (columns d)) /\
  sub = mkDataFrame (df_index d)
          (flat_map (fun c => List.filter (fun p => String.eqb (fst p) c) (df_data d)) labels).
Proof.
  unfold getitem_list.
  destruct (List.filter _ labels) as [|c0 r] eqn:Hf; [|discriminate].
  intros [= <-]. split; [|reflexivity].
  intros c Hin. apply has_column_In.
  destruct (has_column d c) eqn:E; [reflexivity|]. exfalso.
  assert (Hc : In c (List.filter (fun c => negb (has_column d c)) labels)).
  { apply filter_In. split; [assumption|]. now rewrite E. }
  rewrite Hf in Hc. contradiction.
Qed.

Lemma getitem_list_present d labels :
  (forall c, In c labels -> In c (columns d)) ->
  getitem_list d labels =
    Returns (mkDataFrame (df_index d)
      (flat_map (fun c => List.filter (fun p => String.eqb (fst p) c) (df_data d)) labels)).
Proof.
  intros H. unfold getitem_list.
  destruct (List.filter _ labels) as [|c0 r] eqn:Hf; [reflexivity|]. exfalso.
  assert (Hc : In c0 (List.filter (fun c => negb (has_column d c)) labels))
    by (rewrite Hf; now left).
  apply filter_In in Hc as [Hin Hc]. apply H, has_column_In in Hin.
  rewrite Hin in Hc. discriminate.
Qed.

(** With distinct labels in the frame, [df[labels]] has exactly the
    columns [labels]. *)
Lemma getitem_list_columns d labels sub :
  List.NoDup (columns d) -> getitem_list d labels = Returns sub -> columns sub = labels.
Proof.
  intros Hnd H. apply getitem_list_Returns in H as [Hin ->]. unfold columns. simpl.
  induction labels as [|c labels IH]; simpl; [reflexivity|].
  rewrite map_app.
  destruct (select_labelled (df_data d) c Hnd) as [s Hs].
  { apply Hin. now left. }
  rewrite Hs. simpl. f_equal. apply IH. intros c' Hc'. apply Hin. now right.
Qed.

Lemma flat_map_agree {A B : Type} (f g : A -> list B) l :
  (forall x, In x l -> f x = g x) -> flat_map f l = flat_map g l.
Proof.
  induction l as [|x l IH]; simpl; [reflexivity|]. intros H.
  rewrite (H x) by now left. f_equal. apply IH. intros y Hy. apply H. now right.
Qed.

Lemma flat_map_select_self (data : list (string * Series)) :
  List.NoDup (map fst data) ->
  flat_map (fun c => List.filter (fun p => String.eqb (fst p) c) data) (map fst data) = data.
Proof.
  induction data as [|p l IH]; simpl; [reflexivity|].
  intros Hnd. apply List.NoDup_cons_iff in Hnd as [Hp Hnd].
  rewrite String.eqb_refl. rewrite (filter_label_absent l (fst p) Hp). simpl. f_equal.
  rewrite <- (IH Hnd) at 2. apply flat_map_agree. intros c Hc.
  destruct (String.eqb (fst p) c) eqn:E; [|reflexivity].
  apply String.eqb_eq in E. subst c. contradiction.
Qed.

(** [df[df.columns]] is a copy of [df] when its labels are distinct. *)
Lemma getitem_list_self d :
  List.NoDup (columns d) -> getitem_list d (columns d) = Returns d.
Proof.
  intros Hnd. rewrite getitem_list_present by auto.
  unfold columns. rewrite flat_map_select_self by assumption. now destruct d.
Qed.

Lemma firstn_sublist {A : Type} (n : nat) (l : list A) x : In x (firstn n l) -> In x l.
Proof.
  revert n. induction l as [|y l IH]; intros [|n]; simpl; try contradiction.
  intros [H|H]; [now left|right; eapply IH; eassumption].
Qed.

Lemma head_sublist {A : Type} (n : Z) (l : list A) x : In x (head n l) -> In x l.
Proof. unfold head. destruct (n <? 0)%Z; apply firstn_sublist. Qed.

Lemma NoDup_firstn_labels {A : Type} (n : nat) (l : list A) :
  List.NoDup l -> List.NoDup (firstn n l).
Proof.
  revert n. induction l as [|x l IH]; intros [|n] Hnd; simpl; try constructor.
  - apply List.NoDup_cons_iff in Hnd as [Hx Hnd]. intros Hin. apply Hx.
    eapply firstn_sublist; eassumption.
  - apply List.NoDup_cons_iff in Hnd as [Hx Hnd]. now apply IH.
Qed.

Lemma NoDup_head {A : Type} (n : Z) (l : list A) : List.NoDup l -> List.NoDup (head n l).
Proof. unfold head. destruct (n <? 0)%Z; apply NoDup_firstn_labels. Qed.

(** ** Reasoning about the methods *)

Section Hoare.
Context `{L : Libs}.

Lemma post_returns {E A : Type} (m : ST E A) w a w' Q :
  post m w Q -> m w = (Returns a, w') -> Q a w'.
Proof. unfold post. intros H E'. now rewrite E' in H. Qed.

(** A run is its result and its final world. *)
Lemma run_returns {E A : Type} (m : ST E A) w a :
  fst (m w) = Returns a -> m w = (Returns a, snd (m w)).
Proof. destruct (m w) as [r w']. simpl. now intros ->. Qed.

Lemma run_raises {E A : Type} (m : ST E A) w e :
  fst (m w) = Raises e -> m w = (Raises e, snd (m w)).
Proof. destruct (m w) as [r w']. simpl. now intros ->. Qed.

Lemma post_intro {E A : Type} (m : ST E A) w (Q : A -> world -> Prop) :
  (forall a w', m w = (Returns a, w') -> Q a w') -> post m w Q.
Proof. unfold post. intros H. destruct (m w) as [[a|e] w']; auto. Qed.

Lemma post_bind {E A B : Type} (m : ST E A) (k : A -> ST E B) w Qm Q :
  post m w Qm -> (forall a w1, Qm a w1 -> post (k a) w1 Q) -> post (bind m k) w Q.
Proof.
  unfold post, bind. intros Hm Hk. destruct (m w) as [[a|e] w1]; [|exact I].
  exact (Hk a w1 Hm).
Qed.

Lemma post_ret {E A : Type} (a : A) w (Q : A -> world -> Prop) :
  Q a w -> post (ret (E := E) a) w Q.
Proof. intros H. exact H. Qed.

Lemma post_try_except {A : Type} (body : MB A) handler w Q :
  post body w Q -> (forall n e w1, post (handler n e) w1 Q) ->
  post (try_except body handler) w Q.
Proof.
  unfold post at 1 3, try_except. intros Hb Hh.
  destruct (body w) as [[a|[n e]] w1]; [assumption|]. apply Hh.
Qed.

Lemma post_for_each {E A S : Type} (l : list A) (body : S -> A -> ST E S)
    (I : S -> world -> Prop) s w :
  I s w -> (forall s x w1, In x l -> I s w1 -> post (body s x) w1 I) ->
  post (for_each l s body) w I.
Proof.
  revert s w. induction l as [|x l IH]; intros s w Hs Hb; simpl.
  - exact Hs.
  - eapply post_bind.
    + apply Hb; [now left|exact Hs].
    + intros s' w1 Hs'. apply IH; [exact Hs'|].
      intros s0 x0 w0 Hin. apply Hb. now right.
Qed.

(** The frame heap: references in range, and frames that stay. *)
Lemma frame_in_range (h : list DataFrame) l c :
  has_column (h !!! l) c = true -> (l < length h)%nat.
Proof.
  intros H. destruct (decide (l < length h)%nat) as [|Hge]; [assumption|].
  rewrite list_lookup_total_alt, lookup_ge_None_2 in H by lia. discriminate.
Qed.

Lemma heap_snoc_old (h : list DataFrame) d l :
  (l < length h)%nat -> (h ++ [d]) !!! l = h !!! l.
Proof. intros H. now apply lookup_total_app_l. Qed.

Lemma heap_snoc_new (h : list DataFrame) d : (h ++ [d]) !!! length h = d.
Proof. now rewrite list_lookup_total_middle. Qed.

End Hoare.

Section DataProcessorSpecs.
Context `{L : Libs} `{C : !Consts}.

Lemma touches_only_trans df w1 w2 w3 :
  touches_only df w1 w2 -> touches_only df w2 w3 -> touches_only df w1 w3.
Proof.
  intros (F1 & N1 & H1 & R1 & T1) (F2 & N2 & H2 & R2 & T2).
  repeat split; try congruence. intros l Hl. now rewrite H2, H1.
Qed.

Lemma log_grows_trans P w1 w2 w3 :
  log_grows P w1 w2 -> log_grows P w2 w3 -> log_grows P w1 w3.
Proof.
  intros (a & Ha & Pa) (b & Hb & Pb). exists (a ++ b). split.
  - now rewrite Hb, Ha, app_assoc.
  - now apply Forall_app.
Qed.

Lemma log_grows_info (P : level * string -> Prop) w msg :
  P (INFO, msg) -> log_grows P w (set_log (log w ++ [(INFO, msg)]) w).
Proof. intros H. exists [(INFO, msg)]. split; [reflexivity|]. now repeat constructor. Qed.

Lemma touches_only_same_frames df w w' :
  heap w' = heap w -> fs w' = fs w -> np_random w' = np_random w ->
  mlflow w' = mlflow w -> touches_only df w w'.
Proof. intros H1 H2 H3 H4. repeat split; try assumption; now rewrite H1. Qed.

Lemma touches_only_store df w d :
  touches_only df w (set_heap (<[df := d]> (heap w)) w).
Proof.
  repeat split; simpl.
  - apply length_insert.
  - intros l Hl. now apply list_lookup_insert_ne.
Qed.

Lemma stored_frame (h : list DataFrame) df d c :
  has_column (h !!! df) c = true -> <[df := d]> h !!! df = d.
Proof. intros H. apply list_lookup_total_insert_eq. eapply frame_in_range, H. Qed.

(** A frame elsewhere in the heap is the same after a step on [df]. *)
(** [df[c] = f(df[c])] keeps the labels of the frame and every other
    frame. *)
Lemma update_column_spec n df c f w :
  post (update_column n df c f) w (fun _ w' =>
    touches_only df w w' /\ log w' = log w /\
    columns (heap w' !!! df) = columns (heap w !!! df) /\
    exists s s', getitem (heap w !!! df) c = Returns s /\ f s = Returns s' /\
                 heap w' !!! df = setitem (heap w !!! df) c s').
Proof.
  unfold post, update_column, bind, deref, lift_at, store.
  destruct (getitem (heap w !!! df) c) as [s|e] eqn:Hg; [|exact I].
  destruct (f s) as [s'|e] eqn:Hf; [|exact I]. simpl.
  pose proof (getitem_has _ _ _ Hg) as Hc.
  rewrite (stored_frame _ _ _ _ Hc).
  split; [apply touches_only_store|]. split; [reflexivity|].
  split; [now apply columns_setitem|]. now exists s, s'.
Qed.

Lemma preprocess_inv_step df w0 cols w w' :
  preprocess_inv df w0 cols w ->
  touches_only df w w' -> log_grows preprocess_record w w' ->
  columns (heap w' !!! df) = columns (heap w !!! df) ->
  preprocess_inv df w0 cols w'.
Proof.
  intros (T & G & K) T' G' K'. repeat split.
  1-5: eapply touches_only_trans; eassumption.
  - eapply log_grows_trans; eassumption.
  - congruence.
Qed.

Lemma preprocess_inv_info df w0 cols w msg :
  preprocess_record (INFO, msg) ->
  preprocess_inv df w0 cols w ->
  preprocess_inv df w0 cols (set_log (log w ++ [(INFO, msg)]) w).
Proof.
  intros Hm H. eapply preprocess_inv_step; [exact H| | |reflexivity].
  - now apply touches_only_same_frames.
  - now apply log_grows_info.
Qed.

Lemma preprocess_inv_update n df c f w0 cols w :
  preprocess_inv df w0 cols w ->
  post (update_column n df c f) w (fun _ w' => preprocess_inv df w0 cols w').
Proof.
  intros H. eapply post_intro. intros a w' Hr.
  pose proof (post_returns _ _ _ _ _ (update_column_spec n df c f w) Hr)
    as (T & Lg & K & _).
  eapply preprocess_inv_step; [exact H|exact T| |exact K].
  exists []. rewrite app_nil_r. split; [exact Lg|constructor].
Qed.

Ltac fixed_record := split; [reflexivity|left; simpl; tauto].

Lemma preprocess_data_spec self df w :
  post (DataProcessor.preprocess_data self df) w (fun r w' =>
    r = df /\ touches_only df w w' /\ log_grows preprocess_record w w' /\
    has_column (heap w !!! df) "Booking_ID" = true /\
    columns (heap w' !!! df) =
      List.filter (fun x => negb (String.eqb x "Booking_ID")) (columns (heap w !!! df))).
Proof.
  unfold DataProcessor.preprocess_data,
      DataProcessor.preprocess_data_try. apply post_try_except; [|intros; exact I].
  unfold post. unfold bind at 1 2. unfold logger_info at 1 2. cbn beta iota.
  unfold bind at 1, inplace at 1. unfold bind at 1, deref at 1. cbn beta iota.
  unfold bind at 1, lift_at at 1. cbn [heap set_log].
  destruct (drop_columns (heap w !!! df) ["Booking_ID"]) as [d1|e] eqn:Hdrop; [|exact I].
  unfold store at 1. cbn beta iota.
  unfold bind at 1, inplace at 1. unfold bind at 1, deref at 1. cbn beta iota.
  unfold bind at 1, lift_at at 1. unfold store at 1. cbn beta iota.
  cbn [heap set_log set_heap fs log np_random mlflow].
  pose proof (drop_columns_one _ _ _ Hdrop) as (Hhas & _ & _).
  rewrite (stored_frame _ _ _ _ Hhas).
  set (w2 := set_heap _ _).
  set (cols := List.filter (fun x => negb (String.eqb x "Booking_ID")) (columns (heap w !!! df))).
  assert (Hin : (df < length (heap w))%nat) by (eapply frame_in_range, Hhas).
  assert (Hinv : preprocess_inv df w cols w2).
  { subst w2. repeat split; cbn [heap set_log set_heap fs log np_random mlflow].
    - now rewrite !length_insert.
    - intros l Hl. now rewrite !list_lookup_insert_ne.
    - exists [(INFO, " Starting the Preprocessing data");
              (INFO, "Dropping unnecessary columns")].
      split; [now rewrite <- app_assoc|]. repeat constructor; simpl; tauto.
    - rewrite list_lookup_total_insert_eq by (now rewrite length_insert).
      rewrite columns_drop_duplicates. now apply columns_drop. }
  clearbody w2. 
  change (post
    (logger_info "Applying Label Encoding" ;;
     mappings <- for_each (categorical_columns (data_processing (DataProcessor.config self))) []
       (fun mappings column =>
          d <- deref df ;;
          col <- lift_at 46 (getitem d column) ;;
          fitted <- lift_at 46 (DataProcessor.fit_transform col) ;;
          store df (setitem d column (snd fitted)) ;;
          codes <- lift_at 48 (le_transform (fst fitted) (fst fitted)) ;;
          ret (dict_set mappings column (combine (fst fitted) codes))) ;;
     logger_info "Label Mapping are: " ;;
     for_each mappings tt
       (fun _ cm => logger_info (fst cm +:+ ": " +:+ str_dict (snd cm))) ;;
     logger_info "Skewness handling" ;;
     update_column 57 df "no_of_previous_cancellations" np_log1p ;;
     update_column 58 df "no_of_previous_bookings_not_canceled" np_log1p ;;
     d <- deref df ;;
     skewness <- lift_at 61
       (DataProcessor.measure_skewness d
          (numerical_columns (data_processing (DataProcessor.config self)))) ;;
     DataProcessor.transform_skewed df
       (DataProcessor.skewed_columns skewness
          (skewness_threshold (data_processing (DataProcessor.config self)))) ;;
     ret df) w2
    (fun r w' =>
       r = df /\ touches_only df w w' /\ log_grows preprocess_record w w' /\
       has_column (heap w !!! df) "Booking_ID" = true /\
       columns (heap w' !!! df) = cols)).
  eapply post_bind with (Qm := fun _ w' => preprocess_inv df w cols w').
  { apply preprocess_inv_info; [fixed_record|exact Hinv]. }
  clear w2 Hinv. intros _ w3 Hinv.
  eapply post_bind with (Qm := fun _ w' => preprocess_inv df w cols w').
  { apply post_for_each; [exact Hinv|]. clear w3 Hinv. intros s column w3 _ Hinv.
    unfold post, bind, deref, lift_at, store, ret.
    destruct (getitem (heap w3 !!! df) column) as [col|e] eqn:Hg; [|exact I].
    destruct (DataProcessor.fit_transform col) as [fitted|e]; [|exact I].
    cbn beta iota. destruct (le_transform (fst fitted) (fst fitted)); [|exact I].
    eapply preprocess_inv_step; [exact Hinv| | |].
    - apply touches_only_store.
    - exists []. rewrite app_nil_r. split; [reflexivity|constructor].
    - cbn [heap set_heap]. pose proof (getitem_has _ _ _ Hg) as Hc.
      rewrite (stored_frame _ _ _ _ Hc). now apply columns_setitem. }
  clear w3 Hinv. intros mappings w3 Hinv.
  eapply post_bind with (Qm := fun _ w' => preprocess_inv df w cols w').
  { apply preprocess_inv_info; [fixed_record|exact Hinv]. }
  clear w3 Hinv. intros _ w3 Hinv.
  eapply post_bind with (Qm := fun _ w' => preprocess_inv df w cols w').
  { apply post_for_each; [exact Hinv|]. clear w3 Hinv. intros s cm w3 _ Hinv.
    apply preprocess_inv_info; [|exact Hinv]. split; [reflexivity|right; eauto]. }
  clear w3 Hinv. intros _ w3 Hinv.
  eapply post_bind with (Qm := fun _ w' => preprocess_inv df w cols w').
  { apply preprocess_inv_info; [fixed_record|exact Hinv]. }
  clear w3 Hinv. intros _ w3 Hinv.
  eapply post_bind with (Qm := fun _ w' => preprocess_inv df w cols w');
    [apply preprocess_inv_update, Hinv|].
  clear w3 Hinv. intros _ w3 Hinv.
  eapply post_bind with (Qm := fun _ w' => preprocess_inv df w cols w');
    [apply preprocess_inv_update, Hinv|].
  clear w3 Hinv. intros _ w3 Hinv.
  unfold post. unfold bind at 1, deref at 1. cbn beta iota.
  unfold bind at 1, lift_at at 1.
  destruct (DataProcessor.measure_skewness _ _) as [sk|e]; [|exact I].
  change (post
    (DataProcessor.transform_skewed df
       (DataProcessor.skewed_columns sk
          (skewness_threshold (data_processing (DataProcessor.config self)))) ;;
     ret df) w3
    (fun r w' =>
       r = df /\ touches_only df w w' /\ log_grows preprocess_record w w' /\
       has_column (heap w !!! df) "Booking_ID" = true /\
       columns (heap w' !!! df) = cols)).
  eapply post_bind with (Qm := fun _ w' => preprocess_inv df w cols w').
  { unfold DataProcessor.transform_skewed.
    apply post_for_each; [exact Hinv|]. clear w3 Hinv. intros s column w3 _ Hinv.
    now apply preprocess_inv_update. }
  clear w3 Hinv. intros _ w3 (T & G & K). apply post_ret.
  split; [reflexivity|]. split; [exact T|]. split; [exact G|].
  split; [exact Hhas|exact K].
Qed.

Lemma load_data_spec path w :
  post (load_data path) w (fun r w' =>
    r = length (heap w) /\
    exists c, fs w !! path = Some (FCsv c) /\
      w' = set_heap (heap w ++ [read_csv c]) w).
Proof.
  unfold post, load_data, bind, read_file.
  destruct (fs w !! path) as [[c|m]|] eqn:E; try exact I.
  simpl. split; [reflexivity|]. now exists c.
Qed.

Lemma balanced_data_spec self df w :
  post (DataProcessor.balanced_data self df) w (fun r w' =>
    r = length (heap w) /\
    exists out,
      balanced_from (np_random w) (heap w !!! df) (np_random w') out /\
      fs w' = fs w /\ mlflow w' = mlflow w /\
      heap w' = heap w ++ [out] /\
      log w' = log w ++ [(INFO, "Balancing the data using SMOTE");
                         (INFO, "Data balanced successfully")]).
Proof.
  unfold DataProcessor.balanced_data,
      DataProcessor.balanced_data_try. apply post_try_except; [|intros; exact I].
  unfold post, bind, logger_info, deref, lift_at, DataProcessor.fit_resample, alloc, ret.
  cbn [heap set_log set_heap fs log np_random mlflow].
  destruct (drop_columns (heap w !!! df) ["booking_status"]) as [X|e] eqn:HX; [|exact I].
  destruct (getitem (heap w !!! df) "booking_status") as [y|e] eqn:Hy; [|exact I].
  cbn [heap set_log set_heap fs log np_random mlflow].
  destruct (smote_fit_resample (np_random w) X y) as [[[X' y']|e] g'] eqn:Hs; [|exact I].
  cbn [heap set_log set_heap set_np_random fs log np_random mlflow fst snd].
  split; [reflexivity|]. eexists. split; [|repeat split].
  - exists X, y, X', y'. repeat split; eassumption.
  - now rewrite <- app_assoc.
Qed.

Lemma select_feature_spec self df w :
  post (DataProcessor.select_feature self df) w (fun r w' =>
    r = length (heap w) /\
    exists top sel,
      selected_from self (heap w !!! df) top sel /\
      fs w' = fs w /\ mlflow w' = mlflow w /\ np_random w' = np_random w /\
      heap w' = heap w ++ [sel] /\
      log w' = log w ++
        [(INFO, "Feature selection using Random Forest");
         (INFO, "Feature selection completed");
         (INFO, "Top " +:+
                pretty (no_of_features (data_processing (DataProcessor.config self)))
                +:+ " features selected: " +:+ str_array top)]).
Proof.
  unfold DataProcessor.select_feature,
      DataProcessor.select_feature_try. apply post_try_except; [|intros; exact I].
  unfold post, bind, logger_info, deref, lift_at, alloc, ret.
  cbn [heap set_log set_heap fs log np_random mlflow].
  destruct (drop_columns (heap w !!! df) ["booking_status"]) as [X|e] eqn:HX; [|exact I].
  destruct (getitem (heap w !!! df) "booking_status") as [y|e] eqn:Hy; [|exact I].
  destruct (rf_feature_importances 42 X y) as [imp|e] eqn:Hi; [|exact I].
  destruct (DataProcessor.top_features _ _ _) as [top|e] eqn:Ht; [|exact I].
  destruct (getitem_list _ _) as [sel|e] eqn:Hg; [|exact I].
  cbn [heap set_log set_heap set_np_random fs log np_random mlflow fst snd].
  split; [reflexivity|]. exists top, sel. split; [|repeat split].
  - exists X, y, imp. repeat split; eassumption.
  - now rewrite <- !app_assoc.
Qed.

Lemma save_data_spec self df path w :
  post (DataProcessor.save_data self df path) w (fun _ w' =>
    fs w' = <[path := FCsv (to_csv (heap w !!! df) false)]> (fs w) /\
    heap w' = heap w /\ mlflow w' = mlflow w /\ np_random w' = np_random w /\
    log w' = log w ++ [(INFO, "Saving processed data to " +:+ path);
                       (INFO, "Data saved successfully")]).
Proof.
  unfold DataProcessor.save_data, DataProcessor.save_data_try.
  apply post_try_except; [|intros; exact I].
  unfold post, bind, logger_info, deref, write_at.
  cbn [heap set_log set_heap set_fs fs log np_random mlflow].
  destruct (file_write _ _) as [[]|[e remains]].
  - unfold write_file. cbn [heap set_log set_heap set_fs fs log np_random mlflow].
    repeat split. now rewrite <- app_assoc.
  - unfold bind, leave, raise. exact I.
Qed.

(** The labels of a balanced frame: the features, then the label. *)
Lemma balanced_from_columns g d g' out :
  balanced_from g d g' out ->
  columns out =
    List.filter (fun x => negb (String.eqb x "booking_status")) (columns d)
      ++ ["booking_status"].
Proof.
  intros (X & y & X' & y' & HX & _ & _ & ->).
  rewrite columns_setitem_new.
  - f_equal. unfold columns at 1, DataProcessor.DataFrame_with_columns. simpl.
    rewrite map_map. rewrite <- (columns_drop _ _ _ HX).
    rewrite <- (map_id (columns X)) at 2. apply map_ext. intros c.
    now destruct (getitem X' c).
  - destruct (has_column _ _) eqn:E; [|reflexivity]. exfalso.
    apply has_column_In in E.
    unfold columns at 1, DataProcessor.DataFrame_with_columns in E. simpl in E.
    rewrite map_map in E. apply in_map_iff in E as (c & Hc & Hin).
    assert (c = "booking_status") by (destruct (getitem X' c); exact Hc). subst c.
    rewrite (columns_drop _ _ _ HX) in Hin. apply filter_In in Hin as [_ Hin].
    discriminate.
Qed.

Lemma NoDup_snoc_label (l : list string) c :
  List.NoDup l -> ~ In c l -> List.NoDup (l ++ [c]).
Proof.
  intros Hl Hc. induction Hl as [|x l Hx Hl IH]; simpl.
  - repeat constructor. intros [].
  - constructor.
    + rewrite in_app_iff. intros [H|[H|[]]]; [contradiction|].
      subst. apply Hc. now left.
    + apply IH. intros H. apply Hc. now right.
Qed.

Lemma balanced_from_NoDup g d g' out :
  balanced_from g d g' out -> List.NoDup (columns d) -> List.NoDup (columns out).
Proof.
  intros H Hnd. rewrite (balanced_from_columns _ _ _ _ H).
  apply NoDup_snoc_label; [now apply NoDup_filter_labels|].
  intros Hin. apply filter_In in Hin as [_ Hin]. discriminate.
Qed.

Lemma map_fst_combine_eq {A B : Type} (l : list A) (k : list B) :
  length l = length k -> map fst (combine l k) = l.
Proof.
  revert k. induction l as [|x l IH]; intros [|y k] H; simpl in *; try discriminate.
  - reflexivity.
  - f_equal. apply IH. now injection H.
Qed.

(** The features kept are distinct features of the frame, the label is not
    one of them, and they are the labels of the selected frame, label
    last. *)
Lemma selected_from_columns self d top sel :
  selected_from self d top sel -> List.NoDup (columns d) ->
  columns sel = top ++ ["booking_status"] /\
  List.NoDup (top ++ ["booking_status"]) /\
  (forall c, In c top -> In c (columns d) /\ c <> "booking_status").
Proof.
  intros (X & y & imp & HX & _ & _ & Ht & Hg) Hnd.
  split; [exact (getitem_list_columns _ _ _ Hnd Hg)|].
  unfold DataProcessor.top_features, DataProcessor.feature_importance_frame in Ht.
  destruct (Nat.eqb (length (columns X)) (length imp)) eqn:El; [|discriminate].
  apply Nat.eqb_eq in El. injection Ht as <-.
  assert (Hp : Permutation
                 (map fst (sort_values_desc (combine (columns X) imp))) (columns X)).
  { rewrite <- (map_fst_combine_eq (columns X) imp El) at 2.
    apply Permutation_map, sort_values_desc_perm. }
  assert (HndX : List.NoDup (columns X)).
  { rewrite (columns_drop _ _ _ HX). now apply NoDup_filter_labels. }
  assert (Hsub : forall c,
    In c (head (no_of_features (data_processing (DataProcessor.config self)))
            (map fst (sort_values_desc (combine (columns X) imp)))) ->
    In c (columns d) /\ c <> "booking_status").
  { intros c Hc. apply head_sublist in Hc.
    apply (Permutation_in _ Hp) in Hc.
    rewrite (columns_drop _ _ _ HX) in Hc. apply filter_In in Hc as [Hc Hn].
    split; [assumption|]. intros ->. discriminate. }
  split; [|exact Hsub].
  apply NoDup_snoc_label.
  - apply NoDup_head. eapply Permutation_NoDup; [symmetry; exact Hp|exact HndX].
  - intros Hc. apply Hsub in Hc as [_ Hc]. congruence.
Qed.

Lemma heap_at (h0 l : list DataFrame) i d :
  l !! i = Some d -> (h0 ++ l) !!! (length h0 + i)%nat = d.
Proof.
  intros H. rewrite lookup_total_app_r by lia.
  replace (length h0 + i - length h0)%nat with i by lia.
  now apply list_lookup_total_correct.
Qed.

Ltac handler_raised H :=
  unfold DataProcessor.wrap, bind, logger_error, raise in H; cbn beta iota in H;
  discriminate H.

(** What a completed [process] has done, read off the final world: with
    [h] frames in the heap before, the frames [h] and [h + 1] are the train
    and test tables, loaded and preprocessed in place; [h + 2] and [h + 3]
    are their balanced versions; [h + 4] is the selection made on the
    balanced train table; [h + 5] is [train_df[train_df.columns]]; the two
    files hold [h + 4] and [h + 5]. *)
Lemma process_spec self w :
  post (DataProcessor.process self) w (fun _ w' =>
    let h := length (heap w) in
    exists ctr cte g1 top pre_tr pre_te,
      fs w !! DataProcessor.train_path self = Some (FCsv ctr) /\
      fs w !! DataProcessor.test_path self = Some (FCsv cte) /\
      length (heap w') = (h + 6)%nat /\
      preprocessed_from self (read_csv ctr) (heap w' !!! h) /\
      preprocessed_from self (read_csv cte) (heap w' !!! (h + 1)%nat) /\
      columns (heap w' !!! h) =
        List.filter (fun x => negb (String.eqb x "Booking_ID")) (columns (read_csv ctr)) /\
      columns (heap w' !!! (h + 1)%nat) =
        List.filter (fun x => negb (String.eqb x "Booking_ID")) (columns (read_csv cte)) /\
      balanced_from (np_random w) (heap w' !!! h) g1 (heap w' !!! (h + 2)%nat) /\
      balanced_from g1 (heap w' !!! (h + 1)%nat) (np_random w') (heap w' !!! (h + 3)%nat) /\
      selected_from self (heap w' !!! (h + 2)%nat) top (heap w' !!! (h + 4)%nat) /\
      getitem_list (heap w' !!! (h + 4)%nat) (columns (heap w' !!! (h + 4)%nat))
        = Returns (heap w' !!! (h + 5)%nat) /\
      fs w' =
        <[PROCESSED_TEST_DATA_PATH := FCsv (to_csv (heap w' !!! (h + 5)%nat) false)]>
          (<[PROCESSED_TRAIN_DATA_PATH := FCsv (to_csv (heap w' !!! (h + 4)%nat) false)]>
             (fs w)) /\
      mlflow w' = mlflow w /\
      Forall preprocess_record pre_tr /\ Forall preprocess_record pre_te /\
      log w' = log w ++ [(INFO, "Loading data from RAW directory")] ++ pre_tr ++ pre_te ++
        [(INFO, "Balancing the data using SMOTE"); (INFO, "Data balanced successfully");
         (INFO, "Balancing the data using SMOTE"); (INFO, "Data balanced successfully");
         (INFO, "Feature selection using Random Forest");
         (INFO, "Feature selection completed");
         (INFO, "Top " +:+
                pretty (no_of_features (data_processing (DataProcessor.config self)))
                +:+ " features selected: " +:+ str_array top);
         (INFO, "Saving processed data to " +:+ PROCESSED_TRAIN_DATA_PATH);
         (INFO, "Data saved successfully");
         (INFO, "Saving processed data to " +:+ PROCESSED_TEST_DATA_PATH);
         (INFO, "Data saved successfully");
         (INFO, "Data processing completed successfully")]).
Proof.
  apply post_intro. intros [] w' Hrun.
  unfold DataProcessor.process, DataProcessor.process_try, try_except in Hrun.
  unfold bind at 1, logger_info at 1 in Hrun. cbn beta iota in Hrun.
  set (w0 := set_log _ w) in Hrun.
  unfold bind, at_line in Hrun.
  destruct (load_data _ _) as [[r1|?] w1] eqn:Hs1; cbn beta iota in Hrun; [|handler_raised Hrun].
  pose proof (post_returns _ _ _ _ _ (load_data_spec _ _) Hs1) as (-> & ctr & Hctr & ->).
  clear Hs1.
  destruct (load_data _ _) as [[r2|?] w2] eqn:Hs2; cbn beta iota in Hrun; [|handler_raised Hrun].
  pose proof (post_returns _ _ _ _ _ (load_data_spec _ _) Hs2) as (-> & cte & Hcte & ->).
  clear Hs2.
  destruct (DataProcessor.preprocess_data _ _ _) as [[r3|?] w3] eqn:Hs3; cbn beta iota in Hrun; [|handler_raised Hrun].
  pose proof (post_returns _ _ _ _ _ (preprocess_data_spec _ _ _) Hs3)
    as (-> & T1 & (pre_tr & Lg1 & P1) & _ & K1).
  assert (Q1 : exists l wa, DataProcessor.preprocess_data self l wa = (Returns l, w3) /\
                 l = length (heap w0) /\
                 heap wa = (heap w0 ++ [read_csv ctr]) ++ [read_csv cte])
    by (do 2 eexists; split; [exact Hs3|split; reflexivity]).
  clear Hs3.
  destruct (DataProcessor.preprocess_data _ _ _) as [[r4|?] w4] eqn:Hs4; cbn beta iota in Hrun; [|handler_raised Hrun].
  pose proof (post_returns _ _ _ _ _ (preprocess_data_spec _ _ _) Hs4)
    as (-> & T2 & (pre_te & Lg2 & P2) & _ & K2).
  assert (Q2 : exists l wa, DataProcessor.preprocess_data self l wa = (Returns l, w4) /\
                 l = length (heap w0 ++ [read_csv ctr]) /\ wa = w3)
    by (do 2 eexists; split; [exact Hs4|split; reflexivity]).
  clear Hs4.
  destruct (DataProcessor.balanced_data _ _ _) as [[r5|?] w5] eqn:Hs5; cbn beta iota in Hrun; [|handler_raised Hrun].
  pose proof (post_returns _ _ _ _ _ (balanced_data_spec _ _ _) Hs5)
    as (-> & b1 & B1 & F3 & M3 & H3 & Lg3).
  clear Hs5.
  destruct (DataProcessor.balanced_data _ _ _) as [[r6|?] w6] eqn:Hs6; cbn beta iota in Hrun; [|handler_raised Hrun].
  pose proof (post_returns _ _ _ _ _ (balanced_data_spec _ _ _) Hs6)
    as (-> & b2 & B2 & F4 & M4 & H4 & Lg4).
  clear Hs6.
  destruct (DataProcessor.select_feature _ _ _) as [[r7|?] w7] eqn:Hs7; cbn beta iota in Hrun; [|handler_raised Hrun].
  pose proof (post_returns _ _ _ _ _ (select_feature_spec _ _ _) Hs7)
    as (-> & top & sel & S5 & F5 & M5 & R5 & H5 & Lg5).
  clear Hs7.
  unfold deref, lift_at, alloc in Hrun. cbn beta iota in Hrun.
  destruct (getitem_list _ _) as [sub|e] eqn:Hsub; [|handler_raised Hrun].
  cbn beta iota in Hrun.
  destruct (DataProcessor.save_data _ _ _ _) as [[r8|?] w8] eqn:Hs8; cbn beta iota in Hrun; [|handler_raised Hrun].
  pose proof (post_returns _ _ _ _ _ (save_data_spec _ _ _ _) Hs8)
    as (F6 & H6 & M6 & R6 & Lg6).
  clear Hs8.
  destruct (DataProcessor.save_data _ _ _ _) as [[r9|?] w9] eqn:Hs9; cbn beta iota in Hrun; [|handler_raised Hrun].
  pose proof (post_returns _ _ _ _ _ (save_data_spec _ _ _ _) Hs9)
    as (F7 & H7 & M7 & R7 & Lg7).
  clear Hs9.
  unfold logger_info in Hrun. injection Hrun as <-.
  cbn [heap set_log set_heap set_fs fs log np_random mlflow] in *.
  assert (Hh0 : heap w0 = heap w) by reflexivity.
  assert (Hf0 : fs w0 = fs w) by reflexivity.
  assert (Hr0 : np_random w0 = np_random w) by reflexivity.
  assert (Hm0 : mlflow w0 = mlflow w) by reflexivity.
  assert (Hl0 : log w0 = log w ++ [(INFO, "Loading data from RAW directory")])
    by reflexivity.
  clearbody w0. rewrite Hh0, ?Hf0 in *.
  destruct T1 as (F1 & N1 & O1 & R1 & M1). destruct T2 as (F2 & N2 & O2 & R2 & M2).
  cbn [heap set_log set_heap set_fs fs log np_random mlflow] in *.
  rewrite !length_app in *. cbn [length] in *. cbv zeta.
  set (h := length (heap w)) in *.
  (* the heap: two tables preprocessed in place, then four new frames *)
  assert (N4 : length (heap w4) = (h + 2)%nat) by lia.
  assert (H9 : heap w9 = heap w4 ++ [b1; b2; sel; sub]).
  { rewrite H7, H6, H5, H4, H3. now rewrite <- !app_assoc. }
  assert (E0 : heap w9 !!! h = heap w4 !!! h)
    by (rewrite H9; apply lookup_total_app_l; lia).
  assert (E1 : heap w9 !!! (h + 1)%nat = heap w4 !!! (h + 1)%nat)
    by (rewrite H9; apply lookup_total_app_l; lia).
  assert (E2 : heap w9 !!! (h + 2)%nat = b1).
  { rewrite H9. replace (h + 2)%nat with (length (heap w4) + 0)%nat by lia.
    now apply heap_at. }
  assert (E3 : heap w9 !!! (h + 3)%nat = b2).
  { rewrite H9. replace (h + 3)%nat with (length (heap w4) + 1)%nat by lia.
    now apply heap_at. }
  assert (E4 : heap w9 !!! (h + 4)%nat = sel).
  { rewrite H9. replace (h + 4)%nat with (length (heap w4) + 2)%nat by lia.
    now apply heap_at. }
  assert (E5 : heap w9 !!! (h + 5)%nat = sub).
  { rewrite H9. replace (h + 5)%nat with (length (heap w4) + 3)%nat by lia.
    now apply heap_at. }
  assert (A0 : heap w4 !!! h = heap w3 !!! h).
  { rewrite !list_lookup_total_alt, O2 by lia. reflexivity. }
  assert (A1 : heap w3 !!! (h + 1)%nat = read_csv cte).
  { rewrite list_lookup_total_alt, O1 by lia.
    replace (h + 1)%nat with (length (heap w ++ [read_csv ctr]) + 0)%nat
      by (rewrite length_app; simpl; lia).
    rewrite <- list_lookup_total_alt. now apply heap_at. }
  assert (A2 : ((heap w ++ [read_csv ctr]) ++ [read_csv cte]) !!! h = read_csv ctr).
  { rewrite <- app_assoc. replace h with (length (heap w) + 0)%nat at 1 by (subst h; lia).
    now apply heap_at. }
  rewrite A2 in K1. rewrite A1 in K2.
  assert (A3 : heap w5 !!! (h + 1)%nat = heap w4 !!! (h + 1)%nat)
    by (rewrite H3; apply lookup_total_app_l; lia).
  assert (A4 : heap w6 !!! length (heap w4) = b1).
  { rewrite H4, H3, <- app_assoc. now apply list_lookup_total_middle. }
  assert (A5 : heap w7 !!! length (heap w6) = sel).
  { rewrite H5. now apply list_lookup_total_middle. }
  assert (A6 : (heap w7 ++ [sub]) !!! length (heap w6) = sel).
  { rewrite H5, <- app_assoc. now apply list_lookup_total_middle. }
  assert (A7 : heap w8 !!! length (heap w7) = sub).
  { rewrite H6. now apply list_lookup_total_middle. }
  rewrite A4 in S5. rewrite A5 in Hsub. rewrite A6 in F6. rewrite A7 in F7.
  rewrite A3 in B2.
  exists ctr, cte, (np_random w5), top, pre_tr, pre_te.
  rewrite E0, E1, E2, E3, E4, E5, A0.
  split; [exact Hctr|]. split; [exact Hcte|].
  split; [rewrite H9, length_app; simpl; lia|].
  split.
  { destruct Q1 as (l & wa & Hwa & -> & Ha). rewrite ?Hh0 in Hwa, Ha. fold h in Hwa.
    exists h, wa, w3. rewrite Ha. now repeat split. }
  split.
  { destruct Q2 as (l & wa & Hwa & -> & ->). rewrite ?length_app, ?Hh0 in Hwa.
    cbn [length] in Hwa. fold h in Hwa. exists (h + 1)%nat, w3, w4. now repeat split. }
  rewrite A0 in B1.
  split; [exact K1|]. split; [exact K2|].
  split; [replace (np_random w) with (np_random w4) by congruence; exact B1|].
  split; [replace (np_random w9) with (np_random w6) by congruence; exact B2|].
  split; [exact S5|]. split; [exact Hsub|].
  split; [rewrite F7, F6; congruence|].
  split; [congruence|]. split; [exact P1|]. split; [exact P2|].
  rewrite Lg7, Lg6, Lg5, Lg4, Lg3, Lg2, Lg1, Hl0. now rewrite <- !app_assoc.
Qed.

End DataProcessorSpecs.

(** ** Counting log records *)

Lemma contains_colon_app a b : contains_colon (a +:+ ": " +:+ b) = true.
Proof.
  induction a as [|c a IH]; simpl; [reflexivity|].
  rewrite IH. apply orb_true_r.
Qed.

Lemma count_record_app r a b :
  count_record r (a ++ b) = (count_record r a + count_record r b)%nat.
Proof. unfold count_record. now rewrite List.filter_app, length_app. Qed.

Section Counting.
Context `{L : Libs} `{C : !Consts}.

(** [preprocess_data] writes no record with the message [msg] when [msg]
    has no colon and is not one of its five fixed messages. *)
Lemma preprocess_records_count msg added :
  Forall preprocess_record added ->
  contains_colon msg = false ->
  ~ In msg [" Starting the Preprocessing data"; "Dropping unnecessary columns";
            "Applying Label Encoding"; "Label Mapping are: "; "Skewness handling"] ->
  count_record (INFO, msg) added = 0%nat.
Proof.
  intros Hall Hc Hn. unfold count_record.
  induction Hall as [|[lv m] l [Hlv Hm] _ IH]; simpl; [reflexivity|].
  simpl in Hlv, Hm. subst lv.
  destruct (String.eqb m msg) eqn:E; [|exact IH]. exfalso.
  apply String.eqb_eq in E. subst m. destruct Hm as [Hm|(a & b & Hm)].
  - contradiction.
  - rewrite Hm, contains_colon_app in Hc. discriminate.
Qed.

End Counting.

(** ** The processing run *)

Section ProcessingClaims.
Context `{L : Libs} `{C : !Consts}.

Lemma to_csv_header d : map fst (to_csv d false) = columns d.
Proof. reflexivity. Qed.

Ltac training_handler_raised H :=
  unfold ModelTraining.wrap, bind, logger_error, raise in H; cbn beta iota in H;
  discriminate H.

(** What [load_and_split_data] returns is cut from the two files. *)
Lemma load_and_split_data_returns tr w s w' :
  ModelTraining.load_and_split_data tr w = (Returns s, w') ->
  exists ctr cte dtr dte,
    fs w !! ModelTraining.train_path tr = Some (FCsv ctr) /\
    fs w !! ModelTraining.test_path tr = Some (FCsv cte) /\
    drop_columns (read_csv ctr) ["Unnamed: 0"] = Returns dtr /\
    drop_columns (read_csv cte) ["Unnamed: 0"] = Returns dte /\
    drop_columns dtr ["booking_status"] = Returns (ModelTraining.X_train s) /\
    getitem dtr "booking_status" = Returns (ModelTraining.y_train s) /\
    drop_columns dte ["booking_status"] = Returns (ModelTraining.X_test s) /\
    getitem dte "booking_status" = Returns (ModelTraining.y_test s) /\
    fs w' = fs w.
Proof.
  unfold ModelTraining.load_and_split_data, ModelTraining.load_and_split_data_try,
      try_except. intros Hrun.
  unfold bind, at_line, logger_info, deref, lift_at, ret in Hrun.
  cbn beta iota in Hrun.
  destruct (load_data _ _) as [[r1|?] w1] eqn:Hs1; cbn beta iota in Hrun;
    [|training_handler_raised Hrun].
  pose proof (post_returns _ _ _ _ _ (load_data_spec _ _) Hs1) as (-> & ctr & Hctr & ->).
  clear Hs1.
  destruct (load_data _ _) as [[r2|?] w2] eqn:Hs2; cbn beta iota in Hrun;
    [|training_handler_raised Hrun].
  pose proof (post_returns _ _ _ _ _ (load_data_spec _ _) Hs2) as (-> & cte & Hcte & ->).
  clear Hs2.
  cbn [heap set_log set_heap set_fs fs log np_random mlflow] in *.
  assert (E1 : ((heap w ++ [read_csv ctr]) ++ [read_csv cte]) !!! length (heap w)
               = read_csv ctr)
    by (rewrite <- app_assoc; now apply list_lookup_total_middle).
  assert (E2 : ((heap w ++ [read_csv ctr]) ++ [read_csv cte])
                 !!! length (heap w ++ [read_csv ctr]) = read_csv cte)
    by now apply list_lookup_total_middle.
  rewrite E1 in Hrun.
  destruct (drop_columns (read_csv ctr) _) as [dtr|e] eqn:H1;
    [|training_handler_raised Hrun].
  cbn [heap set_log set_heap set_fs fs log np_random mlflow] in Hrun.
  rewrite E2 in Hrun. clear E1 E2.
  destruct (drop_columns (read_csv cte) _) as [dte|e] eqn:H2;
    [|training_handler_raised Hrun].
  destruct (drop_columns dtr _) as [Xtr|e] eqn:H3; [|training_handler_raised Hrun].
  destruct (getitem dtr _) as [ytr|e] eqn:H4; [|training_handler_raised Hrun].
  destruct (drop_columns dte _) as [Xte|e] eqn:H5; [|training_handler_raised Hrun].
  destruct (getitem dte _) as [yte|e] eqn:H6; [|training_handler_raised Hrun].
  injection Hrun as <- <-. exists ctr, cte, dtr, dte. now repeat split.
Qed.

(** After a completed [process] both processed files hold the frame the
    selector made of the balanced train table. *)
Lemma process_writes_selection_twice (self : DataProcessor.t) (w w' : world) (ctr : csv) :
  DataProcessor.process self w = (Returns tt, w') ->
  fs w !! DataProcessor.train_path self = Some (FCsv ctr) ->
  List.NoDup (columns (read_csv ctr)) ->
  exists table,
    fs w' !! PROCESSED_TRAIN_DATA_PATH = Some (FCsv table) /\
    fs w' !! PROCESSED_TEST_DATA_PATH = Some (FCsv table) /\
    table = to_csv (heap w' !!! (length (heap w) + 4)%nat) false.
Proof.
  intros Hrun Hctr Hnd.
  pose proof (post_returns _ _ _ _ _ (process_spec self w) Hrun) as Hspec.
  cbv zeta in Hspec.
  destruct Hspec as (ctr' & cte & g1 & top & pre_tr & pre_te & Hctr' & _ & _ & _ & _
                     & K1 & _ & B1 & _ & S & Hcopy & Hfs & _).
  assert (ctr' = ctr) by congruence. subst ctr'.
  assert (N0 : List.NoDup (columns (heap w' !!! length (heap w)))).
  { rewrite K1. now apply NoDup_filter_labels. }
  pose proof (balanced_from_NoDup _ _ _ _ B1 N0) as N2.
  destruct (selected_from_columns _ _ _ _ S N2) as (Hcols & N4 & _).
  rewrite <- Hcols in N4. rewrite (getitem_list_self _ N4) in Hcopy.
  injection Hcopy as Hcopy. rewrite <- Hcopy in Hfs.
  eexists. rewrite Hfs. split; [|split; [|reflexivity]].
  - destruct (decide (PROCESSED_TEST_DATA_PATH = PROCESSED_TRAIN_DATA_PATH)) as [->|Hne].
    + now rewrite lookup_insert_eq.
    + rewrite lookup_insert_ne by assumption. now rewrite lookup_insert_eq.
  - now rewrite lookup_insert_eq.
Qed.

(** C2: after a completed [process], the file at the processed test path
    is the file at the processed train path, same columns, rows and values
    ([test_df] is [train_df[train_df.columns]], line 144), whatever the
    test table was; so a trainer reading the two files evaluates on its
    training rows.  The labels of the train table read from disk are
    distinct, as [read_csv] delivers them. *)
Theorem processed_test_file_is_train_file (self : DataProcessor.t) (w w' : world)
    (ctr : csv) :
  DataProcessor.process self w = (Returns tt, w') ->
  fs w !! DataProcessor.train_path self = Some (FCsv ctr) ->
  List.NoDup (columns (read_csv ctr)) ->
  (exists table,
     fs w' !! PROCESSED_TRAIN_DATA_PATH = Some (FCsv table) /\
     fs w' !! PROCESSED_TEST_DATA_PATH = Some (FCsv table) /\
     table = to_csv (heap w' !!! (length (heap w) + 4)%nat) false) /\
  (forall tr v s v',
     ModelTraining.train_path tr = PROCESSED_TRAIN_DATA_PATH ->
     ModelTraining.test_path tr = PROCESSED_TEST_DATA_PATH ->
     fs v = fs w' ->
     ModelTraining.load_and_split_data tr v = (Returns s, v') ->
     ModelTraining.X_test s = ModelTraining.X_train s /\
     ModelTraining.y_test s = ModelTraining.y_train s).
Proof.
  intros Hrun Hctr Hnd.
  pose proof (process_writes_selection_twice self w w' ctr Hrun Hctr Hnd) as Hfiles.
  split; [exact Hfiles|].
  destruct Hfiles as (table & Htr & Hte & _).
  intros tr v s v' Ptr Pte Hv Hload.
  apply load_and_split_data_returns in Hload
    as (c1 & c2 & d1 & d2 & F1 & F2 & D1 & D2 & X1 & Y1 & X2 & Y2 & _).
  rewrite Ptr, Hv, Htr in F1. rewrite Pte, Hv, Hte in F2.
  injection F1 as <-. injection F2 as <-.
  assert (d2 = d1) by congruence. subst d2. split; congruence.
Qed.

(** C3: after a completed [process], the columns of the processed test
    table are, names and order, the features the selector chose on the
    balanced train table followed by the label — the columns of the
    processed train table — and the selector ran once only: the run logs
    one "Feature selection using Random Forest" record, for the train
    table. *)
Theorem test_columns_match_train_selection (self : DataProcessor.t) (w w' : world)
    (ctr : csv) :
  DataProcessor.process self w = (Returns tt, w') ->
  fs w !! DataProcessor.train_path self = Some (FCsv ctr) ->
  List.NoDup (columns (read_csv ctr)) ->
  exists top train_table test_table balanced_train added,
    fs w' !! PROCESSED_TRAIN_DATA_PATH = Some (FCsv train_table) /\
    fs w' !! PROCESSED_TEST_DATA_PATH = Some (FCsv test_table) /\
    map fst test_table = top ++ ["booking_status"] /\
    map fst train_table = top ++ ["booking_status"] /\
    (exists g g' preprocessed_train,
       preprocessed_from self (read_csv ctr) preprocessed_train /\
       balanced_from g preprocessed_train g' balanced_train) /\
    selected_from self balanced_train top
      (heap w' !!! (length (heap w) + 4)%nat) /\
    log w' = log w ++ added /\
    count_record (INFO, "Feature selection using Random Forest") added = 1%nat.
Proof.
  intros Hrun Hctr Hnd.
  destruct (process_writes_selection_twice self w w' ctr Hrun Hctr Hnd)
    as (table & Htr & Hte & Htab).
  pose proof (post_returns _ _ _ _ _ (process_spec self w) Hrun) as Hspec.
  cbv zeta in Hspec.
  destruct Hspec as (ctr' & cte & g1 & top & pre_tr & pre_te & Hctr' & _ & _ & Q1 & _
                     & K1 & _ & B1 & _ & S & _ & _ & _ & P1 & P2 & Hlog).
  assert (ctr' = ctr) by congruence. subst ctr'.
  assert (N0 : List.NoDup (columns (heap w' !!! length (heap w)))).
  { rewrite K1. now apply NoDup_filter_labels. }
  pose proof (balanced_from_NoDup _ _ _ _ B1 N0) as N2.
  destruct (selected_from_columns _ _ _ _ S N2) as (Hcols & _ & _).
  exists top, table, table, (heap w' !!! (length (heap w) + 2)%nat).
  eexists. split; [exact Htr|]. split; [exact Hte|].
  split; [now rewrite Htab, to_csv_header|]. split; [now rewrite Htab, to_csv_header|].
  split; [now exists (np_random w), g1, (heap w' !!! length (heap w))|].
  split; [exact S|]. split; [exact Hlog|].
  rewrite !count_record_app.
  rewrite (preprocess_records_count _ pre_tr P1), (preprocess_records_count _ pre_te P2);
    try reflexivity; try (simpl; intuition discriminate).
Qed.

(** C1 (as the code has it): a completed [process] runs the balancer on
    both tables — first on the preprocessed train table, then, with the
    random state the first run left, on the preprocessed test table — and
    the feature selector on the balanced train table only; the run logs two
    "Balancing the data using SMOTE" records and one "Feature selection
    using Random Forest" record. *)
Theorem process_balances_both_tables (self : DataProcessor.t) (w w' : world) :
  DataProcessor.process self w = (Returns tt, w') ->
  exists ctr cte g1 top added,
    fs w !! DataProcessor.train_path self = Some (FCsv ctr) /\
    fs w !! DataProcessor.test_path self = Some (FCsv cte) /\
    preprocessed_from self (read_csv ctr) (heap w' !!! length (heap w)) /\
    preprocessed_from self (read_csv cte) (heap w' !!! (length (heap w) + 1)%nat) /\
    balanced_from (np_random w) (heap w' !!! length (heap w)) g1
      (heap w' !!! (length (heap w) + 2)%nat) /\
    balanced_from g1 (heap w' !!! (length (heap w) + 1)%nat) (np_random w')
      (heap w' !!! (length (heap w) + 3)%nat) /\
    selected_from self (heap w' !!! (length (heap w) + 2)%nat) top
      (heap w' !!! (length (heap w) + 4)%nat) /\
    log w' = log w ++ added /\
    count_record (INFO, "Balancing the data using SMOTE") added = 2%nat /\
    count_record (INFO, "Feature selection using Random Forest") added = 1%nat.
Proof.
  intros Hrun.
  pose proof (post_returns _ _ _ _ _ (process_spec self w) Hrun) as Hspec.
  cbv zeta in Hspec.
  destruct Hspec as (ctr & cte & g1 & top & pre_tr & pre_te & Hctr & Hcte & _ & Q1 & Q2
                     & _ & _ & B1 & B2 & S & _ & _ & _ & P1 & P2 & Hlog).
  exists ctr, cte, g1, top. eexists.
  repeat (split; [eassumption|]).
  rewrite !count_record_app.
  rewrite !(preprocess_records_count _ pre_tr P1), !(preprocess_records_count _ pre_te P2);
    try reflexivity; try (simpl; intuition discriminate).
Qed.

(** C10 (as the code has it): [preprocess_data] changes the table it is
    given, in place — the caller's table loses its "Booking_ID" column —
    and returns that same object, creating none; [balanced_data] and
    [select_feature] return a new table and leave every existing one as it
    was. *)
Theorem preprocess_in_place_others_new (self : DataProcessor.t) (df : loc) (w : world) :
  (forall r w',
     DataProcessor.preprocess_data self df w = (Returns r, w') ->
     r = df /\ length (heap w') = length (heap w) /\
     has_column (heap w !!! df) "Booking_ID" = true /\
     has_column (heap w' !!! df) "Booking_ID" = false /\
     heap w' !!! df <> heap w !!! df /\
     (forall l, l <> df -> heap w' !! l = heap w !! l)) /\
  (forall r w',
     DataProcessor.balanced_data self df w = (Returns r, w') ->
     r = length (heap w) /\ exists out, heap w' = heap w ++ [out]) /\
  (forall r w',
     DataProcessor.select_feature self df w = (Returns r, w') ->
     r = length (heap w) /\ exists out, heap w' = heap w ++ [out]).
Proof.
  split; [|split].
  - intros r w' Hrun.
    pose proof (post_returns _ _ _ _ _ (preprocess_data_spec self df w) Hrun)
      as (-> & (_ & N & O & _) & _ & Hhas & K).
    assert (Hno : has_column (heap w' !!! df) "Booking_ID" = false).
    { destruct (has_column (heap w' !!! df) "Booking_ID") eqn:E; [|reflexivity]. exfalso.
      apply has_column_In in E. rewrite K in E. apply filter_In in E as [_ E].
      discriminate. }
    repeat split; try assumption. intros Heq. rewrite Heq in Hno. congruence.
  - intros r w' Hrun.
    pose proof (post_returns _ _ _ _ _ (balanced_data_spec self df w) Hrun)
      as (-> & out & _ & _ & _ & H & _).
    split; [reflexivity|now exists out].
  - intros r w' Hrun.
    pose proof (post_returns _ _ _ _ _ (select_feature_spec self df w) Hrun)
      as (-> & top & sel & _ & _ & _ & _ & H & _).
    split; [reflexivity|now exists sel].
Qed.

End ProcessingClaims.

(** ** The skewness-driven transform *)

Section SkewClaims.
Context `{L : Libs} `{C : !Consts}.

Lemma apply_skew_In cols vs c v :
  DataProcessor.apply_skew cols = Returns vs ->
  (In (c, v) vs <-> exists s, In (c, s) cols /\ skew s = Returns v).
Proof.
  revert vs. induction cols as [|[c0 s0] cols IH]; simpl; intros vs H.
  - injection H as <-. split; [intros []|intros (s & [] & _)].
  - destruct (skew s0) as [v0|e] eqn:Hs; [|discriminate].
    destruct (DataProcessor.apply_skew cols) as [vs0|e]; [|discriminate].
    injection H as <-. specialize (IH vs0 eq_refl). simpl. split.
    + intros [[= -> ->]|Hin].
      * exists s0. split; [now left|assumption].
      * apply IH in Hin as (s & Hin & Hv). exists s. split; [now right|assumption].
    + intros (s & [[= -> ->]|Hin] & Hv).
      * left. congruence.
      * right. apply IH. now exists s.
Qed.

Lemma In_selected (data : list (string * Series)) labels c s :
  In (c, s) (flat_map (fun c' => List.filter (fun p => String.eqb (fst p) c') data) labels)
  <-> In c labels /\ In (c, s) data.
Proof.
  rewrite in_flat_map. split.
  - intros (c' & Hc' & Hin). apply filter_In in Hin as [Hin Heq].
    apply String.eqb_eq in Heq. simpl in Heq. subst c'. now split.
  - intros [Hc Hin]. exists c. split; [assumption|]. apply filter_In.
    split; [assumption|apply String.eqb_refl].
Qed.

(** The columns the loop goes through are the configured columns whose
    measured skewness is greater than the threshold. *)
Lemma skewed_columns_In d num_cols thr sk c :
  DataProcessor.measure_skewness d num_cols = Returns sk ->
  (In c (DataProcessor.skewed_columns sk thr) <->
   exists s v, In c num_cols /\ In (c, s) (df_data d) /\
               skew s = Returns v /\ PrimFloat.ltb thr v = true).
Proof.
  unfold DataProcessor.measure_skewness.
  destruct (getitem_list d num_cols) as [sub|e] eqn:Hsub; [|discriminate].
  destruct (DataProcessor.apply_skew (df_data sub)) as [sk0|e] eqn:Hsk; [|discriminate].
  intros [= <-]. apply getitem_list_Returns in Hsub as [_ ->]. simpl in Hsk.
  unfold DataProcessor.skewed_columns. rewrite in_map_iff. split.
  - intros ([c' v] & Hc & Hin). simpl in Hc. subst c'.
    apply filter_In in Hin as [Hin Hgt]. simpl in Hgt.
    apply (Permutation_in _ (sort_values_desc_perm sk0)) in Hin.
    apply (apply_skew_In _ _ _ _ Hsk) in Hin as (s & Hin & Hv).
    apply In_selected in Hin as [Hc Hin]. now exists s, v.
  - intros (s & v & Hc & Hin & Hv & Hgt). exists (c, v). split; [reflexivity|].
    apply filter_In. split; [|exact Hgt].
    apply (Permutation_in _ (Permutation_sym (sort_values_desc_perm sk0))).
    apply (apply_skew_In _ _ _ _ Hsk). exists s. split; [|assumption].
    now apply In_selected.
Qed.

(** The loop leaves the columns it does not go through as they were, and
    replaces each column it goes through by its [log1p]. *)
Lemma transform_skewed_effect df cols w w' :
  DataProcessor.transform_skewed df cols w = (Returns tt, w') ->
  (forall c, ~ In c cols -> getitem (heap w' !!! df) c = getitem (heap w !!! df) c) /\
  (List.NoDup cols -> forall c, In c cols ->
     exists s s', getitem (heap w !!! df) c = Returns s /\ np_log1p s = Returns s' /\
                  getitem (heap w' !!! df) c = Returns s').
Proof.
  unfold DataProcessor.transform_skewed.
  revert w. induction cols as [|c0 cols IH]; intros w Hrun.
  - injection Hrun as <-. split; [reflexivity|intros _ c []].
  - simpl in Hrun. unfold bind in Hrun.
    destruct (update_column 64 df c0 np_log1p w) as [[[]|e] w1] eqn:Hstep;
      [|discriminate].
    pose proof (post_returns _ _ _ _ _ (update_column_spec _ _ _ _ _) Hstep)
      as (_ & _ & _ & s & s' & Hg & Hf & Hw1).
    destruct (IH w1 Hrun) as [Hout Hin]. split.
    + intros c Hc. rewrite Hout by (intros H; apply Hc; now right).
      rewrite Hw1. apply getitem_setitem_other. intros ->. apply Hc. now left.
    + intros Hnd c Hc. apply List.NoDup_cons_iff in Hnd as [Hc0 Hnd].
      destruct Hc as [<-|Hc].
      * exists s, s'. split; [assumption|]. split; [assumption|].
        rewrite (Hout c0 Hc0), Hw1. apply getitem_setitem. eapply getitem_has, Hg.
      * destruct (Hin Hnd c Hc) as (t & t' & Ht & Hlog & Hafter).
        exists t, t'. split; [|split; assumption].
        rewrite <- Ht, Hw1. symmetry. apply getitem_setitem_other.
        intros ->. contradiction.
Qed.





(** ** The balancer *)

Lemma getitem_setitem_new d c s :
  has_column d c = false -> getitem (setitem d c s) c = Returns s.
Proof.
  intros H. unfold setitem. rewrite H. unfold getitem. simpl.
  assert (Hn : ~ In c (columns d)).
  { intros Hin. apply has_column_In in Hin. congruence. }
  unfold columns in Hn. induction (df_data d) as [|p l IH]; simpl.
  - now rewrite String.eqb_refl.
  - destruct (String.eqb (fst p) c) eqn:E.
    + apply String.eqb_eq in E. exfalso. apply Hn. now left.
    + apply IH. intros Hin. apply Hn. now right.
Qed.

Lemma getitem_with_columns data cols c s :
  In c cols -> getitem data c = Returns s ->
  getitem (DataProcessor.DataFrame_with_columns data cols) c = Returns s.
Proof.
  intros Hin Hg. unfold DataProcessor.DataFrame_with_columns, getitem at 1. simpl.
  induction cols as [|c0 cols IH]; simpl; [contradiction|].
  destruct (String.eqb c0 c) eqn:E.
  - apply String.eqb_eq in E. subst c0. rewrite Hg. simpl.
    now rewrite String.eqb_refl.
  - assert (Hfst : fst (match getitem data c0 with
                        | Returns s0 => (c0, s0)
                        | Raises _ => (c0, DataProcessor.nan_column (length (df_index data)))
                        end) = c0) by now destruct (getitem data c0).
    rewrite Hfst, E. apply IH. destruct Hin as [->|Hin]; [|assumption].
    rewrite String.eqb_refl in E. discriminate.
Qed.

Lemma has_column_with_columns data cols c :
  has_column (DataProcessor.DataFrame_with_columns data cols) c = true <-> In c cols.
Proof.
  rewrite has_column_In. unfold columns, DataProcessor.DataFrame_with_columns. simpl.
  rewrite map_map.
  assert (Hmap : map (fun c0 => fst (match getitem data c0 with
                        | Returns s0 => (c0, s0)
                        | Raises _ => (c0, DataProcessor.nan_column (length (df_index data)))
                        end)) cols = cols).
  { rewrite <- (map_id cols) at 2. apply map_ext. intros c0. now destruct (getitem data c0). }
  now rewrite Hmap.
Qed.

(** An oversampler that appends to every column keeps the rows. *)
Lemma extends_rows_appended (X : DataFrame) (index : list Z) (f : Series -> Series) :
  extends_rows X
    (mkDataFrame index
       (map (fun p : string * Series => (fst p, (snd p ++ f (snd p) : Series))) (df_data X))).
Proof.
  intros c s. unfold getitem. cbn [df_data].
  induction (df_data X) as [|p l IH]; [discriminate|].
  cbn [List.find map fst snd]. destruct (String.eqb (fst p) c) eqn:E.
  - intros [= <-]. now exists (f (snd p)).
  - exact IH.
Qed.

(** C9 (as the code has it): [balanced_data] has no guarantee of its own.
    On a table with a label column it returns exactly when the oversampler
    accepts the table's features and labels, which two classes do not
    ensure.  The table it then returns is new, the input table is as it
    was; it holds the feature columns of the oversampler's output under the
    input's feature labels, then the label column holding the
    oversampler's labels: the input's rows are kept, and the classes evened
    out, as far as the oversampler's output does so.  When the oversampler
    raises, [balanced_data] raises at line 80 with that exception as cause
    and makes no table. *)
Theorem balanced_data_carries_the_oversampler (self : DataProcessor.t) (df : loc)
    (w : world) (X : DataFrame) (y : Series) :
  drop_columns (heap w !!! df) ["booking_status"] = Returns X ->
  getitem (heap w !!! df) "booking_status" = Returns y ->
  match smote_fit_resample (np_random w) X y with
  | (Returns (X', y'), g') =>
      exists w',
        DataProcessor.balanced_data self df w = (Returns (length (heap w)), w') /\
        np_random w' = g' /\
        heap w' !!! df = heap w !!! df /\
        columns (heap w' !!! length (heap w)) = columns X ++ ["booking_status"] /\
        getitem (heap w' !!! length (heap w)) "booking_status" = Returns y' /\
        (forall c s, In c (columns X) -> getitem X' c = Returns s ->
           getitem (heap w' !!! length (heap w)) c = Returns s) /\
        (extends_rows X X' -> forall more, y' = y ++ more ->
         forall c s, getitem (heap w !!! df) c = Returns s ->
           exists added, getitem (heap w' !!! length (heap w)) c = Returns (s ++ added))
  | (Raises e, g') =>
      exists w',
        DataProcessor.balanced_data self df w
        = (Raises (new_CustomException data_preprocessing_py 80 e
                     "Failed to balance the data" e), w') /\
        heap w' = heap w /\ np_random w' = g'
  end.
Proof.
  intros HX Hy.
  destruct (smote_fit_resample (np_random w) X y) as [[[X' y']|e] g'] eqn:Hs.
  - destruct (DataProcessor.balanced_data self df w) as [[r|e] w'] eqn:Hrun.
    + pose proof (post_returns _ _ _ _ _ (balanced_data_spec self df w) Hrun)
        as (-> & out & Hfrom & _ & _ & Hheap & _).
      pose proof (balanced_from_columns _ _ _ _ Hfrom) as Hcols.
      destruct Hfrom as (X0 & y0 & X0' & y0' & HX0 & Hy0 & Hs0 & ->).
      assert (X0 = X) by congruence. subst X0.
      assert (y0 = y) by congruence. subst y0.
      rewrite Hs in Hs0. injection Hs0 as <- <- Hg.
      exists w'. split; [reflexivity|]. split; [now symmetry|].
      rewrite Hheap, heap_snoc_new.
      assert (Hnew : has_column (DataProcessor.DataFrame_with_columns X' (columns X))
                       "booking_status" = false).
      { destruct (has_column _ _) eqn:E; [|reflexivity]. exfalso.
        apply has_column_with_columns in E. rewrite (columns_drop _ _ _ HX) in E.
        apply filter_In in E as [_ E]. discriminate. }
      assert (Hfeature : forall c, In c (columns X) -> c <> "booking_status").
      { intros c Hin ->. rewrite (columns_drop _ _ _ HX) in Hin.
        apply filter_In in Hin as [_ Hin]. discriminate. }
      split; [|split; [|split; [|split]]].
      * apply heap_snoc_old. eapply frame_in_range, getitem_has, Hy.
      * now rewrite Hcols, <- (columns_drop _ _ _ HX).
      * now apply getitem_setitem_new.
      * intros c s Hin Hc. rewrite getitem_setitem_other by now apply Hfeature.
        now apply getitem_with_columns.
      * intros Hext more Hy' c s Hc. destruct (String.eqb c "booking_status") eqn:E.
        -- apply String.eqb_eq in E. subst c. exists more.
           rewrite getitem_setitem_new by assumption.
           rewrite Hy in Hc. injection Hc as <-. now rewrite Hy'.
        -- assert (Hne : c <> "booking_status") by (intros ->; discriminate).
           rewrite getitem_setitem_other by assumption.
           rewrite <- (getitem_drop_other _ _ _ _ HX Hne) in Hc.
           destruct (Hext c s Hc) as (added & Hadd). exists added.
           apply getitem_with_columns; [|assumption].
           apply has_column_In. eapply getitem_has, Hc.
    + exfalso. revert Hrun.
      unfold DataProcessor.balanced_data, DataProcessor.balanced_data_try, try_except.
      unfold bind, logger_info, deref, lift_at, DataProcessor.fit_resample, alloc, ret.
      cbn [heap set_log set_heap fs log np_random mlflow].
      rewrite HX, Hy. cbn [heap set_log set_heap fs log np_random mlflow].
      rewrite Hs. discriminate.
  - unfold DataProcessor.balanced_data, DataProcessor.balanced_data_try, try_except.
    unfold DataProcessor.wrap, bind, logger_info, logger_error, deref, lift_at,
      DataProcessor.fit_resample, raise.
    cbn [heap set_log set_heap fs log np_random mlflow].
    rewrite HX, Hy. cbn [heap set_log set_heap fs log np_random mlflow].
    rewrite Hs. eexists. split; [reflexivity|]. now split.
Qed.

End SkewClaims.

(** ** Errors at the boundary of the methods *)

Section ErrorClaims.
Context `{L : Libs} `{C : !Consts}.

(** A [try] whose handler logs and raises a [CustomException]: it raises
    nothing else, and only when its body raised. *)
Lemma try_except_raises {A : Type} (body : MB A) file_name
    (log_message error_message : exn -> string) w e w' :
  try_except body
    (fun n c => logger_error (log_message c) ;;
                raise (new_CustomException file_name n c (error_message c) c)) w
    = (Raises e, w') ->
  exists n c w1,
    body w = (Raises (n, c), w1) /\
    e = new_CustomException file_name n c (error_message c) c /\
    w' = set_log (log w1 ++ [(ERROR, log_message c)]) w1.
Proof.
  unfold try_except. destruct (body w) as [[a|[n c]] w1]; [discriminate|].
  unfold bind, logger_error, raise. intros [= <- <-]. now exists n, c, w1.
Qed.

Lemma wrapped_by_is_CustomException file_name error_message e :
  wrapped_by file_name error_message e -> is_CustomException e = true.
Proof. now intros (n & c & ->). Qed.

Lemma preprocessing_method_raises {A : Type} (body : MB A) prefix msg w e w' :
  try_except body (DataProcessor.wrap prefix msg) w = (Raises e, w') ->
  wrapped_by data_preprocessing_py (fun _ => msg) e.
Proof.
  intros H.
  apply (try_except_raises body data_preprocessing_py
           (fun c => prefix +:+ str_exn c) (fun _ => msg)) in H
    as (n & c & _ & _ & -> & _).
  now exists n, c.
Qed.

Lemma training_method_raises {A : Type} (body : MB A) prefix msg w e w' :
  try_except body (ModelTraining.wrap prefix msg) w = (Raises e, w') ->
  wrapped_by model_training_py (fun _ => msg) e.
Proof.
  intros H.
  apply (try_except_raises body model_training_py
           (fun c => prefix +:+ str_exn c) (fun _ => msg)) in H
    as (n & c & _ & _ & -> & _).
  now exists n, c.
Qed.







End ErrorClaims.

(** ** The splitter *)

Section IngestionClaims.
Context `{L : Libs} `{C : !Consts}.

Ltac world_fields := cbn [heap set_log set_heap set_fs fs log np_random mlflow].

Ltac run_split :=
  unfold DataIngestion.split_data, DataIngestion.split_data_try, pd_read_csv;
  unfold try_except, bind, logger_info, logger_error, at_line, read_file, alloc, deref,
    lift_at, write_at, raise, ret;
  world_fields.

(** What [split_data] does depends on the raw file only. *)
Lemma split_data_returns self w w' :
  DataIngestion.split_data self w = (Returns tt, w') ->
  exists c tr te,
    fs w !! RAW_FILE_PATH = Some (FCsv c) /\ c <> [] /\
    train_test_split (read_csv c)
      (PrimFloat.sub 1 (DataIngestion.train_test_ratio self)) 42 = Returns (tr, te) /\
    file_write TRAIN_FILE_PATH (FCsv (to_csv tr true)) = Returns tt /\
    file_write TEST_FILE_PATH (FCsv (to_csv te true)) = Returns tt /\
    fs w' = <[TEST_FILE_PATH := FCsv (to_csv te true)]>
              (<[TRAIN_FILE_PATH := FCsv (to_csv tr true)]> (fs w)).
Proof.
  run_split.
  destruct (fs w !! RAW_FILE_PATH) as [[[|col c]|m]|]; try discriminate.
  world_fields. rewrite list_lookup_total_middle by reflexivity.
  destruct (train_test_split _ _ _) as [[tr te]|e] eqn:Hs; [|discriminate].
  cbn [fst snd].
  destruct (file_write TRAIN_FILE_PATH _) as [[]|[e remains]] eqn:H1;
    [|unfold bind, leave, raise; discriminate].
  unfold write_file at 1. world_fields.
  destruct (file_write TEST_FILE_PATH _) as [[]|[e remains]] eqn:H2;
    [|unfold bind, leave, raise; discriminate].
  unfold write_file. world_fields. intros [= <-].
  exists (col :: c), tr, te. world_fields. now repeat split.
Qed.

Lemma split_data_succeeds self w c tr te :
  fs w !! RAW_FILE_PATH = Some (FCsv c) -> c <> [] ->
  train_test_split (read_csv c)
    (PrimFloat.sub 1 (DataIngestion.train_test_ratio self)) 42 = Returns (tr, te) ->
  file_write TRAIN_FILE_PATH (FCsv (to_csv tr true)) = Returns tt ->
  file_write TEST_FILE_PATH (FCsv (to_csv te true)) = Returns tt ->
  exists w', DataIngestion.split_data self w = (Returns tt, w').
Proof.
  intros Hc Hne Hs H1 H2. run_split. rewrite Hc.
  destruct c as [|col c]; [congruence|]. world_fields.
  rewrite list_lookup_total_middle by reflexivity. rewrite Hs. cbn [fst snd].
  rewrite H1. unfold write_file at 1. world_fields. rewrite H2. unfold write_file.
  eauto.
Qed.

(** C7: the split is a function of the raw table, the ratio and the fixed
    seed 42: a call that succeeds on a raw file succeeds on the same raw
    file in any other world, with the same train and test files; in
    particular a second call right after the first writes the same two
    files again (the raw file is not one of them). *)
Theorem split_data_deterministic (self : DataIngestion.t) (w v w' : world) :
  fs w !! RAW_FILE_PATH = fs v !! RAW_FILE_PATH ->
  DataIngestion.split_data self w = (Returns tt, w') ->
  (exists v',
     DataIngestion.split_data self v = (Returns tt, v') /\
     fs v' !! TRAIN_FILE_PATH = fs w' !! TRAIN_FILE_PATH /\
     fs v' !! TEST_FILE_PATH = fs w' !! TEST_FILE_PATH) /\
  (RAW_FILE_PATH <> TRAIN_FILE_PATH -> RAW_FILE_PATH <> TEST_FILE_PATH ->
   exists w'',
     DataIngestion.split_data self w' = (Returns tt, w'') /\
     fs w'' !! TRAIN_FILE_PATH = fs w' !! TRAIN_FILE_PATH /\
     fs w'' !! TEST_FILE_PATH = fs w' !! TEST_FILE_PATH).
Proof.
  intros Hraw Hrun.
  destruct (split_data_returns _ _ _ Hrun) as (c & tr & te & Hc & Hc0 & Hs & W1 & W2 & Hfs).
  assert (Hsame : forall u,
    fs u !! RAW_FILE_PATH = Some (FCsv c) ->
    exists u',
      DataIngestion.split_data self u = (Returns tt, u') /\
      fs u' !! TRAIN_FILE_PATH = fs w' !! TRAIN_FILE_PATH /\
      fs u' !! TEST_FILE_PATH = fs w' !! TEST_FILE_PATH).
  { intros u Hu.
    destruct (split_data_succeeds self u c tr te Hu Hc0 Hs W1 W2) as (u' & Hu').
    exists u'. split; [exact Hu'|].
    destruct (split_data_returns _ _ _ Hu') as (c' & tr' & te' & Hc' & _ & Hs' & _ & _ & Hfs').
    assert (c' = c) by congruence. subst c'.
    rewrite Hs in Hs'. injection Hs' as <- <-. rewrite Hfs, Hfs'.
    destruct (decide (TEST_FILE_PATH = TRAIN_FILE_PATH)) as [Heq|Hne].
    - rewrite Heq, !lookup_insert_eq. now split.
    - rewrite !lookup_insert_eq.
      rewrite !(lookup_insert_ne _ TEST_FILE_PATH TRAIN_FILE_PATH) by assumption.
      rewrite !lookup_insert_eq. now split. }
  split.
  - apply Hsame. now rewrite <- Hraw.
  - intros H1 H2. apply Hsame. rewrite Hfs.
    rewrite !lookup_insert_ne by congruence. exact Hc.
Qed.

End IngestionClaims.

(** ** Loading the processed tables for training *)

Section LoadingClaims.
Context `{L : Libs} `{C : !Consts}.

Ltac world_fields := cbn [heap set_log set_heap set_fs fs log np_random mlflow].

Ltac run_load :=
  unfold ModelTraining.load_and_split_data, ModelTraining.load_and_split_data_try,
      ModelTraining.wrap, load_data;
  unfold try_except, bind, logger_info, logger_error, at_line, read_file, alloc, deref,
    lift_at, write_file, raise, ret;
  world_fields.

Lemma loaded_frames (h : list DataFrame) a b :
  ((h ++ [a]) ++ [b]) !!! length h = a /\
  ((h ++ [a]) ++ [b]) !!! length (h ++ [a]) = b.
Proof.
  split.
  - rewrite <- app_assoc. now apply list_lookup_total_middle.
  - now apply list_lookup_total_middle.
Qed.

(** A label of a frame that is not empty is a label of the file
    [save_data] writes, read back. *)
Lemma name_unnamed_keeps i (c : csv) label :
  label <> "" -> In label (map fst c) -> In label (map fst (name_unnamed i c)).
Proof.
  intros Hne. revert i. induction c as [|[h s] c IH]; intros i; simpl; [tauto|].
  intros [->|Hin].
  - left. destruct (String.eqb label "") eqn:E; [|reflexivity].
    apply String.eqb_eq in E. contradiction.
  - right. now apply IH.
Qed.

Lemma saved_table_keeps_label d label :
  label <> "" -> has_column d label = true ->
  has_column (read_csv (to_csv d false)) label = true.
Proof.
  intros Hne H. apply has_column_In. apply has_column_In in H.
  unfold read_csv, columns. simpl. now apply name_unnamed_keeps.
Qed.

(** C4 (as the code has it): [load_and_split_data] drops the column
    "Unnamed: 0" from both tables and raises, with a KeyError as cause, at
    line 41 or 42, when one of them has no such column.  [save_data] adds
    no column and removes none: the table it writes has a column
    "Unnamed: 0" when the frame saved has one (the index column of the raw
    split files, when the selector keeps it), and when both processed
    tables have it and the label column, loading succeeds. *)
Theorem load_and_split_data_needs_unnamed_column (tr : ModelTraining.t) (w : world)
    (ctr cte : csv) :
  fs w !! ModelTraining.train_path tr = Some (FCsv ctr) ->
  fs w !! ModelTraining.test_path tr = Some (FCsv cte) ->
  (has_column (read_csv ctr) "Unnamed: 0" = false \/
   has_column (read_csv cte) "Unnamed: 0" = false ->
   exists n w',
     (n = 41 \/ n = 42)%nat /\
     ModelTraining.load_and_split_data tr w
     = (Raises (new_CustomException model_training_py n (KeyError "Unnamed: 0")
                  "Failed to load and split the data" (KeyError "Unnamed: 0")), w')) /\
  (has_column (read_csv ctr) "Unnamed: 0" = true ->
   has_column (read_csv cte) "Unnamed: 0" = true ->
   has_column (read_csv ctr) "booking_status" = true ->
   has_column (read_csv cte) "booking_status" = true ->
   exists s w', ModelTraining.load_and_split_data tr w = (Returns s, w')) /\
  (forall self df path v v',
     DataProcessor.save_data self df path v = (Returns tt, v') ->
     fs v' !! path = Some (FCsv (to_csv (heap v !!! df) false)) /\
     map fst (to_csv (heap v !!! df) false) = columns (heap v !!! df) /\
     (has_column (heap v !!! df) "Unnamed: 0" = true ->
      has_column (read_csv (to_csv (heap v !!! df) false)) "Unnamed: 0" = true)).
Proof.
  intros Htr Hte. split; [|split].
  - intros Hmiss. run_load. rewrite Htr. world_fields. rewrite Hte. world_fields.
    destruct (loaded_frames (heap w) (read_csv ctr) (read_csv cte)) as [-> E2].
    destruct (drop_columns (read_csv ctr) ["Unnamed: 0"]) as [dtr|e] eqn:H1.
    + world_fields. rewrite E2.
      destruct (drop_columns (read_csv cte) ["Unnamed: 0"]) as [dte|e] eqn:H2.
      * exfalso. apply drop_columns_one in H1 as (H1 & _). apply drop_columns_one in H2 as (H2 & _).
        destruct Hmiss; congruence.
      * apply drop_columns_one_raises in H2 as [_ ->]. exists 42%nat. eexists.
        split; [now right|reflexivity].
    + apply drop_columns_one_raises in H1 as [_ ->]. exists 41%nat. eexists.
      split; [now left|reflexivity].
  - intros U1 U2 B1 B2. run_load. rewrite Htr. world_fields. rewrite Hte. world_fields.
    destruct (loaded_frames (heap w) (read_csv ctr) (read_csv cte)) as [-> E2].
    destruct (drop_columns (read_csv ctr) ["Unnamed: 0"]) as [dtr|e] eqn:H1;
      [|apply drop_columns_one_raises in H1 as [H1 _]; congruence].
    world_fields. rewrite E2.
    destruct (drop_columns (read_csv cte) ["Unnamed: 0"]) as [dte|e] eqn:H2;
      [|apply drop_columns_one_raises in H2 as [H2 _]; congruence].
    assert (G1 : exists y, getitem dtr "booking_status" = Returns y).
    { destruct (has_getitem _ _ B1) as (y & Hy). exists y.
      now rewrite (getitem_drop_other _ _ _ _ H1). }
    assert (G2 : exists y, getitem dte "booking_status" = Returns y).
    { destruct (has_getitem _ _ B2) as (y & Hy). exists y.
      now rewrite (getitem_drop_other _ _ _ _ H2). }
    destruct G1 as (y1 & G1). destruct G2 as (y2 & G2).
    pose proof (getitem_has _ _ _ G1) as K1. pose proof (getitem_has _ _ _ G2) as K2.
    destruct (drop_columns dtr ["booking_status"]) as [X1|e] eqn:D1;
      [|apply drop_columns_one_raises in D1 as [D1 _]; congruence].
    rewrite G1.
    destruct (drop_columns dte ["booking_status"]) as [X2|e] eqn:D2;
      [|apply drop_columns_one_raises in D2 as [D2 _]; congruence].
    rewrite G2. eauto.
  - intros self df path v v' Hsave.
    pose proof (post_returns _ _ _ _ _ (save_data_spec self df path v) Hsave)
      as (Hfs & _).
    split; [now rewrite Hfs, lookup_insert_eq|]. split; [reflexivity|].
    apply saved_table_keeps_label. discriminate.
Qed.

End LoadingClaims.

(** ** The training run and the tracker *)

Lemma string_length_app a b :
  String.length (a +:+ b) = (String.length a + String.length b)%nat.
Proof. induction a as [|c a IH]; simpl; [reflexivity|now rewrite IH]. Qed.

Lemma string_app_inv_tail x y s : x +:+ s = y +:+ s -> x = y.
Proof.
  revert y. induction x as [|c x IH]; intros [|d y] H; simpl in H.
  - reflexivity.
  - apply (f_equal String.length) in H. simpl in H.
    rewrite !string_length_app in H. simpl in H. lia.
  - apply (f_equal String.length) in H. simpl in H.
    rewrite !string_length_app in H. simpl in H. lia.
  - injection H as -> H. f_equal. now apply IH.
Qed.

(** The line is read off the message. *)
Lemma detailed_error_message_line {D D' : Type} file_name n n' error_message
    (d : D) (d' : D') :
  get_detailed_error_message file_name n error_message d
  = get_detailed_error_message file_name n' error_message d' ->
  n = n'.
Proof.
  unfold get_detailed_error_message. intros H.
  apply (inj (String.app "Error in ")) in H. apply (inj (String.app file_name)) in H.
  apply (inj (String.app " at line ")) in H.
  apply string_app_inv_tail in H. now apply (inj pretty) in H.
Qed.

Section TrainingClaims.
Context `{L : Libs} `{C : !Consts}.

Ltac world_fields :=
  cbn [heap set_log set_heap set_fs set_mlflow fs log np_random mlflow].

Ltac handler_fails H :=
  unfold ModelTraining.wrap, bind, logger_error, raise in H; cbn beta iota in H;
  discriminate H.

Tactic Notation "world_fields" "in" hyp(H) :=
  cbn [heap set_log set_heap set_fs set_mlflow fs log np_random mlflow] in H.

(** A call into the tracker changes the tracker only. *)
Lemma tracker_call_run f w r w' :
  tracker_call f w = (r, w') ->
  f (mlflow w) = (r, mlflow w') /\ w' = set_mlflow (mlflow w') w.
Proof.
  unfold tracker_call. destruct (f (mlflow w)) as [r0 t]. now intros [= <- <-].
Qed.

Lemma log_artifact_run path artifact_path w r w' :
  ModelTraining.log_artifact path artifact_path w = (r, w') ->
  mlflow_log_artifact path artifact_path (fs w !! path) (mlflow w) = (r, mlflow w') /\
  w' = set_mlflow (mlflow w') w.
Proof.
  unfold ModelTraining.log_artifact, bind, read_file. apply tracker_call_run.
Qed.

Lemma load_and_split_data_frame tr w s w' :
  ModelTraining.load_and_split_data tr w = (Returns s, w') ->
  fs w' = fs w /\ mlflow w' = mlflow w.
Proof.
  unfold ModelTraining.load_and_split_data, ModelTraining.load_and_split_data_try,
      ModelTraining.wrap, load_data.
  unfold try_except, bind, logger_info, logger_error, at_line, read_file, alloc, deref,
    lift_at, raise, ret. world_fields.
  destruct (fs w !! ModelTraining.train_path tr) as [[c1|m]|]; world_fields;
    try discriminate.
  destruct (fs w !! ModelTraining.test_path tr) as [[c2|m]|]; world_fields;
    try discriminate.
  repeat match goal with
         | |- context [match ?o with Returns _ => _ | Raises _ => _ end] =>
             destruct o; world_fields; try discriminate
         end.
  now intros [= _ <-].
Qed.

Lemma train_lgbm_frame tr X y w m w' :
  ModelTraining.train_lgbm tr X y w = (Returns m, w') ->
  fs w' = fs w /\ mlflow w' = mlflow w.
Proof.
  unfold ModelTraining.train_lgbm, ModelTraining.train_lgbm_try, ModelTraining.wrap.
  unfold try_except, bind, logger_info, logger_error, lift_at, raise, ret.
  destruct (random_search_fit _ _ _ _ _); world_fields; [|discriminate].
  now intros [= _ <-].
Qed.

Lemma evaluate_model_frame tr m X y w metrics w' :
  ModelTraining.evaluate_model tr m X y w = (Returns metrics, w') ->
  fs w' = fs w /\ mlflow w' = mlflow w.
Proof.
  unfold ModelTraining.evaluate_model, ModelTraining.evaluate_model_try, ModelTraining.wrap.
  unfold try_except, bind, logger_info, logger_error, lift_at, raise, ret.
  repeat match goal with
         | |- context [match ?o with Returns _ => _ | Raises _ => _ end] =>
             destruct o; world_fields; try discriminate
         end.
  now intros [= _ <-].
Qed.

(** [save_model] leaves the tracker alone, and when it returns the model
    file is written. *)
Lemma save_model_run tr m w r w' :
  ModelTraining.save_model tr m w = (r, w') ->
  mlflow w' = mlflow w /\
  match r with
  | Returns _ => fs w' = <[ModelTraining.model_output_path tr := FModel m]> (fs w)
  | Raises _ => True
  end.
Proof.
  unfold ModelTraining.save_model, ModelTraining.save_model_try, ModelTraining.wrap.
  unfold try_except, bind, logger_info, logger_error, lift_at, write_at, raise.
  world_fields.
  destruct (os_makedirs _) as [[]|e]; world_fields; [|now intros [= <- <-]].
  destruct (file_write _ _) as [[]|[e remains]];
    unfold write_file, bind, leave, raise; world_fields; now intros [= <- <-].
Qed.

(** What the block under [with] has done when it ends, and where it can
    fail: once [save_model] has run (the failures at lines 152, 154 and
    157), the model file is on disk. *)
Lemma run_body_outcome tr w r w' :
  ModelTraining.run_body tr w = (r, w') ->
  match r with
  | Returns _ =>
      exists t2 t3 t4 t5 m metrics,
        mlflow_log_artifact (ModelTraining.train_path tr) (Some "datasets")
          (fs w !! ModelTraining.train_path tr) (mlflow w) = (Returns tt, t2) /\
        mlflow_log_artifact (ModelTraining.test_path tr) (Some "datasets")
          (fs w !! ModelTraining.test_path tr) t2 = (Returns tt, t3) /\
        mlflow_log_artifact (ModelTraining.model_output_path tr) None
          (Some (FModel m)) t3 = (Returns tt, t4) /\
        mlflow_log_params (get_params m) t4 = (Returns tt, t5) /\
        mlflow_log_metrics metrics t5 = (Returns tt, mlflow w') /\
        fs w' = <[ModelTraining.model_output_path tr := FModel m]> (fs w)
  | Raises (n, _) =>
      n <> 136%nat /\
      (n = 152%nat \/ n = 154%nat \/ n = 157%nat ->
       exists m, fs w' = <[ModelTraining.model_output_path tr := FModel m]> (fs w))
  end.
Proof.
  unfold ModelTraining.run_body. unfold bind, at_line, logger_info. world_fields.
  intros Hrun.
  destruct (ModelTraining.log_artifact _ _ _) as [[[]|e] w1] eqn:S1.
  2:{ injection Hrun as <- <-. split; [lia|]. intros [|[|]]; discriminate. }
  apply log_artifact_run in S1 as [T1 W1]. world_fields.
  destruct (ModelTraining.log_artifact _ _ w1) as [[[]|e] w2] eqn:S2.
  2:{ injection Hrun as <- <-. split; [lia|]. intros [|[|]]; discriminate. }
  apply log_artifact_run in S2 as [T2 W2].
  destruct (ModelTraining.load_and_split_data tr w2) as [[data|e] w3] eqn:S3.
  2:{ injection Hrun as <- <-. split; [lia|]. intros [|[|]]; discriminate. }
  apply load_and_split_data_frame in S3 as [F3 M3].
  destruct (ModelTraining.train_lgbm tr _ _ w3) as [[m|e] w4] eqn:S4.
  2:{ injection Hrun as <- <-. split; [lia|]. intros [|[|]]; discriminate. }
  apply train_lgbm_frame in S4 as [F4 M4].
  destruct (ModelTraining.evaluate_model tr m _ _ w4) as [[metrics|e] w5] eqn:S5.
  2:{ injection Hrun as <- <-. split; [lia|]. intros [|[|]]; discriminate. }
  apply evaluate_model_frame in S5 as [F5 M5].
  destruct (ModelTraining.save_model tr m w5) as [[[]|e] w6] eqn:S6.
  2:{ injection Hrun as <- <-. split; [lia|]. intros [|[|]]; discriminate. }
  apply save_model_run in S6 as (M6 & F6). cbn beta iota in Hrun.
  assert (Hfs : fs w6 = <[ModelTraining.model_output_path tr := FModel m]> (fs w)).
  { rewrite F6, F5, F4, F3, W2, W1. reflexivity. }
  destruct (ModelTraining.log_artifact _ _ _) as [[[]|e] w7] eqn:S7.
  2:{ apply log_artifact_run in S7 as [_ W7]. injection Hrun as <- <-.
      split; [lia|]. intros _. exists m. now rewrite W7. }
  apply log_artifact_run in S7 as [T7 W7]. world_fields.
  destruct (tracker_call (mlflow_log_params _) w7) as [[[]|e] w8] eqn:S8.
  2:{ apply tracker_call_run in S8 as [_ W8]. injection Hrun as <- <-.
      split; [lia|]. intros _. exists m. now rewrite W8, W7. }
  apply tracker_call_run in S8 as [T8 W8]. world_fields.
  destruct (tracker_call (mlflow_log_metrics _) _) as [[[]|e] w9] eqn:S9.
  2:{ apply tracker_call_run in S9 as [_ W9]. injection Hrun as <- <-.
      split; [lia|]. intros _. exists m. rewrite W9. world_fields.
      now rewrite W8, W7. }
  apply tracker_call_run in S9 as [T9 W9]. world_fields in T9.
  injection Hrun as <- <-. world_fields.
  exists (mlflow w1), (mlflow w2), (mlflow w7), (mlflow w8), m, metrics.
  rewrite W1 in T2 at 1. world_fields in T2.
  assert (Hm6 : mlflow w6 = mlflow w2) by congruence.
  assert (Hmodel : fs w6 !! ModelTraining.model_output_path tr = Some (FModel m))
    by (rewrite Hfs; apply lookup_insert_eq).
  world_fields in T7. rewrite Hmodel, Hm6 in T7.
  rewrite W7 in T8 at 1. world_fields in T8.
  rewrite W8 in T9 at 1. world_fields in T9.
  repeat split; try assumption.
  rewrite W9. world_fields. now rewrite W8, W7.
Qed.

(** C6 (as the code has it): logging to the tracker is not best-effort.
    [run] returns only if every tracker call succeeded, from [start_run] to
    the [end_run] on leaving the block; if the tracker is unreachable at
    [start_run], [run] raises before anything is read or fitted and the
    disk is as it was; and when a tracker call after [save_model] fails
    (lines 152, 154, 157), [run] raises "Failed to train the model" all the
    same, the model file staying written at [model_output_path]. *)
Theorem tracker_failure_fails_the_run (tr : ModelTraining.t) (w : world) :
  (forall w',
     ModelTraining.run tr w = (Returns tt, w') ->
     exists t1 t2 t3 t4 t5 t6 m metrics,
       mlflow_start_run (mlflow w) = (Returns tt, t1) /\
       mlflow_log_artifact (ModelTraining.train_path tr) (Some "datasets")
         (fs w !! ModelTraining.train_path tr) t1 = (Returns tt, t2) /\
       mlflow_log_artifact (ModelTraining.test_path tr) (Some "datasets")
         (fs w !! ModelTraining.test_path tr) t2 = (Returns tt, t3) /\
       mlflow_log_artifact (ModelTraining.model_output_path tr) None
         (Some (FModel m)) t3 = (Returns tt, t4) /\
       mlflow_log_params (get_params m) t4 = (Returns tt, t5) /\
       mlflow_log_metrics metrics t5 = (Returns tt, t6) /\
       mlflow_end_run "FINISHED" t6 = (Returns tt, mlflow w') /\
       fs w' !! ModelTraining.model_output_path tr = Some (FModel m)) /\
  (forall e t,
     mlflow_start_run (mlflow w) = (Raises e, t) ->
     exists w',
       ModelTraining.run tr w
       = (Raises (new_CustomException model_training_py 136 e
                    "Failed to train the model" e), w') /\
       fs w' = fs w) /\
  (forall n cause w',
     ModelTraining.run tr w
     = (Raises (new_CustomException model_training_py n cause
                  "Failed to train the model" cause), w') ->
     n = 152%nat \/ n = 154%nat \/ n = 157%nat ->
     exists m, fs w' !! ModelTraining.model_output_path tr = Some (FModel m)).
Proof.
  split; [|split].
  - intros w' Hrun. unfold ModelTraining.run, ModelTraining.run_try, try_except, with_ in Hrun.
    destruct (tracker_call mlflow_start_run w) as [[[]|e] w1] eqn:S0;
      [|handler_fails Hrun].
    apply tracker_call_run in S0 as [T0 W0].
    destruct (ModelTraining.run_body tr w1) as [[[]|[n c]] w2] eqn:S1.
    + destruct (tracker_call _ w2) as [[[]|e] w3] eqn:S2;
        [|handler_fails Hrun].
      apply tracker_call_run in S2 as [T2 W2]. injection Hrun as <-.
      apply run_body_outcome in S1
        as (t2 & t3 & t4 & t5 & m & metrics & A1 & A2 & A3 & A4 & A5 & Hfs).
      rewrite W0 in A1, A2, Hfs. world_fields in A1. world_fields in A2.
      world_fields in Hfs.
      exists (mlflow w1), t2, t3, t4, t5, (mlflow w2), m, metrics.
      repeat split; try assumption.
      rewrite W2. world_fields. rewrite Hfs. apply lookup_insert_eq.
    + destruct (tracker_call _ w2) as [[[]|e] w3]; handler_fails Hrun.
  - intros e t Hstart. unfold ModelTraining.run, ModelTraining.run_try, try_except, with_,
      tracker_call.
    rewrite Hstart. unfold ModelTraining.wrap, bind, logger_error, raise.
    eexists. split; reflexivity.
  - intros n cause w' Hrun Hn.
    apply (try_except_raises _ model_training_py
             (fun c => "Error occurred during model training: " +:+ str_exn c)
             (fun _ => "Failed to train the model")) in Hrun
      as (n0 & c & w1 & Hwith & He & ->).
    apply (f_equal str_exn) in He. unfold new_CustomException, str_exn in He.
    apply detailed_error_message_line in He. subst n0.
    unfold ModelTraining.run_try, with_ in Hwith.
    destruct (tracker_call mlflow_start_run w) as [[[]|e] w0] eqn:S0.
    2:{ injection Hwith as <- _ _. destruct Hn as [|[|]]; discriminate. }
    apply tracker_call_run in S0 as [_ W0].
    destruct (ModelTraining.run_body tr w0) as [[[]|[k c']] w2] eqn:S1.
    + destruct (tracker_call _ w2) as [[[]|e] w3]; [discriminate|].
      injection Hwith as <- _ _. destruct Hn as [|[|]]; discriminate.
    + destruct (tracker_call _ w2) as [[[]|e] w3] eqn:S2.
      * injection Hwith as -> _ <-. apply tracker_call_run in S2 as [_ W2].
        apply run_body_outcome in S1 as [_ Hsaved].
        destruct (Hsaved Hn) as (m & Hfs). exists m. world_fields.
        rewrite W2. world_fields. rewrite Hfs. apply lookup_insert_eq.
      * injection Hwith as <- _ _. destruct Hn as [|[|]]; discriminate.
Qed.

End TrainingClaims.

(** * Further properties of the stages *)

(** ** Writing a table and reading it back *)

Lemma name_unnamed_named (i : nat) (c : csv) :
  ~ In "" (map fst c) -> name_unnamed i c = c.
Proof.
  revert i. induction c as [|[h s] c IH]; intros i Hn; [reflexivity|].
  simpl in *. destruct (String.eqb h "") eqn:E.
  - apply String.eqb_eq in E. exfalso. apply Hn. now left.
  - rewrite IH; [reflexivity|]. intros H. apply Hn. now right.
Qed.

Lemma read_csv_without_index (d : DataFrame) :
  ~ In "" (columns d) ->
  read_csv (to_csv d false)
  = mkDataFrame
      (range_index (match df_data d with [] => 0%nat | (_, s) :: _ => length s end))
      (df_data d).
Proof.
  intros Hn. unfold read_csv, to_csv. now rewrite name_unnamed_named.
Qed.

Lemma read_csv_with_index (d : DataFrame) :
  ~ In "" (columns d) ->
  read_csv (to_csv d true)
  = mkDataFrame (range_index (length (df_index d)))
      (("Unnamed: 0", map VInt (df_index d)) :: df_data d).
Proof.
  intros Hn. unfold read_csv, to_csv. cbn [name_unnamed String.eqb].
  rewrite name_unnamed_named by assumption. now rewrite length_map.
Qed.

Section RoundTrips.
Context `{L : Libs} `{C : !Consts}.

(** [split_data] writes the two partitions with their row labels
    ([to_csv] with its default [index=True]).  Read back, a partition
    whose labels are distinct, none empty and none "Unnamed: 0", has a
    first column "Unnamed: 0" holding the labels its rows had in the raw
    table, then its own columns, under a fresh index.  (What [read_csv]
    makes of the other cells is not stated.) *)
Theorem split_files_keep_row_labels_as_column (self : DataIngestion.t) (w : world)
    (c : csv) (train_data test_data : DataFrame) :
  fs w !! RAW_FILE_PATH = Some (FCsv c) -> c <> [] ->
  train_test_split (read_csv c)
    (PrimFloat.sub 1 (DataIngestion.train_test_ratio self)) 42
    = Returns (train_data, test_data) ->
  file_write TRAIN_FILE_PATH (FCsv (to_csv train_data true)) = Returns tt ->
  file_write TEST_FILE_PATH (FCsv (to_csv test_data true)) = Returns tt ->
  TRAIN_FILE_PATH <> TEST_FILE_PATH ->
  exists w',
    DataIngestion.split_data self w = (Returns tt, w') /\
    fs w' !! TRAIN_FILE_PATH = Some (FCsv (to_csv train_data true)) /\
    fs w' !! TEST_FILE_PATH = Some (FCsv (to_csv test_data true)) /\
    forall part,
      part = train_data \/ part = test_data ->
      plain_labels part -> ~ In "Unnamed: 0" (columns part) ->
      columns (read_csv (to_csv part true)) = "Unnamed: 0" :: columns part /\
      getitem (read_csv (to_csv part true)) "Unnamed: 0"
      = Returns (map VInt (df_index part)) /\
      df_index (read_csv (to_csv part true)) = range_index (length (df_index part)).
Proof.
  intros Hc Hc0 Hs W1 W2 Hne.
  destruct (split_data_succeeds self w c train_data test_data Hc Hc0 Hs W1 W2)
    as (w' & Hrun).
  destruct (split_data_returns _ _ _ Hrun)
    as (c' & tr & te & Hc' & _ & Hs' & _ & _ & Hfs).
  assert (c' = c) by congruence. subst c'.
  rewrite Hs in Hs'. injection Hs' as <- <-.
  exists w'. split; [exact Hrun|]. rewrite Hfs.
  split; [rewrite lookup_insert_ne by congruence; now rewrite lookup_insert_eq|].
  split; [now rewrite lookup_insert_eq|].
  intros part _ [_ Hn] _. rewrite (read_csv_with_index _ Hn). now repeat split.
Qed.

(** A table written by [save_data] ([index=False]) and read back with
    [pd.read_csv] has its column labels, in order, when they are distinct
    and none is empty, but not its row labels: the index read back is
    [0 .. n-1] for its [n] rows.  The frame read is a new one and the frame
    saved is left as it was.  (What [read_csv] makes of the cells is not
    stated.) *)
Theorem saved_table_read_back (self : DataProcessor.t) (df : loc) (path : string)
    (w w' : world) :
  DataProcessor.save_data self df path w = (Returns tt, w') ->
  plain_labels (heap w !!! df) -> columns (heap w !!! df) <> [] ->
  rectangular (heap w !!! df) ->
  exists w'',
    pd_read_csv path w' = (Returns (length (heap w)), w'') /\
    columns (heap w'' !!! length (heap w)) = columns (heap w !!! df) /\
    df_index (heap w'' !!! length (heap w))
    = range_index (length (df_index (heap w !!! df))) /\
    heap w'' = heap w ++ [heap w'' !!! length (heap w)].
Proof.
  intros Hrun [_ Hn] Hcols Hrect.
  pose proof (post_returns _ _ _ _ _ (save_data_spec self df path w) Hrun)
    as (Hfs & Hheap & _).
  pose proof (read_csv_without_index _ Hn) as Hback.
  unfold pd_read_csv, bind, read_file. rewrite Hfs, lookup_insert_eq.
  unfold rectangular in Hrect. unfold columns in Hcols.
  destruct (to_csv (heap w !!! df) false) as [|col table] eqn:Ht;
    [unfold to_csv in Ht; rewrite Ht in Hcols; now elim Hcols|].
  unfold alloc. rewrite Hheap, Hback.
  eexists. split; [reflexivity|]. cbn [heap set_heap].
  rewrite heap_snoc_new. split; [reflexivity|]. split; [|reflexivity].
  cbn [df_index]. unfold to_csv in Ht.
  destruct (df_data (heap w !!! df)) as [|[c0 s0] data]; [discriminate|].
  apply Forall_cons in Hrect as [H0 _]. cbn [snd] in H0. now rewrite H0.
Qed.

End RoundTrips.
(** ** The ingestion run *)

Section IngestionRun.
Context `{L : Libs} `{C : !Consts}.



End IngestionRun.

(** ** What a method leaves behind, whether it returns or raises *)

Section Ends.
Context `{L : Libs}.

Lemma ends_bind {E A B : Type} (m : ST E A) (k : A -> ST E B) w (I : world -> Prop) :
  ends m w I -> (forall a w1, I w1 -> ends (k a) w1 I) -> ends (bind m k) w I.
Proof.
  unfold ends, bind. intros Hm Hk. destruct (m w) as [[a|e] w1]; [|exact Hm].
  exact (Hk a w1 Hm).
Qed.

Lemma ends_bind_run {E A B : Type} (m : ST E A) (k : A -> ST E B) w (I : world -> Prop) :
  ends m w I -> (forall a w1, m w = (Returns a, w1) -> I w1 -> ends (k a) w1 I) ->
  ends (bind m k) w I.
Proof.
  unfold ends, bind. intros Hm Hk. destruct (m w) as [[a|e] w1]; [|exact Hm].
  exact (Hk a w1 eq_refl Hm).
Qed.

Lemma ends_ret {E A : Type} (a : A) w (I : world -> Prop) : I w -> ends (ret (E := E) a) w I.
Proof. exact (fun H => H). Qed.

Lemma ends_lift_at {A : Type} n (o : outcome exn A) w (I : world -> Prop) :
  I w -> ends (lift_at n o) w I.
Proof. unfold ends, lift_at. now destruct o. Qed.

Lemma ends_at_line {A : Type} n (m : M A) w (I : world -> Prop) :
  ends m w I -> ends (at_line n m) w I.
Proof. unfold ends, at_line. now destruct (m w) as [[a|e] w1]. Qed.

Lemma ends_for_each {E A S : Type} (l : list A) (body : S -> A -> ST E S)
    (I : world -> Prop) s w :
  I w -> (forall s x w1, In x l -> I w1 -> ends (body s x) w1 I) ->
  ends (for_each l s body) w I.
Proof.
  revert s w. induction l as [|x l IH]; intros s w Hw Hb; [exact Hw|].
  simpl. apply ends_bind.
  - apply Hb; [now left|exact Hw].
  - intros s' w1 H1. apply IH; [exact H1|]. intros s0 y w2 Hy. apply Hb. now right.
Qed.

Lemma ends_try_except {A : Type} (body : MB A) handler w (I : world -> Prop) :
  ends body w I -> (forall n e w1, I w1 -> ends (handler n e) w1 I) ->
  ends (try_except body handler) w I.
Proof.
  unfold ends at 1 3, try_except. intros Hb Hh.
  destruct (body w) as [[a|[n e]] w1]; [exact Hb|]. now apply Hh.
Qed.

(** [update_column] changes nothing when it raises. *)
Lemma update_column_raises n df c f w e w' :
  update_column n df c f w = (Raises e, w') -> w' = w.
Proof.
  unfold update_column, bind, deref, lift_at, store.
  destruct (getitem (heap w !!! df) c) as [s|e0]; [|now intros [= _ <-]].
  destruct (f s) as [s'|e0]; [discriminate|now intros [= _ <-]].
Qed.

End Ends.

(** ** The footprint of [preprocess_data] *)

Section PreprocessFootprint.
Context `{L : Libs} `{C : !Consts}.

Variable self : DataProcessor.t.
Variable df : loc.
Variable P : DataFrame -> Prop.

(** [P] is a property of a frame that assigning to one of the columns
    [preprocess_data] assigns to does not break. *)
Hypothesis P_assigned :
  forall d c s, In c (assigned_columns self) -> has_column d c = true ->
    P d -> P (setitem d c s).

Lemma kept_by_update_column n c f w0 w :
  In c (assigned_columns self) ->
  touches_only df w0 w /\ P (heap w !!! df) ->
  ends (update_column n df c f) w
    (fun w' => touches_only df w0 w' /\ P (heap w' !!! df)).
Proof.
  intros Hc [T HP]. unfold ends.
  destruct (update_column n df c f w) as [[[]|e] w'] eqn:Hrun; cbn [snd].
  - pose proof (post_returns _ _ _ _ _ (update_column_spec _ _ _ _ _) Hrun)
      as (T' & _ & _ & s & s' & Hg & _ & ->).
    split; [eapply touches_only_trans; eassumption|].
    apply P_assigned; [assumption|eapply getitem_has, Hg|assumption].
  - apply update_column_raises in Hrun. subst w'. now split.
Qed.

Lemma kept_by_info {E : Type} msg w0 w :
  touches_only df w0 w /\ P (heap w !!! df) ->
  ends (logger_info (E := E) msg) w
    (fun w' => touches_only df w0 w' /\ P (heap w' !!! df)).
Proof.
  intros [T HP]. unfold ends, logger_info. cbn [snd heap set_log]. split; [|exact HP].
  eapply touches_only_trans; [exact T|]. now apply touches_only_same_frames.
Qed.

Lemma skewed_columns_configured d sk thr c :
  DataProcessor.measure_skewness d
    (numerical_columns (data_processing (DataProcessor.config self))) = Returns sk ->
  In c (DataProcessor.skewed_columns sk thr) -> In c (assigned_columns self).
Proof.
  intros Hm Hc. apply (skewed_columns_In _ _ _ _ _ Hm) in Hc as (_ & _ & Hc & _).
  unfold assigned_columns. rewrite !in_app_iff. now right; right.
Qed.

(** Lines 38 to 66. *)
Let from_line_38 : MB loc :=
  (logger_info "Applying Label Encoding" ;;
     mappings <- for_each (categorical_columns (data_processing (DataProcessor.config self))) []
       (fun mappings column =>
          d <- deref df ;;
          col <- lift_at 46 (getitem d column) ;;
          fitted <- lift_at 46 (DataProcessor.fit_transform col) ;;
          store df (setitem d column (snd fitted)) ;;
          codes <- lift_at 48 (le_transform (fst fitted) (fst fitted)) ;;
          ret (dict_set mappings column (combine (fst fitted) codes))) ;;
     logger_info "Label Mapping are: " ;;
     for_each mappings tt
       (fun _ cm => logger_info (fst cm +:+ ": " +:+ str_dict (snd cm))) ;;
     logger_info "Skewness handling" ;;
     update_column 57 df "no_of_previous_cancellations" np_log1p ;;
     update_column 58 df "no_of_previous_bookings_not_canceled" np_log1p ;;
     d <- deref df ;;
     skewness <- lift_at 61
       (DataProcessor.measure_skewness d
          (numerical_columns (data_processing (DataProcessor.config self)))) ;;
     DataProcessor.transform_skewed df
       (DataProcessor.skewed_columns skewness
          (skewness_threshold (data_processing (DataProcessor.config self)))) ;;
     ret df).

Lemma kept_after_dropping w0 w :
  touches_only df w0 w /\ P (heap w !!! df) ->
  ends from_line_38 w
    (fun w' => touches_only df w0 w' /\ P (heap w' !!! df)).
Proof.
  intros Hw. unfold from_line_38.
  apply ends_bind; [now apply kept_by_info|]. clear w Hw. intros _ w Hw.
  apply ends_bind.
  { apply ends_for_each; [exact Hw|]. clear w Hw. intros s column w Hc [T HP].
    unfold ends, bind, deref, lift_at, store, ret.
    destruct (getitem (heap w !!! df) column) as [col|e] eqn:Hg; [|now split].
    destruct (DataProcessor.fit_transform col) as [fitted|e]; [|now split].
    cbn beta iota.
    assert (Hnew : touches_only df w0 (set_heap (<[df:=setitem (heap w !!! df) column
                                                        (snd fitted)]> (heap w)) w)
                   /\ P (heap (set_heap (<[df:=setitem (heap w !!! df) column
                                             (snd fitted)]> (heap w)) w) !!! df)).
    { split; [eapply touches_only_trans; [exact T|apply touches_only_store]|].
      cbn [heap set_heap]. pose proof (getitem_has _ _ _ Hg) as Hh.
      rewrite (stored_frame _ _ _ _ Hh). apply P_assigned; [|assumption|assumption].
      unfold assigned_columns. rewrite in_app_iff. now left. }
    destruct (le_transform (fst fitted) (fst fitted)); exact Hnew. }
  clear w Hw. intros mappings w Hw.
  apply ends_bind; [now apply kept_by_info|]. clear w Hw. intros _ w Hw.
  apply ends_bind.
  { apply ends_for_each; [exact Hw|]. intros s cm w1 _ H1. now apply kept_by_info. }
  clear w Hw. intros _ w Hw.
  apply ends_bind; [now apply kept_by_info|]. clear w Hw. intros _ w Hw.
  apply ends_bind.
  { apply kept_by_update_column; [|exact Hw].
    unfold assigned_columns. rewrite !in_app_iff. right; left. now left. }
  clear w Hw. intros _ w Hw.
  apply ends_bind.
  { apply kept_by_update_column; [|exact Hw].
    unfold assigned_columns. rewrite !in_app_iff. right; left. right; now left. }
  clear w Hw. intros _ w Hw.
  apply ends_bind_run; [exact Hw|]. intros d w1 [= <- <-] _.
  apply ends_bind_run; [now apply ends_lift_at|]. intros sk w1 Hm _.
  unfold lift_at in Hm.
  destruct (DataProcessor.measure_skewness _ _) as [sk0|e] eqn:Hsk; [|discriminate].
  injection Hm as -> <-.
  apply ends_bind; [|intros; now apply ends_ret].
  unfold DataProcessor.transform_skewed.
  apply ends_for_each; [exact Hw|]. intros s column w1 Hc H1.
  apply kept_by_update_column; [|exact H1].
  eapply skewed_columns_configured; eassumption.
Qed.

(** Whatever the outcome of [preprocess_data] on a table with a
    "Booking_ID" column, only that table changed, and it has every
    property of the table without that column and without its duplicated
    rows that assignments to the configured columns keep. *)
Lemma preprocess_data_keeps w d1 :
  drop_columns (heap w !!! df) ["Booking_ID"] = Returns d1 ->
  P (drop_duplicates d1) ->
  ends (DataProcessor.preprocess_data self df) w
    (fun w' => touches_only df w w' /\ P (heap w' !!! df)).
Proof.
  intros Hdrop HP. unfold ends.
  destruct (DataProcessor.preprocess_data self df w) as [r w'] eqn:Hrun. cbn [snd].
  pose proof (drop_columns_one _ _ _ Hdrop) as (Hhas & _ & _).
  unfold DataProcessor.preprocess_data, DataProcessor.preprocess_data_try, try_except in Hrun.
  unfold bind at 1 2 in Hrun. unfold logger_info at 1 2 in Hrun. cbn beta iota in Hrun.
  unfold bind at 1, inplace at 1 in Hrun. unfold bind at 1, deref at 1 in Hrun.
  cbn beta iota in Hrun. unfold bind at 1, lift_at at 1 in Hrun.
  cbn [heap set_log] in Hrun. rewrite Hdrop in Hrun.
  unfold store at 1 in Hrun. cbn beta iota in Hrun.
  unfold bind at 1, inplace at 1 in Hrun. unfold bind at 1, deref at 1 in Hrun.
  cbn beta iota in Hrun. unfold bind at 1, lift_at at 1 in Hrun.
  unfold store at 1 in Hrun. cbn beta iota in Hrun.
  cbn [heap set_log set_heap fs log np_random mlflow] in Hrun.
  rewrite (stored_frame _ _ _ _ Hhas) in Hrun.
  match type of Hrun with
  | match _ ?W with _ => _ end = _ =>
      change (try_except from_line_38
                (DataProcessor.wrap "Error occurred during data preprocessing: "
                   "Failed to preprocess the data") W = (r, w')) in Hrun;
      assert (Hends : ends (try_except from_line_38
                (DataProcessor.wrap (A := loc) "Error occurred during data preprocessing: "
                   "Failed to preprocess the data")) W
                (fun w' => touches_only df w w' /\ P (heap w' !!! df)))
  end.
  { apply ends_try_except.
    - apply kept_after_dropping. split.
      + repeat split; cbn [heap set_log set_heap fs log np_random mlflow].
        * now rewrite !length_insert.
        * intros l Hl. now rewrite !list_lookup_insert_ne.
      + cbn [heap set_heap].
        rewrite list_lookup_total_insert_eq
          by (rewrite length_insert; eapply frame_in_range, Hhas).
        exact HP.
    - intros n e w1 [T H1]. unfold ends, DataProcessor.wrap, bind, logger_error, raise.
      cbn [snd heap set_log]. split; [|exact H1].
      eapply touches_only_trans; [exact T|]. now apply touches_only_same_frames. }
  unfold ends in Hends. now rewrite Hrun in Hends.
Qed.

End PreprocessFootprint.

Section PreprocessOutcomes.
Context `{L : Libs} `{C : !Consts}.

Lemma drop_columns_present d c :
  has_column d c = true -> exists d', drop_columns d [c] = Returns d'.
Proof.
  intros H. destruct (drop_columns d [c]) as [d'|e] eqn:E; [now exists d'|].
  apply drop_columns_one_raises in E as [E _]. congruence.
Qed.

Lemma setitem_index d c s : df_index (setitem d c s) = df_index d.
Proof. unfold setitem. now destruct (has_column d c). Qed.

(** A table without a "Booking_ID" column: [preprocess_data] raises at
    line 35, with the KeyError as cause, and only the log has changed. *)
Lemma preprocess_data_needs_Booking_ID_run (self : DataProcessor.t) (df : loc) (w : world) :
  has_column (heap w !!! df) "Booking_ID" = false ->
  DataProcessor.preprocess_data self df w
  = (Raises (new_CustomException data_preprocessing_py 35 (KeyError "Booking_ID")
               "Failed to preprocess the data" (KeyError "Booking_ID")),
     set_log (log w ++ [(INFO, " Starting the Preprocessing data");
                        (INFO, "Dropping unnecessary columns");
                        (ERROR, "Error occurred during data preprocessing: "
                                  +:+ str_exn (KeyError "Booking_ID"))]) w).
Proof.
  intros Hhas.
  unfold DataProcessor.preprocess_data, DataProcessor.preprocess_data_try, try_except.
  unfold bind at 1 2. unfold logger_info at 1 2. cbn beta iota.
  unfold bind at 1, inplace at 1. unfold bind at 1, deref at 1. cbn beta iota.
  unfold bind at 1, lift_at at 1. cbn [heap set_log].
  destruct (drop_columns (heap w !!! df) ["Booking_ID"]) as [d1|e] eqn:Hdrop.
  { apply drop_columns_one in Hdrop as [Hdrop _]. congruence. }
  apply drop_columns_one_raises in Hdrop as [_ ->].
  unfold DataProcessor.wrap, bind, logger_error, raise.
  unfold set_log. cbn [heap set_log set_heap fs log np_random mlflow].
  now rewrite <- !app_assoc.
Qed.

(** Whether [preprocess_data] returns or raises, nothing but the table it
    was given has changed: the files, the other tables, numpy's random
    state and the tracker are as they were.  The changes it made before a
    failure stay: when the table had a "Booking_ID" column, it has none
    afterwards and keeps its other columns, in order, whatever the
    outcome.  When the table had no such column, the call raised at line
    35 with the KeyError as cause and the table is as it was. *)
Theorem preprocess_data_changes_only_its_table (self : DataProcessor.t) (df : loc)
    (w w' : world) (r : outcome exn loc) :
  DataProcessor.preprocess_data self df w = (r, w') ->
  (fs w' = fs w /\ np_random w' = np_random w /\ mlflow w' = mlflow w /\
   length (heap w') = length (heap w) /\
   forall l, l <> df -> heap w' !! l = heap w !! l) /\
  (has_column (heap w !!! df) "Booking_ID" = true ->
   has_column (heap w' !!! df) "Booking_ID" = false /\
   columns (heap w' !!! df)
   = List.filter (fun x => negb (String.eqb x "Booking_ID")) (columns (heap w !!! df))) /\
  (has_column (heap w !!! df) "Booking_ID" = false ->
   r = Raises (new_CustomException data_preprocessing_py 35 (KeyError "Booking_ID")
                 "Failed to preprocess the data" (KeyError "Booking_ID")) /\
   heap w' = heap w).
Proof.
  intros Hrun.
  destruct (has_column (heap w !!! df) "Booking_ID") eqn:Hhas.
  - destruct (drop_columns_present _ _ Hhas) as (d1 & Hdrop).
    pose proof (preprocess_data_keeps self df
                  (fun d => columns d
                            = List.filter (fun x => negb (String.eqb x "Booking_ID"))
                                (columns (heap w !!! df)))
                  (fun d c s _ Hc Hd => eq_trans (columns_setitem d c s Hc) Hd)
                  w d1 Hdrop) as Hk.
    unfold ends in Hk. rewrite Hrun in Hk. cbn [snd] in Hk.
    destruct Hk as [(Hfs & Hlen & Hother & Hrng & Hml) Hcols].
    { rewrite columns_drop_duplicates. now apply columns_drop. }
    split; [now repeat split|]. split; [|discriminate]. intros _. split; [|exact Hcols].
    destruct (has_column (heap w' !!! df) "Booking_ID") eqn:E; [|reflexivity]. exfalso.
    apply has_column_In in E. rewrite Hcols in E. apply filter_In in E as [_ E].
    discriminate.
  - rewrite (preprocess_data_needs_Booking_ID_run self df w Hhas) in Hrun.
    injection Hrun as <- <-. split; [now repeat split|]. split; [discriminate|].
    intros _. now split.
Qed.



(** A completed [preprocess_data] was given a table with a "Booking_ID"
    column, and its table has every property of that table, without the
    column and without its duplicated rows, that assignments to the
    configured columns keep. *)
Lemma preprocess_data_returns_keeps (self : DataProcessor.t) (df r : loc) (w w' : world) :
  DataProcessor.preprocess_data self df w = (Returns r, w') ->
  exists without_id,
    drop_columns (heap w !!! df) ["Booking_ID"] = Returns without_id /\
    forall P : DataFrame -> Prop,
      (forall d c s, In c (assigned_columns self) -> has_column d c = true ->
         P d -> P (setitem d c s)) ->
      P (drop_duplicates without_id) -> P (heap w' !!! df).
Proof.
  intros Hrun.
  pose proof (post_returns _ _ _ _ _ (preprocess_data_spec self df w) Hrun)
    as (_ & _ & _ & Hhas & _).
  destruct (drop_columns_present _ _ Hhas) as (d1 & Hdrop).
  exists d1. split; [exact Hdrop|]. intros P HP H1.
  pose proof (preprocess_data_keeps self df P HP w d1 Hdrop H1) as Hk.
  unfold ends in Hk. rewrite Hrun in Hk. exact (proj2 Hk).
Qed.

Lemma other_columns_kept (self : DataProcessor.t) (d0 : DataFrame) :
  forall d c s, In c (assigned_columns self) -> has_column d c = true ->
    (df_index d = df_index d0 /\
     forall c', ~ In c' (assigned_columns self) -> getitem d c' = getitem d0 c') ->
    df_index (setitem d c s) = df_index d0 /\
    forall c', ~ In c' (assigned_columns self) -> getitem (setitem d c s) c' = getitem d0 c'.
Proof.
  intros d c s Hc _ [Hi Hg]. split; [now rewrite setitem_index|].
  intros c' Hc'. rewrite getitem_setitem_other; [now apply Hg|].
  intros ->. contradiction.
Qed.

(** A completed [preprocess_data] leaves the columns it is not configured
    to assign to with the values they had, once the duplicated rows are
    removed; the row labels are those of the first occurrences (they are
    not renumbered). *)
Theorem preprocess_data_keeps_other_columns (self : DataProcessor.t) (df r : loc)
    (w w' : world) :
  DataProcessor.preprocess_data self df w = (Returns r, w') ->
  exists without_id,
    drop_columns (heap w !!! df) ["Booking_ID"] = Returns without_id /\
    df_index (heap w' !!! df) = df_index (drop_duplicates without_id) /\
    forall c, ~ In c (assigned_columns self) ->
      getitem (heap w' !!! df) c = getitem (drop_duplicates without_id) c.
Proof.
  intros Hrun.
  destruct (preprocess_data_returns_keeps self df r w w' Hrun) as (d1 & Hdrop & Hk).
  exists d1. split; [exact Hdrop|].
  apply (Hk (fun d => df_index d = df_index (drop_duplicates d1) /\
                      forall c, ~ In c (assigned_columns self) ->
                        getitem d c = getitem (drop_duplicates d1) c)).
  - apply other_columns_kept.
  - now split.
Qed.

End PreprocessOutcomes.

(** ** Duplicated rows and the index column *)

Lemma row_eqb_differs (data : list (string * Series)) (i j : nat) c s :
  In (c, s) data ->
  option_cell_eqb (s !! i) (s !! j) = false ->
  row_eqb (map (fun p => snd p !! i) data) (map (fun p => snd p !! j) data) = false.
Proof.
  intros Hin Hne. induction data as [|p data IH]; [destruct Hin|].
  simpl. destruct Hin as [->|Hin].
  - simpl. now rewrite Hne.
  - rewrite (IH Hin). apply andb_false_r.
Qed.

Lemma first_occurrences_all (d : DataFrame) c s (seen todo : list nat) :
  In (c, s) (df_data d) ->
  (forall i j, In i (seen ++ todo) -> In j (seen ++ todo) -> i <> j ->
     option_cell_eqb (s !! i) (s !! j) = false) ->
  List.NoDup (seen ++ todo) ->
  first_occurrences (map (row_at d) seen) (map (row_at d) todo)
  = repeat true (length todo).
Proof.
  intros Hin Hne. revert seen Hne.
  induction todo as [|i todo IH]; intros seen Hne Hnd; [reflexivity|].
  cbn [map first_occurrences length repeat].
  assert (Hnew : existsb (row_eqb (row_at d i)) (map (row_at d) seen) = false).
  { apply not_true_is_false. intros H. apply existsb_exists in H as (r & Hr & He).
    apply in_map_iff in Hr as (j & <- & Hj).
    unfold row_at in He. rewrite (row_eqb_differs _ i j c s Hin) in He; [discriminate|].
    apply Hne.
    - apply in_or_app. right. now left.
    - apply in_or_app. now left.
    - intros ->. apply List.NoDup_remove_2 in Hnd. apply Hnd.
      apply in_or_app. now left. }
  rewrite Hnew. f_equal.
  apply (IH (i :: seen)).
  - intros a b Ha Hb. apply Hne.
    + destruct Ha as [<-|Ha]; [apply in_or_app; right; now left|].
      apply in_app_or in Ha as [Ha|Ha]; apply in_or_app; [now left|right; now right].
    + destruct Hb as [<-|Hb]; [apply in_or_app; right; now left|].
      apply in_app_or in Hb as [Hb|Hb]; apply in_or_app; [now left|right; now right].
  - simpl. constructor.
    + apply List.NoDup_remove_2 in Hnd. exact Hnd.
    + apply List.NoDup_remove_1 in Hnd. exact Hnd.
Qed.

Lemma select_mask_all {A : Type} (l : list A) :
  select_mask (repeat true (length l)) l = l.
Proof.
  unfold select_mask. induction l as [|x l IH]; [reflexivity|].
  simpl. now f_equal.
Qed.

(** A rectangular frame with a column of pairwise different values has
    no duplicated row: [drop_duplicates] returns it as it is. *)
Lemma drop_duplicates_distinct_column (d : DataFrame) c s :
  rectangular d ->
  In (c, s) (df_data d) ->
  (forall i j x y, s !! i = Some x -> s !! j = Some y -> i <> j -> cell_eqb x y = false) ->
  drop_duplicates d = d.
Proof.
  intros Hrect Hin Hne. unfold drop_duplicates.
  destruct (df_data d) as [|p0 data0] eqn:Hd; [reflexivity|].
  rewrite <- Hd in *. clear p0 data0 Hd.
  assert (Hmask : first_occurrences [] (rows d) = repeat true (length (df_index d))).
  { unfold rows.
    pose proof (first_occurrences_all d c s [] (seq 0 (length (df_index d))) Hin) as H.
    cbn [map app] in H. rewrite H.
    - now rewrite length_seq.
    - intros i j Hi Hj Hij.
      apply in_seq in Hi, Hj.
      assert (Hlen : length s = length (df_index d)).
      { unfold rectangular in Hrect. rewrite List.Forall_forall in Hrect.
        exact (Hrect _ Hin). }
      destruct (lookup_lt_is_Some_2 s i) as [x Hx]; [lia|].
      destruct (lookup_lt_is_Some_2 s j) as [y Hy]; [lia|].
      assert (Hx' : s !! i = Some x) by exact Hx.
      assert (Hy' : s !! j = Some y) by exact Hy.
      rewrite Hx', Hy'. simpl. now apply (Hne i j).
    - apply List.seq_NoDup. }
  rewrite Hmask. rewrite select_mask_all.
  destruct d as [idx data]. cbn [df_index df_data] in *. f_equal.
  unfold rectangular in Hrect. cbn [df_index df_data] in Hrect.
  clear Hin Hmask. induction data as [|[c0 s0] data IH]; [reflexivity|].
  apply List.Forall_cons_iff in Hrect as [H0 Hrect]. cbn [map fst snd] in *.
  f_equal; [|now apply IH]. now rewrite <- H0, select_mask_all.
Qed.

Section IndexColumn.
Context `{L : Libs} `{C : !Consts}.

Lemma range_index_length n : length (range_index n) = n.
Proof. unfold range_index. now rewrite length_map, length_seq. Qed.

Lemma lookup_index_column (idx : list Z) (i : nat) :
  (map VInt idx : Series) !! i = option_map VInt (idx !! i).
Proof.
  revert i. induction idx as [|a idx IH]; intros [|i]; try reflexivity. apply IH.
Qed.

Lemma index_column_distinct (idx : list Z) :
  List.NoDup idx ->
  forall i j x y, (map VInt idx : Series) !! i = Some x ->
    (map VInt idx : Series) !! j = Some y -> i <> j -> cell_eqb x y = false.
Proof.
  intros Hnd i j x y Hx Hy Hij.
  rewrite lookup_index_column in Hx, Hy.
  destruct (idx !! i) as [a|] eqn:Ha; [|discriminate].
  destruct (idx !! j) as [b|] eqn:Hb; [|discriminate].
  injection Hx as <-. injection Hy as <-. simpl.
  apply Z.eqb_neq. intros ->. apply Hij.
  apply NoDup_ListNoDup in Hnd. exact (NoDup_lookup _ _ _ _ Hnd Ha Hb).
Qed.

(** No row of a table written by [split_data] is removed as a duplicate:
    read back, the table has the row labels as the column "Unnamed: 0",
    which [preprocess_data] does not drop and which tells any two rows
    apart, so line 36 removes nothing, even when two bookings agree in
    every field but "Booking_ID". *)
Theorem split_rows_are_never_duplicates (self : DataProcessor.t) (df r : loc)
    (w w' : world) (part : DataFrame) :
  heap w !!! df = read_csv (to_csv part true) ->
  rectangular part -> List.NoDup (df_index part) -> ~ In "" (columns part) ->
  DataProcessor.preprocess_data self df w = (Returns r, w') ->
  df_index (heap w' !!! df) = range_index (length (df_index part)) /\
  (~ In "Unnamed: 0" (assigned_columns self) ->
   getitem (heap w' !!! df) "Unnamed: 0" = Returns (map VInt (df_index part))).
Proof.
  intros Hd Hrect Hnd Hnamed Hrun.
  destruct (preprocess_data_returns_keeps self df r w w' Hrun) as (d1 & Hdrop & Hk).
  destruct (Hk (fun d => df_index d = df_index (drop_duplicates d1) /\
                         forall c, ~ In c (assigned_columns self) ->
                           getitem d c = getitem (drop_duplicates d1) c)
              (other_columns_kept self (drop_duplicates d1)) (conj eq_refl (fun _ _ => eq_refl)))
    as [Hidx Hcols].
  rewrite Hd, (read_csv_with_index _ Hnamed) in Hdrop.
  pose proof (drop_columns_one _ _ _ Hdrop) as (_ & Hi1 & Hd1).
  cbn [df_index df_data List.filter fst String.eqb Ascii.eqb Bool.eqb negb] in Hi1, Hd1.
  assert (Hsame : drop_duplicates d1 = d1).
  { apply (drop_duplicates_distinct_column d1 "Unnamed: 0" (map VInt (df_index part))).
    - unfold rectangular. rewrite Hi1, Hd1, range_index_length. constructor.
      + cbn [snd]. apply length_map.
      + apply List.Forall_forall. intros p Hp. apply filter_In in Hp as [Hp _].
        unfold rectangular in Hrect. rewrite List.Forall_forall in Hrect. now apply Hrect.
    - rewrite Hd1. now left.
    - now apply index_column_distinct. }
  rewrite Hsame in Hidx, Hcols. split.
  - now rewrite Hidx, Hi1.
  - intros Hc. rewrite (Hcols _ Hc). unfold getitem. rewrite Hd1. reflexivity.
Qed.

End IndexColumn.

(** ** The balancer and the selector *)

Section BalancerSelector.
Context `{L : Libs} `{C : !Consts}.

Lemma has_column_false_getitem d c :
  has_column d c = false -> getitem d c = Raises (KeyError c).
Proof.
  intros H. destruct (getitem d c) as [s|e] eqn:E.
  - apply getitem_has in E. congruence.
  - unfold getitem in E. destruct (List.find _ _); [discriminate|]. now injection E as <-.
Qed.

Lemma drop_columns_absent d c :
  has_column d c = false -> drop_columns d [c] = Raises (KeyError c).
Proof.
  intros H. destruct (drop_columns d [c]) as [d'|e] eqn:E.
  - apply drop_columns_one in E as [E _]. congruence.
  - apply drop_columns_one_raises in E as [_ ->]. reflexivity.
Qed.

(** [balanced_data] returns the features in the order they had, then the
    label as the last column, wherever the label was.  Without a label
    column it raises at line 76 before the oversampler is called: no table
    is made and numpy's random state is not drawn from.  When the
    oversampler itself fails (a single class, say), it raises at line 80
    with the oversampler's exception as cause, and no table is made. *)
Theorem balanced_data_outcomes (self : DataProcessor.t) (df : loc) (w : world) :
  (forall r w',
     DataProcessor.balanced_data self df w = (Returns r, w') ->
     columns (heap w' !!! r)
     = List.filter (fun x => negb (String.eqb x "booking_status")) (columns (heap w !!! df))
         ++ ["booking_status"]) /\
  (has_column (heap w !!! df) "booking_status" = false ->
   exists w',
     DataProcessor.balanced_data self df w
     = (Raises (new_CustomException data_preprocessing_py 76 (KeyError "booking_status")
                  "Failed to balance the data" (KeyError "booking_status")), w') /\
     heap w' = heap w /\ fs w' = fs w /\ np_random w' = np_random w) /\
  (forall X y e g,
     drop_columns (heap w !!! df) ["booking_status"] = Returns X ->
     getitem (heap w !!! df) "booking_status" = Returns y ->
     smote_fit_resample (np_random w) X y = (Raises e, g) ->
     exists w',
       DataProcessor.balanced_data self df w
       = (Raises (new_CustomException data_preprocessing_py 80 e
                    "Failed to balance the data" e), w') /\
       heap w' = heap w /\ fs w' = fs w /\ np_random w' = g).
Proof.
  split; [|split].
  - intros r w' Hrun.
    pose proof (post_returns _ _ _ _ _ (balanced_data_spec self df w) Hrun)
      as (-> & out & Hb & _ & _ & -> & _).
    rewrite heap_snoc_new. exact (balanced_from_columns _ _ _ _ Hb).
  - intros Hno. unfold DataProcessor.balanced_data, DataProcessor.balanced_data_try, try_except.
    unfold bind, logger_info, deref, lift_at.
    cbn [heap set_log set_heap fs log np_random mlflow].
    rewrite (drop_columns_absent _ _ Hno).
    unfold DataProcessor.wrap, bind, logger_error, raise.
    eexists. split; [reflexivity|]. now repeat split.
  - intros X y e g HX Hy Hs. unfold DataProcessor.balanced_data,
      DataProcessor.balanced_data_try, try_except.
    unfold bind, logger_info, deref, lift_at, DataProcessor.fit_resample.
    cbn [heap set_log set_heap fs log np_random mlflow].
    rewrite HX, Hy. cbn [heap set_log set_heap fs log np_random mlflow]. rewrite Hs.
    unfold DataProcessor.wrap, bind, logger_error, raise.
    eexists. split; [reflexivity|]. now repeat split.
Qed.

Lemma find_none_sub (c : string) (data l : list (string * Series)) :
  (forall p, In p l -> In p data) ->
  List.find (fun p => String.eqb (fst p) c) data = None ->
  List.find (fun p => String.eqb (fst p) c) l = None.
Proof.
  intros Hsub Hn. destruct (List.find _ l) as [p|] eqn:E; [|reflexivity].
  apply find_some in E as [Hp E].
  rewrite (find_none _ _ Hn p (Hsub p Hp)) in E. discriminate.
Qed.

Lemma find_filter_same (c : string) (data rest : list (string * Series)) :
  List.find (fun p => String.eqb (fst p) c)
    (List.filter (fun p => String.eqb (fst p) c) data ++ rest)
  = match List.find (fun p => String.eqb (fst p) c) data with
    | Some p => Some p
    | None => List.find (fun p => String.eqb (fst p) c) rest
    end.
Proof.
  induction data as [|p data IH]; [reflexivity|].
  simpl. destruct (String.eqb (fst p) c) eqn:E; simpl; [now rewrite E|exact IH].
Qed.

Lemma find_filter_other (c c' : string) (data rest : list (string * Series)) :
  c' <> c ->
  List.find (fun p => String.eqb (fst p) c)
    (List.filter (fun p => String.eqb (fst p) c') data ++ rest)
  = List.find (fun p => String.eqb (fst p) c) rest.
Proof.
  intros Hne. induction data as [|p data IH]; [reflexivity|].
  simpl. destruct (String.eqb (fst p) c') eqn:E; [|exact IH].
  simpl. apply String.eqb_eq in E.
  destruct (String.eqb (fst p) c) eqn:E'; [|exact IH].
  apply String.eqb_eq in E'. congruence.
Qed.

Lemma find_in_selection (data : list (string * Series)) (labels : list string) c :
  In c labels ->
  List.find (fun p => String.eqb (fst p) c)
    (flat_map (fun c' => List.filter (fun p => String.eqb (fst p) c') data) labels)
  = List.find (fun p => String.eqb (fst p) c) data.
Proof.
  intros Hin. induction labels as [|c0 labels IH]; [destruct Hin|].
  cbn [flat_map]. destruct (String.eqb c0 c) eqn:E.
  - apply String.eqb_eq in E. subst c0. rewrite find_filter_same.
    destruct (List.find _ data) eqn:Hd; [reflexivity|].
    apply (find_none_sub c data); [|exact Hd].
    intros p Hp. apply in_flat_map in Hp as (c' & _ & Hp).
    now apply filter_In in Hp as [Hp _].
  - rewrite find_filter_other by (intros ->; now rewrite String.eqb_refl in E).
    apply IH. destruct Hin as [->|Hin]; [now rewrite String.eqb_refl in E|exact Hin].
Qed.

Lemma getitem_getitem_list d labels sub c :
  getitem_list d labels = Returns sub -> In c labels -> getitem sub c = getitem d c.
Proof.
  intros Hs Hc. apply getitem_list_Returns in Hs as [_ ->].
  unfold getitem. cbn [df_data]. now rewrite find_in_selection.
Qed.

Lemma head_length {A : Type} (n : Z) (l : list A) :
  (0 <= n)%Z -> (length (head n l) <= Z.to_nat n)%nat.
Proof.
  intros Hn. unfold head. destruct (n <? 0)%Z eqn:E; [apply Z.ltb_lt in E; lia|].
  rewrite length_firstn. lia.
Qed.

(** [select_feature] only selects: the table it returns has at most
    [no_of_features] feature columns, all of them columns of the table it
    was given, then the label; every column it keeps has the values it had,
    and the rows keep their labels. *)
Theorem select_feature_only_selects (self : DataProcessor.t) (df r : loc) (w w' : world) :
  DataProcessor.select_feature self df w = (Returns r, w') ->
  List.NoDup (columns (heap w !!! df)) ->
  exists top,
    columns (heap w' !!! r) = top ++ ["booking_status"] /\
    (forall c, In c top -> In c (columns (heap w !!! df)) /\ c <> "booking_status") /\
    (0 <= no_of_features (data_processing (DataProcessor.config self)) ->
     (length top
      <= Z.to_nat (no_of_features (data_processing (DataProcessor.config self))))%nat) /\
    df_index (heap w' !!! r) = df_index (heap w !!! df) /\
    (forall c, In c (columns (heap w' !!! r)) ->
       getitem (heap w' !!! r) c = getitem (heap w !!! df) c).
Proof.
  intros Hrun Hnd.
  pose proof (post_returns _ _ _ _ _ (select_feature_spec self df w) Hrun)
    as (-> & top & sel & S & _ & _ & _ & -> & _).
  rewrite heap_snoc_new.
  destruct (selected_from_columns _ _ _ _ S Hnd) as (Hcols & _ & Hsub).
  destruct S as (X & y & imp & _ & _ & _ & Ht & Hg).
  exists top. split; [exact Hcols|]. split; [exact Hsub|]. split; [|split].
  - intros HK. unfold DataProcessor.top_features in Ht.
    destruct (DataProcessor.feature_importance_frame _ _); [|discriminate].
    injection Ht as <-. now apply head_length.
  - apply getitem_list_Returns in Hg as [_ ->]. reflexivity.
  - intros c Hc. rewrite Hcols in Hc. exact (getitem_getitem_list _ _ _ _ Hg Hc).
Qed.

End BalancerSelector.

Section SelectorEdges.
Context `{L : Libs} `{C : !Consts}.

(** The features [select_feature] keeps are the first [no_of_features]
    entries of a ranking of all the features. *)
Lemma selected_from_ranking self d top sel :
  selected_from self d top sel ->
  exists ranking,
    Permutation ranking
      (List.filter (fun x => negb (String.eqb x "booking_status")) (columns d)) /\
    top = head (no_of_features (data_processing (DataProcessor.config self))) ranking.
Proof.
  intros (X & y & imp & HX & _ & _ & Ht & _).
  unfold DataProcessor.top_features, DataProcessor.feature_importance_frame in Ht.
  destruct (Nat.eqb (length (columns X)) (length imp)) eqn:El; [|discriminate].
  apply Nat.eqb_eq in El. injection Ht as <-.
  exists (map fst (sort_values_desc (combine (columns X) imp))). split; [|reflexivity].
  rewrite <- (columns_drop _ _ _ HX).
  rewrite <- (map_fst_combine_eq (columns X) imp El) at 2.
  apply Permutation_map, sort_values_desc_perm.
Qed.

(** The edge values of [no_of_features], with [n] features in the table:
    0 keeps the label alone; [n] or more keeps every column (the features
    reordered by rank, the label last); a negative value [-k] keeps all
    but the [k] last-ranked features ([head] of a negative count). *)
Theorem select_feature_count_edges (self : DataProcessor.t) (df r : loc) (w w' : world) :
  DataProcessor.select_feature self df w = (Returns r, w') ->
  List.NoDup (columns (heap w !!! df)) ->
  (no_of_features (data_processing (DataProcessor.config self)) = 0 ->
   columns (heap w' !!! r) = ["booking_status"]) /\
  (Z.of_nat (length (List.filter (fun x => negb (String.eqb x "booking_status"))
                       (columns (heap w !!! df))))
     <= no_of_features (data_processing (DataProcessor.config self)) ->
   Permutation (columns (heap w' !!! r))
     (List.filter (fun x => negb (String.eqb x "booking_status")) (columns (heap w !!! df))
        ++ ["booking_status"])) /\
  (no_of_features (data_processing (DataProcessor.config self)) < 0 ->
   length (columns (heap w' !!! r))
   = (length (List.filter (fun x => negb (String.eqb x "booking_status"))
                (columns (heap w !!! df)))
      - Z.to_nat (- no_of_features (data_processing (DataProcessor.config self))) + 1)%nat).
Proof.
  intros Hrun Hnd.
  pose proof (post_returns _ _ _ _ _ (select_feature_spec self df w) Hrun)
    as (-> & top & sel & S & _ & _ & _ & -> & _).
  rewrite heap_snoc_new.
  destruct (selected_from_columns _ _ _ _ S Hnd) as (-> & _ & _).
  destruct (selected_from_ranking _ _ _ _ S) as (ranking & Hp & ->).
  pose proof (Permutation_length Hp) as Hlen.
  unfold head. split; [|split].
  - intros ->. reflexivity.
  - intros HK. destruct (_ <? 0)%Z eqn:E; [apply Z.ltb_lt in E; lia|].
    rewrite firstn_all2 by lia. now apply Permutation_app_tail.
  - intros HK. destruct (_ <? 0)%Z eqn:E; [|apply Z.ltb_ge in E; lia].
    rewrite length_app, length_firstn. simpl. lia.
Qed.

End SelectorEdges.

(** ** A failed processing run *)

Section ProcessFailure.
Context `{L : Libs} `{C : !Consts}.

Lemma load_data_keeps_files path w r w' :
  load_data path w = (r, w') -> fs w' = fs w.
Proof.
  unfold load_data, bind, read_file, alloc, raise.
  destruct (fs w !! path) as [[c|m]|]; now intros [= _ <-].
Qed.

Lemma preprocess_data_keeps_files self df w r w' :
  DataProcessor.preprocess_data self df w = (r, w') -> fs w' = fs w.
Proof.
  intros Hrun. destruct (has_column (heap w !!! df) "Booking_ID") eqn:Hhas.
  - destruct (drop_columns_present _ _ Hhas) as (d1 & Hdrop).
    pose proof (preprocess_data_keeps self df (fun _ => True) (fun _ _ _ _ _ _ => I)
                  w d1 Hdrop I) as Hk.
    unfold ends in Hk. rewrite Hrun in Hk. now destruct Hk as [(Hfs & _) _].
  - rewrite (preprocess_data_needs_Booking_ID_run self df w Hhas) in Hrun.
    now injection Hrun as _ <-.
Qed.

Lemma balanced_data_keeps_files self df w r w' :
  DataProcessor.balanced_data self df w = (r, w') -> fs w' = fs w.
Proof.
  unfold DataProcessor.balanced_data, DataProcessor.balanced_data_try, try_except.
  unfold bind, logger_info, deref, lift_at, DataProcessor.fit_resample, alloc, ret,
    DataProcessor.wrap, logger_error, raise.
  cbn [heap set_log set_heap fs log np_random mlflow].
  destruct (drop_columns _ _); [|now intros [= _ <-]].
  destruct (getitem _ _); [|now intros [= _ <-]].
  cbn [heap set_log set_heap fs log np_random mlflow].
  destruct (smote_fit_resample _ _ _) as [[[X' y']|e] g']; now intros [= _ <-].
Qed.

Lemma select_feature_keeps_files self df w r w' :
  DataProcessor.select_feature self df w = (r, w') -> fs w' = fs w.
Proof.
  unfold DataProcessor.select_feature, DataProcessor.select_feature_try, try_except.
  unfold bind, logger_info, deref, lift_at, alloc, ret,
    DataProcessor.wrap, logger_error, raise.
  cbn [heap set_log set_heap fs log np_random mlflow].
  destruct (drop_columns _ _); [|now intros [= _ <-]].
  destruct (getitem _ _); [|now intros [= _ <-]].
  destruct (rf_feature_importances _ _ _); [|now intros [= _ <-]].
  destruct (DataProcessor.top_features _ _ _); [|now intros [= _ <-]].
  destruct (getitem_list _ _); now intros [= _ <-].
Qed.

Ltac stage_failed H :=
  unfold DataProcessor.wrap, bind, logger_error, raise in H;
  cbn beta iota in H;
  let He := fresh "He" in let Hw := fresh "Hw" in
  injection H as He Hw; subst.

(** A failed [process] raises from one of the statements of its [try]
    block.  When it failed before the first [save_data] (line 146), no
    file was written: the disk is as it was, whatever tables were built
    in memory.  When the failing statement is a call of a stage method,
    the cause is that method's own [CustomException], so the failure is
    logged twice, once by the method and once by [process], whose record
    is the last of the log. *)
Theorem failed_process_writes_nothing (self : DataProcessor.t) (w w' : world) (e : exn) :
  DataProcessor.process self w = (Raises e, w') ->
  exists n cause,
    e = new_CustomException data_preprocessing_py n cause "Failed to process the data" cause /\
    In n [134; 135; 137; 138; 140; 141; 143; 144; 146; 147]%nat /\
    ((n < 146)%nat -> fs w' = fs w) /\
    (In n [137; 138; 140; 141; 143; 146; 147]%nat -> is_CustomException cause = true) /\
    exists before,
      log w' = before ++ [(ERROR, "Error occurred during data processing: " +:+ str_exn cause)].
Proof.
  intros Hrun.
  unfold DataProcessor.process, DataProcessor.process_try, try_except in Hrun.
  unfold bind at 1, logger_info at 1 in Hrun. cbn beta iota in Hrun.
  set (w0 := set_log _ w) in Hrun.
  assert (Hf0 : fs w0 = fs w) by reflexivity. clearbody w0.
  unfold bind, at_line in Hrun.
  destruct (load_data _ _) as [[r1|c] w1] eqn:Hs1; cbn beta iota in Hrun.
  2:{ stage_failed Hrun. apply load_data_keeps_files in Hs1.
      exists 134%nat, c. split; [reflexivity|]. split; [simpl; tauto|].
      split; [intros _; cbn [fs set_log]; congruence|].
      split; [simpl; intuition discriminate|]. now exists (log w1). }
  pose proof (load_data_keeps_files _ _ _ _ Hs1) as F1. clear Hs1.
  destruct (load_data _ _) as [[r2|c] w2] eqn:Hs2; cbn beta iota in Hrun.
  2:{ stage_failed Hrun. apply load_data_keeps_files in Hs2.
      exists 135%nat, c. split; [reflexivity|]. split; [simpl; tauto|].
      split; [intros _; cbn [fs set_log]; congruence|].
      split; [simpl; intuition discriminate|]. now exists (log w2). }
  pose proof (load_data_keeps_files _ _ _ _ Hs2) as F2. clear Hs2.
  destruct (DataProcessor.preprocess_data _ _ _) as [[r3|c] w3] eqn:Hs3; cbn beta iota in Hrun.
  2:{ stage_failed Hrun.
      pose proof (preprocessing_method_raises _ _ _ _ _ _ Hs3) as Hc.
      apply preprocess_data_keeps_files in Hs3.
      exists 137%nat, c. split; [reflexivity|]. split; [simpl; tauto|].
      split; [intros _; cbn [fs set_log]; congruence|].
      split; [intros _; eapply wrapped_by_is_CustomException, Hc|]. now exists (log w3). }
  pose proof (preprocess_data_keeps_files _ _ _ _ _ Hs3) as F3. clear Hs3.
  destruct (DataProcessor.preprocess_data _ _ _) as [[r4|c] w4] eqn:Hs4; cbn beta iota in Hrun.
  2:{ stage_failed Hrun.
      pose proof (preprocessing_method_raises _ _ _ _ _ _ Hs4) as Hc.
      apply preprocess_data_keeps_files in Hs4.
      exists 138%nat, c. split; [reflexivity|]. split; [simpl; tauto|].
      split; [intros _; cbn [fs set_log]; congruence|].
      split; [intros _; eapply wrapped_by_is_CustomException, Hc|]. now exists (log w4). }
  pose proof (preprocess_data_keeps_files _ _ _ _ _ Hs4) as F4. clear Hs4.
  destruct (DataProcessor.balanced_data _ _ _) as [[r5|c] w5] eqn:Hs5; cbn beta iota in Hrun.
  2:{ stage_failed Hrun.
      pose proof (preprocessing_method_raises _ _ _ _ _ _ Hs5) as Hc.
      apply balanced_data_keeps_files in Hs5.
      exists 140%nat, c. split; [reflexivity|]. split; [simpl; tauto|].
      split; [intros _; cbn [fs set_log]; congruence|].
      split; [intros _; eapply wrapped_by_is_CustomException, Hc|]. now exists (log w5). }
  pose proof (balanced_data_keeps_files _ _ _ _ _ Hs5) as F5. clear Hs5.
  destruct (DataProcessor.balanced_data _ _ _) as [[r6|c] w6] eqn:Hs6; cbn beta iota in Hrun.
  2:{ stage_failed Hrun.
      pose proof (preprocessing_method_raises _ _ _ _ _ _ Hs6) as Hc.
      apply balanced_data_keeps_files in Hs6.
      exists 141%nat, c. split; [reflexivity|]. split; [simpl; tauto|].
      split; [intros _; cbn [fs set_log]; congruence|].
      split; [intros _; eapply wrapped_by_is_CustomException, Hc|]. now exists (log w6). }
  pose proof (balanced_data_keeps_files _ _ _ _ _ Hs6) as F6. clear Hs6.
  destruct (DataProcessor.select_feature _ _ _) as [[r7|c] w7] eqn:Hs7; cbn beta iota in Hrun.
  2:{ stage_failed Hrun.
      pose proof (preprocessing_method_raises _ _ _ _ _ _ Hs7) as Hc.
      apply select_feature_keeps_files in Hs7.
      exists 143%nat, c. split; [reflexivity|]. split; [simpl; tauto|].
      split; [intros _; cbn [fs set_log]; congruence|].
      split; [intros _; eapply wrapped_by_is_CustomException, Hc|]. now exists (log w7). }
  pose proof (select_feature_keeps_files _ _ _ _ _ Hs7) as F7. clear Hs7.
  unfold deref, lift_at, alloc in Hrun. cbn beta iota in Hrun.
  destruct (getitem_list _ _) as [sub|c] eqn:Hsub.
  2:{ stage_failed Hrun.
      exists 144%nat, c. split; [reflexivity|]. split; [simpl; tauto|].
      split; [intros _; cbn [fs set_log]; congruence|].
      split; [simpl; intuition discriminate|]. now exists (log w7). }
  cbn beta iota in Hrun.
  destruct (DataProcessor.save_data _ _ _ _) as [[r8|c] w8] eqn:Hs8; cbn beta iota in Hrun.
  2:{ stage_failed Hrun.
      pose proof (preprocessing_method_raises _ _ _ _ _ _ Hs8) as Hc.
      exists 146%nat, c. split; [reflexivity|]. split; [simpl; tauto|].
      split; [lia|].
      split; [intros _; eapply wrapped_by_is_CustomException, Hc|]. now exists (log w8). }
  clear Hs8.
  destruct (DataProcessor.save_data _ _ _ _) as [[r9|c] w9] eqn:Hs9; cbn beta iota in Hrun.
  2:{ stage_failed Hrun.
      pose proof (preprocessing_method_raises _ _ _ _ _ _ Hs9) as Hc.
      exists 147%nat, c. split; [reflexivity|]. split; [simpl; tauto|].
      split; [lia|].
      split; [intros _; eapply wrapped_by_is_CustomException, Hc|]. now exists (log w9). }
  unfold logger_info in Hrun. discriminate Hrun.
Qed.

End ProcessFailure.

(** ** From the splitter to the trainer *)

Section Pipeline.
Context `{L : Libs} `{C : !Consts}.

Ltac loading :=
  unfold ModelTraining.load_and_split_data, ModelTraining.load_and_split_data_try,
      ModelTraining.wrap, load_data;
  unfold try_except, bind, logger_info, logger_error, at_line, read_file, alloc, deref,
    lift_at, write_file, raise, ret;
  cbn [heap set_log set_heap set_fs fs log np_random mlflow].

Lemma two_loaded_frames (h : list DataFrame) a b :
  ((h ++ [a]) ++ [b]) !!! length h = a /\
  ((h ++ [a]) ++ [b]) !!! length (h ++ [a]) = b.
Proof.
  split.
  - rewrite <- app_assoc. now apply list_lookup_total_middle.
  - now apply list_lookup_total_middle.
Qed.

Lemma name_unnamed_never_empty i (c : csv) : ~ In "" (map fst (name_unnamed i c)).
Proof.
  revert i. induction c as [|[h s] c IH]; intros i; simpl; [tauto|].
  intros [H|H]; [|exact (IH _ H)].
  destruct (String.eqb h "") eqn:E; [discriminate H|].
  subst h. discriminate E.
Qed.

(** Loading one table twice: without the column "Unnamed: 0" the train
    table fails first, at line 41; with it and the label, loading
    succeeds. *)
Lemma load_same_table (tr : ModelTraining.t) (w : world) (table : csv) :
  fs w !! ModelTraining.train_path tr = Some (FCsv table) ->
  fs w !! ModelTraining.test_path tr = Some (FCsv table) ->
  (has_column (read_csv table) "Unnamed: 0" = false ->
   exists w',
     ModelTraining.load_and_split_data tr w
     = (Raises (new_CustomException model_training_py 41 (KeyError "Unnamed: 0")
                  "Failed to load and split the data" (KeyError "Unnamed: 0")), w')) /\
  (has_column (read_csv table) "Unnamed: 0" = true ->
   has_column (read_csv table) "booking_status" = true ->
   exists s w', ModelTraining.load_and_split_data tr w = (Returns s, w')).
Proof.
  intros Htr Hte. split.
  - intros Hno. loading. rewrite Htr.
    cbn [heap set_log set_heap set_fs fs log np_random mlflow]. rewrite Hte.
    cbn [heap set_log set_heap set_fs fs log np_random mlflow].
    destruct (two_loaded_frames (heap w) (read_csv table) (read_csv table)) as [-> _].
    rewrite (drop_columns_absent _ _ Hno). eauto.
  - intros U B. loading. rewrite Htr.
    cbn [heap set_log set_heap set_fs fs log np_random mlflow]. rewrite Hte.
    cbn [heap set_log set_heap set_fs fs log np_random mlflow].
    destruct (two_loaded_frames (heap w) (read_csv table) (read_csv table)) as [-> E2].
    destruct (drop_columns_present _ _ U) as (d & Hd). rewrite Hd.
    cbn [heap set_log set_heap set_fs fs log np_random mlflow]. rewrite E2, Hd.
    destruct (has_getitem _ _ B) as (y & Hy).
    rewrite <- (getitem_drop_other _ _ _ _ Hd) in Hy by discriminate.
    destruct (drop_columns_present _ _ (getitem_has _ _ _ Hy)) as (X & HX).
    rewrite HX, Hy. eauto.
Qed.

(** Whether the trainer can load what [process] wrote is decided by the
    feature selector: the two processed files hold the selected features
    and the label, and [load_and_split_data] needs a column "Unnamed: 0" to
    drop.  It loads them exactly when "Unnamed: 0" (the row labels the
    splitter wrote) is among the selected features; otherwise it raises at
    line 41. *)
Theorem trainer_loads_iff_index_column_selected (self : DataProcessor.t)
    (tr : ModelTraining.t) (w w' : world) (ctr : csv) :
  DataProcessor.process self w = (Returns tt, w') ->
  fs w !! DataProcessor.train_path self = Some (FCsv ctr) ->
  List.NoDup (columns (read_csv ctr)) ->
  ModelTraining.train_path tr = PROCESSED_TRAIN_DATA_PATH ->
  ModelTraining.test_path tr = PROCESSED_TEST_DATA_PATH ->
  exists top table,
    fs w' !! PROCESSED_TRAIN_DATA_PATH = Some (FCsv table) /\
    map fst table = top ++ ["booking_status"] /\
    (In "Unnamed: 0" top ->
     forall v, fs v = fs w' ->
       exists s v', ModelTraining.load_and_split_data tr v = (Returns s, v')) /\
    (~ In "Unnamed: 0" top ->
     forall v, fs v = fs w' ->
       exists v',
         ModelTraining.load_and_split_data tr v
         = (Raises (new_CustomException model_training_py 41 (KeyError "Unnamed: 0")
                      "Failed to load and split the data" (KeyError "Unnamed: 0")), v')).
Proof.
  intros Hrun Hctr Hnd Ptr Pte.
  destruct (process_writes_selection_twice self w w' ctr Hrun Hctr Hnd)
    as (table & Htr & Hte & Htab).
  pose proof (post_returns _ _ _ _ _ (process_spec self w) Hrun) as Hspec.
  cbv zeta in Hspec.
  destruct Hspec as (ctr' & cte & g1 & top & pre_tr & pre_te & Hctr' & _ & _ & _ & _
                     & K1 & _ & B1 & _ & S & _).
  assert (ctr' = ctr) by congruence. subst ctr'.
  assert (N0 : List.NoDup (columns (heap w' !!! length (heap w)))).
  { rewrite K1. now apply NoDup_filter_labels. }
  pose proof (balanced_from_NoDup _ _ _ _ B1 N0) as N2.
  destruct (selected_from_columns _ _ _ _ S N2) as (Hcols & _ & Hsub).
  set (sel := heap w' !!! (length (heap w) + 4)%nat) in *.
  assert (Hnamed : ~ In "" (columns sel)).
  { rewrite Hcols. intros Hin. apply in_app_or in Hin as [Hin|[Hin|[]]]; [|discriminate].
    apply Hsub in Hin as [Hin _].
    rewrite (balanced_from_columns _ _ _ _ B1) in Hin.
    apply in_app_or in Hin as [Hin|[Hin|[]]]; [|discriminate].
    apply filter_In in Hin as [Hin _]. rewrite K1 in Hin.
    apply filter_In in Hin as [Hin _].
    exact (name_unnamed_never_empty _ _ Hin). }
  assert (Hread : columns (read_csv table) = top ++ ["booking_status"]).
  { rewrite Htab, (read_csv_without_index _ Hnamed). exact Hcols. }
  exists top, table. split; [exact Htr|]. split; [now rewrite Htab, to_csv_header|].
  split.
  - intros Hin v Hv.
    apply (load_same_table tr v table).
    + now rewrite Ptr, Hv.
    + now rewrite Pte, Hv.
    + apply has_column_In. rewrite Hread. apply in_or_app. now left.
    + apply has_column_In. rewrite Hread. apply in_or_app. right. now left.
  - intros Hout v Hv.
    apply (load_same_table tr v table).
    + now rewrite Ptr, Hv.
    + now rewrite Pte, Hv.
    + apply not_true_is_false. intros Hc. apply has_column_In in Hc.
      rewrite Hread in Hc. apply in_app_or in Hc as [Hc|[Hc|[]]]; [contradiction|discriminate].
Qed.

(** The row labels the splitter wrote are a feature for the oversampler
    and the random forest: when the train file was written with its index
    ([to_csv] of line 48), the features table [select_feature] fits the
    forest on has the column "Unnamed: 0". *)
Theorem row_labels_are_a_candidate_feature (self : DataProcessor.t) (w w' : world)
    (train_data : DataFrame) :
  DataProcessor.process self w = (Returns tt, w') ->
  fs w !! DataProcessor.train_path self = Some (FCsv (to_csv train_data true)) ->
  exists X y importance,
    rf_feature_importances 42 X y = Returns importance /\
    In "Unnamed: 0" (columns X) /\
    drop_columns (heap w' !!! (length (heap w) + 2)%nat) ["booking_status"] = Returns X.
Proof.
  intros Hrun Hctr.
  pose proof (post_returns _ _ _ _ _ (process_spec self w) Hrun) as Hspec.
  cbv zeta in Hspec.
  destruct Hspec as (ctr' & cte & g1 & top & pre_tr & pre_te & Hctr' & _ & _ & _ & _
                     & K1 & _ & B1 & _ & S & _).
  assert (ctr' = to_csv train_data true) by congruence. subst ctr'.
  destruct S as (X & y & imp & HX & _ & Hi & _).
  exists X, y, imp. split; [exact Hi|]. split; [|exact HX].
  rewrite (columns_drop _ _ _ HX), (balanced_from_columns _ _ _ _ B1).
  apply filter_In. split; [|reflexivity].
  apply in_or_app. left. apply filter_In. split; [|reflexivity].
  rewrite K1. apply filter_In. split; [|reflexivity].
  unfold read_csv, to_csv, columns. cbn [df_data name_unnamed map fst String.eqb]. now left.
Qed.

(** [load_and_split_data] keeps the label out of the features: neither
    features table has a "booking_status" or "Unnamed: 0" column; their
    columns are the other columns of the files, in order, and the labels
    are the files' "booking_status" columns.  The files are not changed. *)
Theorem load_and_split_data_separates_label (tr : ModelTraining.t) (w w' : world)
    (s : ModelTraining.split) :
  ModelTraining.load_and_split_data tr w = (Returns s, w') ->
  exists ctr cte,
    fs w !! ModelTraining.train_path tr = Some (FCsv ctr) /\
    fs w !! ModelTraining.test_path tr = Some (FCsv cte) /\
    columns (ModelTraining.X_train s)
    = List.filter (fun x => negb (String.eqb x "booking_status"))
        (List.filter (fun x => negb (String.eqb x "Unnamed: 0")) (columns (read_csv ctr))) /\
    columns (ModelTraining.X_test s)
    = List.filter (fun x => negb (String.eqb x "booking_status"))
        (List.filter (fun x => negb (String.eqb x "Unnamed: 0")) (columns (read_csv cte))) /\
    getitem (read_csv ctr) "booking_status" = Returns (ModelTraining.y_train s) /\
    getitem (read_csv cte) "booking_status" = Returns (ModelTraining.y_test s) /\
    ~ In "booking_status" (columns (ModelTraining.X_train s)) /\
    ~ In "booking_status" (columns (ModelTraining.X_test s)) /\
    fs w' = fs w.
Proof.
  intros Hrun.
  destruct (load_and_split_data_returns _ _ _ _ Hrun)
    as (ctr & cte & dtr & dte & F1 & F2 & D1 & D2 & X1 & Y1 & X2 & Y2 & Hfs).
  exists ctr, cte. split; [exact F1|]. split; [exact F2|].
  assert (C1 : columns (ModelTraining.X_train s)
               = List.filter (fun x => negb (String.eqb x "booking_status"))
                   (List.filter (fun x => negb (String.eqb x "Unnamed: 0"))
                      (columns (read_csv ctr))))
    by now rewrite (columns_drop _ _ _ X1), (columns_drop _ _ _ D1).
  assert (C2 : columns (ModelTraining.X_test s)
               = List.filter (fun x => negb (String.eqb x "booking_status"))
                   (List.filter (fun x => negb (String.eqb x "Unnamed: 0"))
                      (columns (read_csv cte))))
    by now rewrite (columns_drop _ _ _ X2), (columns_drop _ _ _ D2).
  split; [exact C1|]. split; [exact C2|].
  split; [now rewrite <- (getitem_drop_other _ _ _ _ D1) by discriminate|].
  split; [now rewrite <- (getitem_drop_other _ _ _ _ D2) by discriminate|].
  split; [rewrite C1; intros H; apply filter_In in H as [_ H]; discriminate|].
  split; [rewrite C2; intros H; apply filter_In in H as [_ H]; discriminate|].
  exact Hfs.
Qed.

End Pipeline.

(** ** A completed training run *)

Section TrainingRun.
Context `{L : Libs} `{C : !Consts}.

Ltac world_fields :=
  cbn [heap set_log set_heap set_fs set_mlflow fs log np_random mlflow].

Lemma train_lgbm_returns tr X y w m w' :
  ModelTraining.train_lgbm tr X y w = (Returns m, w') ->
  exists best_params,
    random_search_fit (random_state (ModelTraining.random_search_params tr))
      (ModelTraining.params_dist tr) (ModelTraining.random_search_params tr) X y
    = Returns (best_params, m).
Proof.
  unfold ModelTraining.train_lgbm, ModelTraining.train_lgbm_try, ModelTraining.wrap.
  unfold try_except, bind, logger_info, logger_error, lift_at, raise, ret.
  destruct (random_search_fit _ _ _ _ _) as [[p m0]|e] eqn:H1; world_fields; [|discriminate].
  intros [= <- _]. now exists p.
Qed.

Lemma evaluate_model_returns tr m X y w metrics w' :
  ModelTraining.evaluate_model tr m X y w = (Returns metrics, w') ->
  exists y_pred accuracy precision recall f1,
    predict m X = Returns y_pred /\
    accuracy_score y y_pred = Returns accuracy /\
    precision_score y y_pred = Returns precision /\
    recall_score y y_pred = Returns recall /\
    f1_score y y_pred = Returns f1 /\
    metrics = [("accuracy", accuracy); ("precision", precision);
               ("recall", recall); ("f1_score", f1)].
Proof.
  unfold ModelTraining.evaluate_model, ModelTraining.evaluate_model_try, ModelTraining.wrap.
  unfold try_except, bind, logger_info, logger_error, lift_at, raise, ret.
  destruct (predict m X) as [y_pred|e] eqn:H1; world_fields; [|discriminate].
  destruct (accuracy_score y y_pred) as [a|e] eqn:H2; world_fields; [|discriminate].
  destruct (precision_score y y_pred) as [p|e] eqn:H3; world_fields; [|discriminate].
  destruct (recall_score y y_pred) as [r|e] eqn:H4; world_fields; [|discriminate].
  destruct (f1_score y y_pred) as [f|e] eqn:H5; world_fields; [|discriminate].
  intros [= <- _]. now exists y_pred, a, p, r, f.
Qed.

(** What the block under [with] computed when it completes. *)
Lemma run_body_returns tr w w' :
  ModelTraining.run_body tr w = (Returns tt, w') ->
  exists v data best_params m metrics t t',
    fs v = fs w /\
    ModelTraining.load_and_split_data tr v = (Returns data, snd (ModelTraining.load_and_split_data tr v)) /\
    random_search_fit (random_state (ModelTraining.random_search_params tr))
      (ModelTraining.params_dist tr) (ModelTraining.random_search_params tr)
      (ModelTraining.X_train data) (ModelTraining.y_train data)
    = Returns (best_params, m) /\
    (exists y_pred accuracy precision recall f1,
       predict m (ModelTraining.X_test data) = Returns y_pred /\
       accuracy_score (ModelTraining.y_test data) y_pred = Returns accuracy /\
       precision_score (ModelTraining.y_test data) y_pred = Returns precision /\
       recall_score (ModelTraining.y_test data) y_pred = Returns recall /\
       f1_score (ModelTraining.y_test data) y_pred = Returns f1 /\
       metrics = [("accuracy", accuracy); ("precision", precision);
                  ("recall", recall); ("f1_score", f1)]) /\
    mlflow_log_metrics metrics t = (Returns tt, t') /\
    fs w' = <[ModelTraining.model_output_path tr := FModel m]> (fs w).
Proof.
  unfold ModelTraining.run_body. unfold bind, at_line, logger_info. world_fields.
  intros Hrun.
  destruct (ModelTraining.log_artifact _ _ _) as [[[]|e] w1] eqn:S1; [|discriminate].
  apply log_artifact_run in S1 as [T1 W1]. world_fields.
  destruct (ModelTraining.log_artifact _ _ w1) as [[[]|e] w2] eqn:S2; [|discriminate].
  apply log_artifact_run in S2 as [T2 W2].
  destruct (ModelTraining.load_and_split_data tr w2) as [[data|e] w3] eqn:S3; [|discriminate].
  pose proof (load_and_split_data_frame _ _ _ _ S3) as [F3 M3].
  destruct (ModelTraining.train_lgbm tr _ _ w3) as [[m|e] w4] eqn:S4; [|discriminate].
  pose proof (train_lgbm_frame _ _ _ _ _ _ S4) as [F4 M4].
  apply train_lgbm_returns in S4 as (best_params & Hfit).
  destruct (ModelTraining.evaluate_model tr m _ _ w4) as [[metrics|e] w5] eqn:S5;
    [|discriminate].
  pose proof (evaluate_model_frame _ _ _ _ _ _ _ S5) as [F5 M5].
  apply evaluate_model_returns in S5.
  destruct (ModelTraining.save_model tr m w5) as [[[]|e] w6] eqn:S6; [|discriminate].
  apply save_model_run in S6 as (M6 & F6). cbn beta iota in Hrun.
  destruct (ModelTraining.log_artifact _ _ _) as [[[]|e] w7] eqn:S7; [|discriminate].
  apply log_artifact_run in S7 as [T7 W7]. world_fields.
  destruct (tracker_call (mlflow_log_params _) w7) as [[[]|e] w8] eqn:S8; [|discriminate].
  apply tracker_call_run in S8 as [T8 W8]. world_fields.
  destruct (tracker_call (mlflow_log_metrics _) _) as [[[]|e] w9] eqn:S9; [|discriminate].
  apply tracker_call_run in S9 as [T9 W9]. cbn [heap set_log set_heap set_fs set_mlflow fs log np_random mlflow] in T9.
  injection Hrun as <-. world_fields.
  exists w2, data, best_params, m, metrics, (mlflow w8), (mlflow w9).
  split; [rewrite W2; world_fields; rewrite W1; reflexivity|].
  split; [now rewrite S3|]. split; [exact Hfit|]. split; [exact S5|].
  split; [exact T9|].
  rewrite W9. world_fields. rewrite W8, W7. world_fields.
  rewrite F6, F5, F4, F3, W2, W1. reflexivity.
Qed.

(** A completed [run] has fitted the search on the train table and
    scored its best estimator on the test table: the model saved is the
    search's best estimator for the features and labels loaded from the
    train file, the four metrics logged to the tracker are computed from
    that model's predictions on the features of the test file against its
    labels, and the model file is the only file written. *)
Theorem run_fits_on_train_and_scores_on_test (tr : ModelTraining.t) (w w' : world) :
  ModelTraining.run tr w = (Returns tt, w') ->
  exists ctr cte without_index_train without_index_test data best_params m y_pred
         accuracy precision recall f1 t t',
    fs w !! ModelTraining.train_path tr = Some (FCsv ctr) /\
    fs w !! ModelTraining.test_path tr = Some (FCsv cte) /\
    drop_columns (read_csv ctr) ["Unnamed: 0"] = Returns without_index_train /\
    drop_columns (read_csv cte) ["Unnamed: 0"] = Returns without_index_test /\
    drop_columns without_index_train ["booking_status"]
      = Returns (ModelTraining.X_train data) /\
    getitem without_index_train "booking_status" = Returns (ModelTraining.y_train data) /\
    drop_columns without_index_test ["booking_status"]
      = Returns (ModelTraining.X_test data) /\
    getitem without_index_test "booking_status" = Returns (ModelTraining.y_test data) /\
    random_search_fit (random_state (ModelTraining.random_search_params tr))
      (ModelTraining.params_dist tr) (ModelTraining.random_search_params tr)
      (ModelTraining.X_train data) (ModelTraining.y_train data)
    = Returns (best_params, m) /\
    predict m (ModelTraining.X_test data) = Returns y_pred /\
    accuracy_score (ModelTraining.y_test data) y_pred = Returns accuracy /\
    precision_score (ModelTraining.y_test data) y_pred = Returns precision /\
    recall_score (ModelTraining.y_test data) y_pred = Returns recall /\
    f1_score (ModelTraining.y_test data) y_pred = Returns f1 /\
    mlflow_log_metrics [("accuracy", accuracy); ("precision", precision);
                        ("recall", recall); ("f1_score", f1)] t = (Returns tt, t') /\
    fs w' = <[ModelTraining.model_output_path tr := FModel m]> (fs w).
Proof.
  intros Hrun. unfold ModelTraining.run, ModelTraining.run_try, try_except, with_ in Hrun.
  destruct (tracker_call mlflow_start_run w) as [[[]|e] w1] eqn:S0.
  2:{ unfold ModelTraining.wrap, bind, logger_error, raise in Hrun. discriminate Hrun. }
  apply tracker_call_run in S0 as [_ W0].
  destruct (ModelTraining.run_body tr w1) as [[[]|[n e]] w2] eqn:Sb.
  2:{ destruct (tracker_call _ w2) as [[[]|e'] w3];
        unfold ModelTraining.wrap, bind, logger_error, raise in Hrun; discriminate Hrun. }
  destruct (tracker_call _ w2) as [[[]|e'] w3] eqn:Se.
  2:{ unfold ModelTraining.wrap, bind, logger_error, raise in Hrun. discriminate Hrun. }
  apply tracker_call_run in Se as [_ We]. injection Hrun as <-.
  destruct (run_body_returns tr w1 w2 Sb)
    as (v & data & best_params & m & metrics & t & t' & Hv & Hload & Hfit
        & (y_pred & a & p & r & f & Hp & Ha & Hpr & Hr & Hf & ->) & Hlog & Hfs).
  destruct (load_and_split_data_returns _ _ _ _ Hload)
    as (ctr & cte & dtr & dte & F1 & F2 & D1 & D2 & X1 & Y1 & X2 & Y2 & _).
  assert (Hw1 : fs w1 = fs w) by (rewrite W0; reflexivity).
  rewrite Hv, Hw1 in F1, F2.
  exists ctr, cte, dtr, dte, data, best_params, m, y_pred, a, p, r, f, t, t'.
  repeat (split; [assumption|]).
  rewrite We. world_fields. now rewrite Hfs, Hw1.
Qed.

End TrainingRun.
(** ** The entry point *)

Section EntryPointClaims.
Context `{L : Libs} `{C : !Consts}.

(** The training script ends normally whatever [run] does: what [run]
    raises is a [CustomException], which the script catches and logs as
    "Custom Exception: ..." followed by the error's message; when [run]
    returns the script logs its completion.  Either way the record is the
    last of the log. *)
Theorem training_script_ends_normally (w : world) :
  (forall w1,
     ModelTraining.run
       (ModelTraining.init PROCESSED_TRAIN_DATA_PATH PROCESSED_TEST_DATA_PATH
          MODEL_OUTPUT_PATH) w = (Returns tt, w1) ->
     model_training_main w
     = (Returns tt,
        set_log (log w1 ++ [(INFO, "Model training completed with evaluation metrics")])
          w1)) /\
  (forall e w1,
     ModelTraining.run
       (ModelTraining.init PROCESSED_TRAIN_DATA_PATH PROCESSED_TEST_DATA_PATH
          MODEL_OUTPUT_PATH) w = (Raises e, w1) ->
     exists (n : nat) cause,
       e = new_CustomException model_training_py n cause "Failed to train the model" cause /\
       model_training_main w
       = (Returns tt,
          set_log (log w1 ++ [(ERROR, "Custom Exception: Error in " +:+ model_training_py
                                        +:+ " at line " +:+ pretty n
                                        +:+ ": Failed to train the model")]) w1)) /\
  exists w', model_training_main w = (Returns tt, w').
Proof.
  assert (Hreturns : forall w1,
     ModelTraining.run
       (ModelTraining.init PROCESSED_TRAIN_DATA_PATH PROCESSED_TEST_DATA_PATH
          MODEL_OUTPUT_PATH) w = (Returns tt, w1) ->
     model_training_main w
     = (Returns tt,
        set_log (log w1 ++ [(INFO, "Model training completed with evaluation metrics")])
          w1)).
  { intros w1 Hrun. unfold model_training_main, try_except_CustomException.
    cbv zeta. unfold bind, at_line. rewrite Hrun. reflexivity. }
  assert (Hraises : forall e w1,
     ModelTraining.run
       (ModelTraining.init PROCESSED_TRAIN_DATA_PATH PROCESSED_TEST_DATA_PATH
          MODEL_OUTPUT_PATH) w = (Raises e, w1) ->
     exists (n : nat) cause,
       e = new_CustomException model_training_py n cause "Failed to train the model" cause /\
       model_training_main w
       = (Returns tt,
          set_log (log w1 ++ [(ERROR, "Custom Exception: Error in " +:+ model_training_py
                                        +:+ " at line " +:+ pretty n
                                        +:+ ": Failed to train the model")]) w1)).
  { intros e w1 Hrun.
    pose proof (training_method_raises _ _ _ _ _ _ Hrun) as (n & c & ->).
    exists n, c. split; [reflexivity|].
    unfold model_training_main, try_except_CustomException.
    cbv zeta. unfold bind, at_line. rewrite Hrun. reflexivity. }
  split; [exact Hreturns|]. split; [exact Hraises|].
  destruct (ModelTraining.run
              (ModelTraining.init PROCESSED_TRAIN_DATA_PATH PROCESSED_TEST_DATA_PATH
                 MODEL_OUTPUT_PATH) w) as [[[]|e] w1] eqn:Hrun.
  - eexists. now apply Hreturns.
  - destruct (Hraises e w1 eq_refl) as (n & c & _ & H). eexists. exact H.
Qed.

End EntryPointClaims.

(** ** What the log and the disk tell about a run *)

Section LogsAndDisk.
Context `{L : Libs} `{C : !Consts}.

(** A completed [process] has logged INFO records only, the last one
    "Data processing completed successfully": no stage logged an error on
    the way. *)
Theorem completed_process_logs_no_error (self : DataProcessor.t) (w w' : world) :
  DataProcessor.process self w = (Returns tt, w') ->
  exists added,
    log w' = log w ++ added ++ [(INFO, "Data processing completed successfully")] /\
    Forall (fun q => fst q = INFO) added.
Proof.
  intros Hrun.
  pose proof (post_returns _ _ _ _ _ (process_spec self w) Hrun) as Hspec.
  cbv zeta in Hspec.
  destruct Hspec as (ctr & cte & g1 & top & pre_tr & pre_te & _ & _ & _ & _ & _
                     & _ & _ & _ & _ & _ & _ & _ & _ & P1 & P2 & Hlog).
  exists ([(INFO, "Loading data from RAW directory")] ++ pre_tr ++ pre_te ++
          [(INFO, "Balancing the data using SMOTE"); (INFO, "Data balanced successfully");
           (INFO, "Balancing the data using SMOTE"); (INFO, "Data balanced successfully");
           (INFO, "Feature selection using Random Forest");
           (INFO, "Feature selection completed");
           (INFO, "Top " +:+
                  pretty (no_of_features (data_processing (DataProcessor.config self)))
                  +:+ " features selected: " +:+ str_array top);
           (INFO, "Saving processed data to " +:+ PROCESSED_TRAIN_DATA_PATH);
           (INFO, "Data saved successfully");
           (INFO, "Saving processed data to " +:+ PROCESSED_TEST_DATA_PATH);
           (INFO, "Data saved successfully")]).
  split.
  - rewrite Hlog. rewrite <- !app_assoc. reflexivity.
  - apply Forall_app. split; [repeat constructor|].
    apply Forall_app. split; [exact (List.Forall_impl _ (fun q (H : preprocess_record q) => proj1 H) P1)|].
    apply Forall_app. split; [exact (List.Forall_impl _ (fun q (H : preprocess_record q) => proj1 H) P2)|].
    repeat constructor.
Qed.

Ltac splitting :=
  unfold DataIngestion.split_data, DataIngestion.split_data_try, pd_read_csv;
  unfold try_except, bind, logger_info, logger_error, at_line, read_file, alloc, deref,
    lift_at, write_at, raise, ret;
  cbn [heap set_log set_heap set_fs fs log np_random mlflow].

(** A failed [split_data] has written neither file when it failed before
    line 48, and the files on disk are as they were.  It raises at line 44
    without a raw file (FileNotFoundError) and on a raw file without a
    header line (EmptyDataError), and at line 46, with the exception of
    [train_test_split] as cause, when that refuses the table. *)
Theorem failed_split_writes_no_file (self : DataIngestion.t) (w : world) :
  (forall e w',
     DataIngestion.split_data self w = (Raises e, w') ->
     exists n cause,
       e = new_CustomException data_ingestion_py n cause
             "Failed to split the data into train and test sets" cause /\
       In n [44; 46; 48; 49]%nat /\
       ((n < 48)%nat -> fs w' = fs w)) /\
  (fs w !! RAW_FILE_PATH = None ->
   exists w',
     DataIngestion.split_data self w
     = (Raises (new_CustomException data_ingestion_py 44 (FileNotFoundError RAW_FILE_PATH)
                  "Failed to split the data into train and test sets"
                  (FileNotFoundError RAW_FILE_PATH)), w') /\
     fs w' = fs w) /\
  (fs w !! RAW_FILE_PATH = Some (FCsv []) ->
   exists w',
     DataIngestion.split_data self w
     = (Raises (new_CustomException data_ingestion_py 44 (EmptyDataError RAW_FILE_PATH)
                  "Failed to split the data into train and test sets"
                  (EmptyDataError RAW_FILE_PATH)), w') /\
     fs w' = fs w) /\
  (forall c e,
     fs w !! RAW_FILE_PATH = Some (FCsv c) -> c <> [] ->
     train_test_split (read_csv c)
       (PrimFloat.sub 1 (DataIngestion.train_test_ratio self)) 42 = Raises e ->
     exists w',
       DataIngestion.split_data self w
       = (Raises (new_CustomException data_ingestion_py 46 e
                    "Failed to split the data into train and test sets" e), w') /\
       fs w' = fs w).
Proof.
  split; [|split; [|split]].
  - intros e w'. splitting.
    destruct (fs w !! RAW_FILE_PATH) as [[[|col c]|m]|] eqn:Hraw;
      cbn [heap set_log set_heap set_fs fs log np_random mlflow].
    + intros [= <- <-]. exists 44%nat. eexists. split; [reflexivity|].
      split; [simpl; tauto|]. reflexivity.
    + rewrite list_lookup_total_middle by reflexivity.
      destruct (train_test_split _ _ _) as [[tr te]|c0];
        cbn [heap set_log set_heap set_fs fs log np_random mlflow fst snd].
      * destruct (file_write TRAIN_FILE_PATH _) as [[]|[e1 r1]].
        -- unfold write_file at 1.
           cbn [heap set_log set_heap set_fs fs log np_random mlflow].
           destruct (file_write TEST_FILE_PATH _) as [[]|[e2 r2]].
           ++ unfold write_file. discriminate.
           ++ unfold bind, leave, raise. intros [= <- <-].
              exists 49%nat, e2. split; [reflexivity|]. split; [simpl; tauto|]. lia.
        -- unfold bind, leave, raise. intros [= <- <-].
           exists 48%nat, e1. split; [reflexivity|]. split; [simpl; tauto|]. lia.
      * intros [= <- <-]. exists 46%nat, c0. split; [reflexivity|].
        split; [simpl; tauto|]. reflexivity.
    + intros [= <- <-]. exists 44%nat. eexists. split; [reflexivity|].
      split; [simpl; tauto|]. reflexivity.
    + intros [= <- <-]. exists 44%nat. eexists. split; [reflexivity|].
      split; [simpl; tauto|]. reflexivity.
  - intros Hraw. splitting. rewrite Hraw. eexists. split; reflexivity.
  - intros Hraw. splitting. rewrite Hraw. eexists. split; reflexivity.
  - intros c e Hraw Hc Hs. splitting. rewrite Hraw. destruct c as [|col c]; [congruence|].
    cbn [heap set_log set_heap set_fs fs log np_random mlflow].
    rewrite list_lookup_total_middle by reflexivity. rewrite Hs.
    eexists. split; reflexivity.
Qed.

End LogsAndDisk.

Section FailedTraining.
Context `{L : Libs} `{C : !Consts}.

Ltac world_fields :=
  cbn [heap set_log set_heap set_fs set_mlflow fs log np_random mlflow].

Lemma load_and_split_data_keeps_files tr w r w' :
  ModelTraining.load_and_split_data tr w = (r, w') -> fs w' = fs w.
Proof.
  unfold ModelTraining.load_and_split_data, ModelTraining.load_and_split_data_try,
      ModelTraining.wrap, load_data.
  unfold try_except, bind, logger_info, logger_error, at_line, read_file, alloc, deref,
    lift_at, raise, ret. world_fields.
  destruct (fs w !! ModelTraining.train_path tr) as [[c1|m]|]; world_fields;
    try (now intros [= _ <-]).
  destruct (fs w !! ModelTraining.test_path tr) as [[c2|m]|]; world_fields;
    try (now intros [= _ <-]).
  repeat match goal with
         | |- context [match ?o with Returns _ => _ | Raises _ => _ end] =>
             destruct o; world_fields; try (now intros [= _ <-])
         end.
Qed.

Lemma train_lgbm_keeps_files tr X y w r w' :
  ModelTraining.train_lgbm tr X y w = (r, w') -> fs w' = fs w.
Proof.
  unfold ModelTraining.train_lgbm, ModelTraining.train_lgbm_try, ModelTraining.wrap.
  unfold try_except, bind, logger_info, logger_error, lift_at, raise, ret.
  destruct (random_search_fit _ _ _ _ _); world_fields; now intros [= _ <-].
Qed.

Lemma evaluate_model_keeps_files tr m X y w r w' :
  ModelTraining.evaluate_model tr m X y w = (r, w') -> fs w' = fs w.
Proof.
  unfold ModelTraining.evaluate_model, ModelTraining.evaluate_model_try, ModelTraining.wrap.
  unfold try_except, bind, logger_info, logger_error, lift_at, raise, ret.
  repeat match goal with
         | |- context [match ?o with Returns _ => _ | Raises _ => _ end] =>
             destruct o; world_fields; try (now intros [= _ <-])
         end.
Qed.

Lemma log_artifact_keeps_files path artifact_path w r w' :
  ModelTraining.log_artifact path artifact_path w = (r, w') -> fs w' = fs w.
Proof. intros H. apply log_artifact_run in H as [_ ->]. reflexivity. Qed.

(** Where the block under [with] can fail before the model is saved. *)
Lemma run_body_raises tr w n c w' :
  ModelTraining.run_body tr w = (Raises (n, c), w') ->
  n <> 136%nat /\
  (In n [143; 144; 146; 147; 148]%nat -> fs w' = fs w) /\
  (In n [146; 147; 148; 149]%nat -> is_CustomException c = true).
Proof.
  unfold ModelTraining.run_body. unfold bind, at_line, logger_info. world_fields.
  intros Hrun.
  destruct (ModelTraining.log_artifact _ _ _) as [[[]|e] w1] eqn:S1.
  2:{ injection Hrun as <- <- <-. apply log_artifact_keeps_files in S1.
      split; [lia|]. split; [intros _; exact S1|simpl; intuition discriminate]. }
  apply log_artifact_keeps_files in S1.
  cbn [heap set_log set_heap set_fs set_mlflow fs log np_random mlflow] in S1.
  destruct (ModelTraining.log_artifact _ _ w1) as [[[]|e] w2] eqn:S2.
  2:{ injection Hrun as <- <- <-. apply log_artifact_keeps_files in S2.
      split; [lia|]. split; [intros _; congruence|simpl; intuition discriminate]. }
  apply log_artifact_keeps_files in S2.
  destruct (ModelTraining.load_and_split_data tr w2) as [[data|e] w3] eqn:S3.
  2:{ injection Hrun as <- <- <-.
      pose proof (training_method_raises _ _ _ _ _ _ S3) as Hc.
      apply load_and_split_data_keeps_files in S3.
      split; [lia|]. split; [intros _; congruence|].
      intros _. eapply wrapped_by_is_CustomException, Hc. }
  apply load_and_split_data_keeps_files in S3.
  destruct (ModelTraining.train_lgbm tr _ _ w3) as [[m|e] w4] eqn:S4.
  2:{ injection Hrun as <- <- <-.
      pose proof (training_method_raises _ _ _ _ _ _ S4) as Hc.
      apply train_lgbm_keeps_files in S4.
      split; [lia|]. split; [intros _; congruence|].
      intros _. eapply wrapped_by_is_CustomException, Hc. }
  apply train_lgbm_keeps_files in S4.
  destruct (ModelTraining.evaluate_model tr m _ _ w4) as [[metrics|e] w5] eqn:S5.
  2:{ injection Hrun as <- <- <-.
      pose proof (training_method_raises _ _ _ _ _ _ S5) as Hc.
      apply evaluate_model_keeps_files in S5.
      split; [lia|]. split; [intros _; congruence|].
      intros _. eapply wrapped_by_is_CustomException, Hc. }
  destruct (ModelTraining.save_model tr m w5) as [[[]|e] w6] eqn:S6.
  2:{ injection Hrun as <- <- <-.
      pose proof (training_method_raises _ _ _ _ _ _ S6) as Hc.
      split; [lia|]. split; [simpl; intuition discriminate|].
      intros _. eapply wrapped_by_is_CustomException, Hc. }
  destruct (ModelTraining.log_artifact _ _ _) as [[[]|e] w7] eqn:S7.
  2:{ injection Hrun as <- <- <-. split; [lia|].
      split; simpl; intuition discriminate. }
  destruct (tracker_call (mlflow_log_params _) w7) as [[[]|e] w8] eqn:S8.
  2:{ injection Hrun as <- <- <-. split; [lia|].
      split; simpl; intuition discriminate. }
  destruct (tracker_call (mlflow_log_metrics _) _) as [[[]|e] w9] eqn:S9.
  2:{ injection Hrun as <- <- <-. split; [lia|].
      split; simpl; intuition discriminate. }
  discriminate Hrun.
Qed.

(** A training run that fails before [save_model] (the uploads of the
    data files at lines 143-144, loading, the search, the evaluation)
    leaves the disk as it was: in particular a model that was fitted but
    whose evaluation failed (line 148) is not saved.  A failure of a stage
    method reaches [run] as that method's own [CustomException]. *)
Theorem failed_run_before_saving_writes_nothing (tr : ModelTraining.t) (w w' : world)
    (e : exn) :
  ModelTraining.run tr w = (Raises e, w') ->
  exists n cause,
    e = new_CustomException model_training_py n cause "Failed to train the model" cause /\
    (In n [143; 144; 146; 147; 148]%nat -> fs w' = fs w) /\
    (In n [146; 147; 148; 149]%nat -> is_CustomException cause = true).
Proof.
  intros Hrun. unfold ModelTraining.run, ModelTraining.run_try in Hrun.
  apply (try_except_raises _ model_training_py
           (fun c => "Error occurred during model training: " +:+ str_exn c)
           (fun _ => "Failed to train the model")) in Hrun
    as (n & c & w1 & Hbody & -> & ->).
  exists n, c. split; [reflexivity|]. world_fields.
  unfold with_ in Hbody.
  destruct (tracker_call mlflow_start_run w) as [[[]|e0] w0] eqn:S0.
  2:{ injection Hbody as <- <- <-. split; simpl; intuition discriminate. }
  apply tracker_call_run in S0 as [_ W0].
  destruct (ModelTraining.run_body tr w0) as [[[]|[n' c']] w2] eqn:Sb.
  - destruct (tracker_call _ w2) as [[[]|e'] w3]; [discriminate|].
    injection Hbody as <- <- <-. split; simpl; intuition discriminate.
  - destruct (run_body_raises _ _ _ _ _ Sb) as (Hn & Hfs & Hc).
    destruct (tracker_call _ w2) as [[[]|e'] w3] eqn:Se.
    + apply tracker_call_run in Se as [_ We]. injection Hbody as <- <- <-.
      split; [|exact Hc]. intros Hin. rewrite We. world_fields.
      rewrite (Hfs Hin), W0. reflexivity.
    + injection Hbody as <- <- <-. split; simpl; intuition discriminate.
Qed.

End FailedTraining.

(** ** The two counters *)

Section Counters.
Context `{L : Libs} `{C : !Consts}.

Lemma kept_frame_info {E : Type} (Q : DataFrame -> Prop) df msg w :
  Q (heap w !!! df) ->
  post (logger_info (E := E) msg) w (fun _ w' => Q (heap w' !!! df)).
Proof. intros H. exact H. Qed.



End Counters.

(** ** The label encoding *)

Section Encoding.
Context `{L : Libs} `{C : !Consts}.

(** One pass of the loop of lines 45-48 over [l], seen from the column
    [c]: it is left alone when [c] is not in [l], and replaced by its
    codes when it is in [l] once. *)
Lemma encoding_loop (df : loc) (c : string) (l : list string)
    (mappings : list (string * list (cell * cell))) (w : world) :
  post
    (for_each l mappings
       (fun mappings column =>
          d <- deref df ;;
          col <- lift_at 46 (getitem d column) ;;
          fitted <- lift_at 46 (DataProcessor.fit_transform col) ;;
          store df (setitem d column (snd fitted)) ;;
          codes <- lift_at 48 (le_transform (fst fitted) (fst fitted)) ;;
          ret (dict_set mappings column (combine (fst fitted) codes)))) w
    (fun _ w' =>
       (~ In c l -> getitem (heap w' !!! df) c = getitem (heap w !!! df) c) /\
       (In c l -> List.NoDup l ->
        exists col classes_ codes,
          getitem (heap w !!! df) c = Returns col /\
          le_fit col = Returns classes_ /\
          le_transform classes_ col = Returns codes /\
          getitem (heap w' !!! df) c = Returns codes)).
Proof.
  revert mappings w. induction l as [|x l IH]; intros mappings w.
  - apply post_ret. split; [reflexivity|intros []].
  - cbn [for_each].
    eapply post_bind with
      (Qm := fun _ w1 =>
         (x <> c -> getitem (heap w1 !!! df) c = getitem (heap w !!! df) c) /\
         (x = c -> exists col classes_ codes,
            getitem (heap w !!! df) c = Returns col /\
            le_fit col = Returns classes_ /\
            le_transform classes_ col = Returns codes /\
            getitem (heap w1 !!! df) c = Returns codes)).
    + unfold post, bind, deref, lift_at, store, ret.
      destruct (getitem (heap w !!! df) x) as [col|e] eqn:Hg; [|exact I].
      unfold DataProcessor.fit_transform.
      destruct (le_fit col) as [classes_|e] eqn:Hfit; [|exact I].
      destruct (le_transform classes_ col) as [codes|e] eqn:Hcodes; [|exact I].
      cbn beta iota. cbn [fst snd].
      destruct (le_transform classes_ classes_); [|exact I].
      cbn [heap set_heap]. rewrite (stored_frame _ _ _ _ (getitem_has _ _ _ Hg)).
      split.
      * intros Hne. apply getitem_setitem_other. congruence.
      * intros ->. exists col, classes_, codes. repeat (split; [assumption|]).
        apply getitem_setitem. eapply getitem_has, Hg.
    + intros mappings' w1 [Hother Hsame].
      specialize (IH mappings' w1). unfold post in IH |- *.
      destruct (for_each l mappings' _ w1) as [[m2|e] w2]; [|exact I].
      destruct IH as [IHout IHin]. split.
      * intros Hn. rewrite IHout by (intros H; apply Hn; now right).
        apply Hother. intros ->. apply Hn. now left.
      * intros Hin Hnd. apply List.NoDup_cons_iff in Hnd as [Hx Hnd].
        destruct (String.eqb x c) eqn:E.
        -- apply String.eqb_eq in E. subst x.
           destruct (Hsame eq_refl) as (col & cl & codes & H1 & H2 & H3 & H4).
           exists col, cl, codes. repeat (split; [assumption|]).
           now rewrite (IHout Hx).
        -- assert (Hne : x <> c) by (intros ->; now rewrite String.eqb_refl in E).
           destruct Hin as [Hin|Hin]; [contradiction|].
           destruct (IHin Hin Hnd) as (col & cl & codes & H1 & H2 & H3 & H4).
           exists col, cl, codes. rewrite <- (Hother Hne). now repeat split.
Qed.

(** A configured categorical column holds the label encoder's codes: for
    a column listed once among the categorical columns, which is neither
    one of the two counters nor a numerical column, a completed
    [preprocess_data] has replaced it by the codes of its values, the
    encoder being fitted on the column as it was after line 36. *)
Theorem categorical_columns_are_encoded (self : DataProcessor.t) (df r : loc)
    (w w' : world) (c : string) :
  In c (categorical_columns (data_processing (DataProcessor.config self))) ->
  List.NoDup (categorical_columns (data_processing (DataProcessor.config self))) ->
  c <> "no_of_previous_cancellations" ->
  c <> "no_of_previous_bookings_not_canceled" ->
  ~ In c (numerical_columns (data_processing (DataProcessor.config self))) ->
  DataProcessor.preprocess_data self df w = (Returns r, w') ->
  exists without_id col classes_ codes,
    drop_columns (heap w !!! df) ["Booking_ID"] = Returns without_id /\
    getitem (drop_duplicates without_id) c = Returns col /\
    le_fit col = Returns classes_ /\
    le_transform classes_ col = Returns codes /\
    getitem (heap w' !!! df) c = Returns codes.
Proof.
  intros Hc Hnd HA HB Hnum Hrun.
  pose proof (post_returns _ _ _ _ _ (preprocess_data_spec self df w) Hrun)
    as (_ & _ & _ & Hhas & _).
  destruct (drop_columns_present _ _ Hhas) as (d1 & Hdrop).
  exists d1.
  refine (post_returns _ _ _ _
            (fun _ w' => exists col classes_ codes,
               drop_columns (heap w !!! df) ["Booking_ID"] = Returns d1 /\
               getitem (drop_duplicates d1) c = Returns col /\
               le_fit col = Returns classes_ /\
               le_transform classes_ col = Returns codes /\
               getitem (heap w' !!! df) c = Returns codes) _ Hrun).
  clear Hrun r w'.
  unfold DataProcessor.preprocess_data,
      DataProcessor.preprocess_data_try. apply post_try_except; [|intros; exact I].
  unfold post. unfold bind at 1 2. unfold logger_info at 1 2. cbn beta iota.
  unfold bind at 1, inplace at 1. unfold bind at 1, deref at 1. cbn beta iota.
  unfold bind at 1, lift_at at 1. cbn [heap set_log]. rewrite Hdrop.
  unfold store at 1. cbn beta iota.
  unfold bind at 1, inplace at 1. unfold bind at 1, deref at 1. cbn beta iota.
  unfold bind at 1, lift_at at 1. unfold store at 1. cbn beta iota.
  cbn [heap set_log set_heap fs log np_random mlflow].
  rewrite (stored_frame _ _ _ _ Hhas).
  set (w2 := set_heap _ _).
  assert (H2 : heap w2 !!! df = drop_duplicates d1).
  { subst w2. cbn [heap set_heap].
    apply list_lookup_total_insert_eq. rewrite length_insert.
    eapply frame_in_range, Hhas. }
  clearbody w2. cbv zeta.
  eapply post_bind with (Qm := fun _ w' => heap w' !!! df = drop_duplicates d1);
    [exact H2|]. clear w2 H2. intros _ w2 H2.
  eapply post_bind with
    (Qm := fun _ w' => exists col classes_ codes,
             getitem (drop_duplicates d1) c = Returns col /\
             le_fit col = Returns classes_ /\
             le_transform classes_ col = Returns codes /\
             getitem (heap w' !!! df) c = Returns codes).
  { apply post_intro. intros mappings w3 Hloop.
    pose proof (post_returns _ _ _ _ _ (encoding_loop df c _ _ w2) Hloop) as [_ Hin].
    destruct (Hin Hc Hnd) as (col & cl & codes & H1 & H3 & H4 & H5).
    exists col, cl, codes. rewrite <- H2. now repeat split. }
  clear w2 H2. intros mappings w2 (col & cl & codes & H1 & H3 & H4 & H5).
  set (Q := fun d : DataFrame => getitem d c = Returns codes).
  assert (H0 : Q (heap w2 !!! df)) by exact H5. clear H5.
  eapply post_bind with (Qm := fun _ w' => Q (heap w' !!! df));
    [now apply kept_frame_info|]. clear w2 H0. intros _ w2 H0.
  eapply post_bind with (Qm := fun _ w' => Q (heap w' !!! df)).
  { apply post_for_each; [exact H0|]. intros s cm w3 _ H5. now apply kept_frame_info. }
  clear w2 H0. intros _ w2 H0.
  eapply post_bind with (Qm := fun _ w' => Q (heap w' !!! df));
    [now apply kept_frame_info|]. clear w2 H0. intros _ w2 H0.
  eapply post_bind with (Qm := fun _ w' => Q (heap w' !!! df)).
  { apply post_intro. intros [] w3 Hstep.
    pose proof (post_returns _ _ _ _ _ (update_column_spec _ _ _ _ _) Hstep)
      as (_ & _ & _ & a & a' & _ & _ & ->).
    unfold Q. now rewrite getitem_setitem_other. }
  clear w2 H0. intros _ w2 H0.
  eapply post_bind with (Qm := fun _ w' => Q (heap w' !!! df)).
  { apply post_intro. intros [] w3 Hstep.
    pose proof (post_returns _ _ _ _ _ (update_column_spec _ _ _ _ _) Hstep)
      as (_ & _ & _ & a & a' & _ & _ & ->).
    unfold Q. now rewrite getitem_setitem_other. }
  clear w2 H0. intros _ w2 H0.
  unfold post. unfold bind at 1, deref at 1. cbn beta iota.
  unfold bind at 1, lift_at at 1.
  destruct (DataProcessor.measure_skewness _ _) as [sk|e] eqn:Hm; [|exact I].
  unfold bind at 1.
  destruct (DataProcessor.transform_skewed _ _ _) as [[[]|e] wz] eqn:Hl; [|exact I].
  unfold ret. exists col, cl, codes. split; [reflexivity|].
  repeat (split; [assumption|]).
  destruct (transform_skewed_effect _ _ _ _ Hl) as [Hout _].
  rewrite Hout; [exact H0|]. intros Hsk.
  apply (skewed_columns_In _ _ _ _ _ Hm) in Hsk as (_ & _ & Hsk & _). contradiction.
Qed.

End Encoding.

(** * The claims on the small instance *)

#[local] Existing Instance Toy.libs.
#[local] Existing Instance Toy.consts.

Ltac distinct_labels :=
  apply (proj1 (NoDup_ListNoDup _)); apply (bool_decide_unpack _); vm_compute; exact I.

Lemma processed_test_file_is_train_file_witness :
  DataProcessor.process Toy.processor (Toy.ingested 0.75 10)
    = (Returns tt, Toy.processed 0.75 10) /\
  fs (Toy.processed 0.75 10) !! PROCESSED_TEST_DATA_PATH
    = fs (Toy.processed 0.75 10) !! PROCESSED_TRAIN_DATA_PATH.
Proof.
  assert (Hrun : DataProcessor.process Toy.processor (Toy.ingested 0.75 10)
                 = (Returns tt, Toy.processed 0.75 10))
    by (unfold Toy.processed; apply run_returns; vm_compute; reflexivity).
  split; [exact Hrun|].
  destruct (processed_test_file_is_train_file Toy.processor _ _
              (Toy.table_at (Toy.ingested 0.75 10) TRAIN_FILE_PATH) Hrun)
    as [(table & Htrain & Htest & _) _].
  - vm_compute; reflexivity.
  - distinct_labels.
  - rewrite Htrain, Htest. reflexivity.
Defined.

Lemma test_columns_match_train_selection_witness :
  DataProcessor.process Toy.processor (Toy.ingested 0.75 10)
    = (Returns tt, Toy.processed 0.75 10) /\
  exists top,
    map fst (Toy.table_at (Toy.processed 0.75 10) PROCESSED_TEST_DATA_PATH)
      = top ++ ["booking_status"] /\
    map fst (Toy.table_at (Toy.processed 0.75 10) PROCESSED_TRAIN_DATA_PATH)
      = top ++ ["booking_status"].
Proof.
  assert (Hrun : DataProcessor.process Toy.processor (Toy.ingested 0.75 10)
                 = (Returns tt, Toy.processed 0.75 10))
    by (unfold Toy.processed; apply run_returns; vm_compute; reflexivity).
  split; [exact Hrun|].
  destruct (test_columns_match_train_selection Toy.processor _ _
              (Toy.table_at (Toy.ingested 0.75 10) TRAIN_FILE_PATH) Hrun)
    as (top & train_table & test_table & bal & added & Htrain & Htest & Hc1 & Hc2 & _).
  - vm_compute; reflexivity.
  - distinct_labels.
  - exists top. unfold Toy.table_at. rewrite Htrain, Htest. split; assumption.
Defined.

Lemma process_balances_both_tables_witness :
  DataProcessor.process Toy.processor (Toy.ingested 0.75 10)
    = (Returns tt, Toy.processed 0.75 10) /\
  exists added,
    log (Toy.processed 0.75 10) = log (Toy.ingested 0.75 10) ++ added /\
    count_record (INFO, "Balancing the data using SMOTE") added = 2%nat.
Proof.
  assert (Hrun : DataProcessor.process Toy.processor (Toy.ingested 0.75 10)
                 = (Returns tt, Toy.processed 0.75 10))
    by (unfold Toy.processed; apply run_returns; vm_compute; reflexivity).
  split; [exact Hrun|].
  destruct (process_balances_both_tables Toy.processor _ _ Hrun)
    as (ctr & cte & g1 & top & added & _ & _ & _ & _ & _ & _ & _ & Hlog & Hbal & _).
  exists added. split; assumption.
Defined.

(** C1 fails on the code: the run on the small instance draws from the
    oversampler twice and logs two balancing records, the second for the
    test table; and when the test table has one class only (ratio 0.875),
    the run fails in balancing it, at line 141. *)
Lemma process_balances_test_table :
  (fst (DataProcessor.process Toy.processor (Toy.ingested 0.75 10)) = Returns tt /\
   np_random (Toy.ingested 0.75 10) = 0%nat /\
   np_random (Toy.processed 0.75 10) = 2%nat /\
   count_record (INFO, "Balancing the data using SMOTE") (log (Toy.ingested 0.75 10))
     = 0%nat /\
   count_record (INFO, "Balancing the data using SMOTE") (log (Toy.processed 0.75 10))
     = 2%nat) /\
  (exists cause,
     fst (DataProcessor.process Toy.processor (Toy.ingested 0.875 10))
       = Raises (CustomException
                   "Error in src/data_preprocessing.py at line 141: Failed to process the data"
                   "Failed to process the data" cause) /\
     str_exn cause
       = "Error in src/data_preprocessing.py at line 80: Failed to balance the data").
Proof.
  split.
  - repeat split; vm_compute; reflexivity.
  - eexists. split; [vm_compute; reflexivity|]. reflexivity.
Qed.

Lemma preprocess_in_place_others_new_witness :
  DataProcessor.preprocess_data Toy.processor 0 Toy.loaded
    = (Returns 0%nat, snd (DataProcessor.preprocess_data Toy.processor 0 Toy.loaded)) /\
  has_column (heap (snd (DataProcessor.preprocess_data Toy.processor 0 Toy.loaded)) !!! 0%nat)
    "Booking_ID" = false.
Proof.
  assert (Hrun : DataProcessor.preprocess_data Toy.processor 0 Toy.loaded
    = (Returns 0%nat, snd (DataProcessor.preprocess_data Toy.processor 0 Toy.loaded)))
    by (unfold Toy.processed; apply run_returns; vm_compute; reflexivity).
  split; [exact Hrun|].
  destruct (preprocess_in_place_others_new Toy.processor 0%nat Toy.loaded) as [Hpre _].
  destruct (Hpre _ _ Hrun) as (_ & _ & _ & Hno & _). exact Hno.
Defined.

(** C10 fails on the code: the table the caller holds at reference 0 has a
    "Booking_ID" column before the call and none after it, and the
    reference returned is the caller's. *)
Lemma preprocess_data_mutates_input :
  fst (DataProcessor.preprocess_data Toy.processor 0 Toy.loaded) = Returns 0%nat /\
  length (heap (snd (DataProcessor.preprocess_data Toy.processor 0 Toy.loaded)))
    = length (heap Toy.loaded) /\
  has_column (heap Toy.loaded !!! 0%nat) "Booking_ID" = true /\
  has_column (heap (snd (DataProcessor.preprocess_data Toy.processor 0 Toy.loaded)) !!! 0%nat)
    "Booking_ID" = false /\
  heap (snd (DataProcessor.preprocess_data Toy.processor 0 Toy.loaded)) !!! 0%nat
    <> heap Toy.loaded !!! 0%nat.
Proof.
  repeat split; try (vm_compute; reflexivity).
  vm_compute. discriminate.
Qed.


(** On the train table of the small instance, as read from disk, the
    threshold 5 singles out "lead_time". *)
Example skewed_columns_of_the_train_table :
  DataProcessor.measure_skewness (heap Toy.loaded !!! 0%nat)
    (numerical_columns (data_processing (DataProcessor.config Toy.processor)))
    = Returns (Toy.skewness_of (heap Toy.loaded !!! 0%nat)) /\
  DataProcessor.skewed_columns (Toy.skewness_of (heap Toy.loaded !!! 0%nat)) 5
    = ["lead_time"].
Proof. split; vm_compute; reflexivity. Qed.

Lemma balanced_data_carries_the_oversampler_witness :
  drop_columns (heap Toy.preprocessed !!! 0%nat) ["booking_status"]
    = Returns (Toy.features (heap Toy.preprocessed !!! 0%nat)) /\
  getitem (heap Toy.preprocessed !!! 0%nat) "booking_status"
    = Returns (Toy.labels (heap Toy.preprocessed !!! 0%nat)) /\
  fst (DataProcessor.balanced_data Toy.processor 0%nat Toy.preprocessed) = Returns 1%nat /\
  (exists labels,
     getitem (heap (snd (DataProcessor.balanced_data Toy.processor 0%nat Toy.preprocessed))
                !!! 1%nat) "booking_status" = Returns labels /\
     count_class (VInt 0) labels = 4%nat /\ count_class (VInt 1) labels = 4%nat) /\
  (forall c s,
     getitem (heap Toy.preprocessed !!! 0%nat) c = Returns s ->
     exists added,
       getitem (heap (snd (DataProcessor.balanced_data Toy.processor 0%nat Toy.preprocessed))
                  !!! 1%nat) c = Returns (s ++ added)).
Proof.
  pose (d := heap Toy.preprocessed !!! 0%nat).
  assert (H1 : drop_columns d ["booking_status"] = Returns (Toy.features d))
    by (vm_compute; reflexivity).
  assert (H2 : getitem d "booking_status" = Returns (Toy.labels d))
    by (vm_compute; reflexivity).
  assert (H3 : smote_fit_resample (np_random Toy.preprocessed) (Toy.features d) (Toy.labels d)
               = (Returns (Toy.oversampled_frame d, Toy.oversampled_labels d), 1%nat))
    by (vm_compute; reflexivity).
  assert (H4 : extends_rows (Toy.features d) (Toy.oversampled_frame d))
    by exact (extends_rows_appended (Toy.features d) _
                (fun s => Toy.take_rows s (Toy.repeated_rows (Toy.labels d)))).
  assert (H5 : length (heap Toy.preprocessed) = 1%nat) by (vm_compute; reflexivity).
  split; [exact H1|]. split; [exact H2|].
  pose proof (balanced_data_carries_the_oversampler Toy.processor 0%nat Toy.preprocessed
                _ _ H1 H2) as H.
  rewrite H3, H5 in H. destruct H as (w' & Hrun & _ & _ & _ & Hl & _ & Hrows).
  rewrite Hrun. cbn [fst snd]. split; [reflexivity|]. split.
  - eexists. split; [exact Hl|]. split; vm_compute; reflexivity.
  - intros c s Hc. exact (Hrows H4 _ eq_refl c s Hc).
Defined.

(** C9 fails on the code: the train table of the small instance has two
    classes, of four and three rows, and an oversampler with SMOTE's need
    of six rows in the class it fills up refuses it: [balanced_data] raises
    and there is no output table. *)
Lemma balanced_data_refuses_a_small_minority :
  count_class (VInt 0) (Toy.labels (heap Toy.preprocessed !!! 0%nat)) = 4%nat /\
  count_class (VInt 1) (Toy.labels (heap Toy.preprocessed !!! 0%nat)) = 3%nat /\
  fst (@DataProcessor.balanced_data Strict.libs Strict.consts Toy.processor 0%nat
         (Strict.holding (heap Toy.preprocessed !!! 0%nat)))
    = Raises (CustomException
                "Error in src/data_preprocessing.py at line 80: Failed to balance the data"
                "Failed to balance the data"
                (ValueError ("Expected n_neighbors <= n_samples_fit, but n_neighbors = 6, "
                               +:+ "n_samples_fit = 3, n_samples = 3"))) /\
  heap (snd (@DataProcessor.balanced_data Strict.libs Strict.consts Toy.processor 0%nat
               (Strict.holding (heap Toy.preprocessed !!! 0%nat))))
    = [heap Toy.preprocessed !!! 0%nat].
Proof. repeat split; vm_compute; reflexivity. Qed.

Lemma load_and_split_data_needs_unnamed_column_witness :
  fs (Toy.processed 0.75 10) !! ModelTraining.train_path Toy.trainer
    = Some (FCsv (Toy.table_at (Toy.processed 0.75 10) PROCESSED_TRAIN_DATA_PATH)) /\
  fs (Toy.processed 0.75 10) !! ModelTraining.test_path Toy.trainer
    = Some (FCsv (Toy.table_at (Toy.processed 0.75 10) PROCESSED_TEST_DATA_PATH)) /\
  exists s w',
    ModelTraining.load_and_split_data Toy.trainer (Toy.processed 0.75 10) = (Returns s, w').
Proof.
  assert (H1 : fs (Toy.processed 0.75 10) !! ModelTraining.train_path Toy.trainer
    = Some (FCsv (Toy.table_at (Toy.processed 0.75 10) PROCESSED_TRAIN_DATA_PATH)))
    by (vm_compute; reflexivity).
  assert (H2 : fs (Toy.processed 0.75 10) !! ModelTraining.test_path Toy.trainer
    = Some (FCsv (Toy.table_at (Toy.processed 0.75 10) PROCESSED_TEST_DATA_PATH)))
    by (vm_compute; reflexivity).
  split; [exact H1|]. split; [exact H2|].
  destruct (load_and_split_data_needs_unnamed_column Toy.trainer _ _ _ H1 H2)
    as (_ & Hloads & _).
  apply Hloads; vm_compute; reflexivity.
Defined.

(** C4 fails on the code: the processed tables written by [save_data] on
    the small instance have a column "Unnamed: 0" — the index column the
    ingestion stage wrote, kept by the preprocessor, the balancer and the
    selector — and the training stage loads them and completes. *)
Lemma saved_tables_load_for_training :
  fs (Toy.processed 0.75 10) !! PROCESSED_TRAIN_DATA_PATH
    = Some (FCsv (to_csv (heap (Toy.processed 0.75 10) !!! 5%nat) false)) /\
  has_column (read_csv (Toy.table_at (Toy.processed 0.75 10) PROCESSED_TRAIN_DATA_PATH))
    "Unnamed: 0" = true /\
  has_column (read_csv (Toy.table_at (Toy.processed 0.75 10) PROCESSED_TEST_DATA_PATH))
    "Unnamed: 0" = true /\
  (exists s,
     fst (ModelTraining.load_and_split_data Toy.trainer (Toy.processed 0.75 10))
     = Returns s) /\
  fst (ModelTraining.run Toy.trainer (Toy.processed 0.75 10)) = Returns tt.
Proof.
  repeat split; try (vm_compute; reflexivity).
  eexists. vm_compute. reflexivity.
Qed.



Lemma tracker_failure_fails_the_run_witness :
  fst (ModelTraining.run Toy.trainer (Toy.processed 0.75 3))
    = Raises (new_CustomException model_training_py 152
                (PyError "MlflowException" "API request failed")
                "Failed to train the model"
                (PyError "MlflowException" "API request failed")) /\
  exists m,
    fs (snd (ModelTraining.run Toy.trainer (Toy.processed 0.75 3)))
      !! ModelTraining.model_output_path Toy.trainer = Some (FModel m).
Proof.
  assert (H : fst (ModelTraining.run Toy.trainer (Toy.processed 0.75 3))
    = Raises (new_CustomException model_training_py 152
                (PyError "MlflowException" "API request failed")
                "Failed to train the model"
                (PyError "MlflowException" "API request failed")))
    by (vm_compute; reflexivity).
  split; [exact H|].
  destruct (tracker_failure_fails_the_run Toy.trainer (Toy.processed 0.75 3))
    as (_ & _ & Hsaved).
  exact (Hsaved 152%nat _ _ (run_raises _ _ _ H) (or_introl eq_refl)).
Defined.

(** C6 fails on the code: with a tracker that answers three calls
    ([start_run] and the two dataset artifacts), the model is fitted,
    evaluated and written to disk, the fourth tracker call fails at line
    152, and [run] raises "Failed to train the model"; with a tracker that
    answers no call, [run] raises at line 136 and no model is written. *)
Lemma tracker_failure_invalidates_training :
  fst (ModelTraining.run Toy.trainer (Toy.processed 0.75 3))
    = Raises (CustomException
                "Error in src/model_training.py at line 152: Failed to train the model"
                "Failed to train the model"
                (PyError "MlflowException" "API request failed")) /\
  fs (snd (ModelTraining.run Toy.trainer (Toy.processed 0.75 3))) !! MODEL_OUTPUT_PATH
    = Some (FModel (VInt 0)) /\
  fst (ModelTraining.run Toy.trainer (Toy.processed 0.75 0))
    = Raises (CustomException
                "Error in src/model_training.py at line 136: Failed to train the model"
                "Failed to train the model"
                (PyError "MlflowException" "API request failed")) /\
  fs (snd (ModelTraining.run Toy.trainer (Toy.processed 0.75 0))) !! MODEL_OUTPUT_PATH
    = None /\
  fst (ModelTraining.run Toy.trainer (Toy.processed 0.75 10)) = Returns tt.
Proof. repeat split; vm_compute; reflexivity. Qed.

Lemma split_data_deterministic_witness :
  fs Toy.downloaded !! RAW_FILE_PATH = fs (Toy.ingested 0.75 10) !! RAW_FILE_PATH /\
  fst (DataIngestion.split_data (Toy.ingestion 0.75 "hotel-bucket") Toy.downloaded)
    = Returns tt /\
  exists v',
    DataIngestion.split_data (Toy.ingestion 0.75 "hotel-bucket") (Toy.ingested 0.75 10)
      = (Returns tt, v') /\
    fs v' !! TRAIN_FILE_PATH
      = fs (snd (DataIngestion.split_data (Toy.ingestion 0.75 "hotel-bucket") Toy.downloaded))
          !! TRAIN_FILE_PATH /\
    fs v' !! TEST_FILE_PATH
      = fs (snd (DataIngestion.split_data (Toy.ingestion 0.75 "hotel-bucket") Toy.downloaded))
          !! TEST_FILE_PATH.
Proof.
  assert (H1 : fs Toy.downloaded !! RAW_FILE_PATH
               = fs (Toy.ingested 0.75 10) !! RAW_FILE_PATH) by (vm_compute; reflexivity).
  assert (H2 : fst (DataIngestion.split_data (Toy.ingestion 0.75 "hotel-bucket")
                      Toy.downloaded) = Returns tt) by (vm_compute; reflexivity).
  split; [exact H1|]. split; [exact H2|].
  destruct (split_data_deterministic (Toy.ingestion 0.75 "hotel-bucket")
              Toy.downloaded (Toy.ingested 0.75 10) _ H1 (run_returns _ _ _ H2))
    as [Hsame _].
  exact Hsame.
Defined.

(** * The further properties on the small instance *)

Ltac no_such_label :=
  let H := fresh in
  intros H; vm_compute in H;
  repeat (destruct H as [H|H]; [discriminate H|]); exact H.


Lemma split_files_keep_row_labels_as_column_witness :
  fs Toy.downloaded !! RAW_FILE_PATH = Some (FCsv Toy.bookings) /\
  Toy.bookings <> [] /\
  train_test_split (read_csv Toy.bookings) (PrimFloat.sub 1 0.75) 42
    = Returns (ToyTables.train_data, ToyTables.test_data) /\
  file_write TRAIN_FILE_PATH (FCsv (to_csv ToyTables.train_data true)) = Returns tt /\
  file_write TEST_FILE_PATH (FCsv (to_csv ToyTables.test_data true)) = Returns tt /\
  TRAIN_FILE_PATH <> TEST_FILE_PATH /\
  plain_labels ToyTables.test_data /\
  ~ In "Unnamed: 0" (columns ToyTables.test_data) /\
  getitem (read_csv (to_csv ToyTables.test_data true)) "Unnamed: 0"
    = Returns [VInt 7; VInt 8; VInt 9] /\
  df_index (read_csv (to_csv ToyTables.test_data true)) = [0; 1; 2].
Proof.
  assert (H1 : fs Toy.downloaded !! RAW_FILE_PATH = Some (FCsv Toy.bookings))
    by (vm_compute; reflexivity).
  assert (H2 : train_test_split (read_csv Toy.bookings) (PrimFloat.sub 1 0.75) 42
               = Returns (ToyTables.train_data, ToyTables.test_data))
    by (vm_compute; reflexivity).
  assert (H3 : Toy.bookings <> []) by discriminate.
  assert (H4 : file_write TRAIN_FILE_PATH (FCsv (to_csv ToyTables.train_data true))
               = Returns tt) by reflexivity.
  assert (H5 : file_write TEST_FILE_PATH (FCsv (to_csv ToyTables.test_data true))
               = Returns tt) by reflexivity.
  assert (H6 : TRAIN_FILE_PATH <> TEST_FILE_PATH) by discriminate.
  assert (H7 : plain_labels ToyTables.test_data)
    by (split; [distinct_labels|no_such_label]).
  assert (H8 : ~ In "Unnamed: 0" (columns ToyTables.test_data)) by no_such_label.
  split; [exact H1|]. split; [exact H3|]. split; [exact H2|]. split; [exact H4|].
  split; [exact H5|]. split; [exact H6|]. split; [exact H7|]. split; [exact H8|].
  destruct (split_files_keep_row_labels_as_column (Toy.ingestion 0.75 "hotel-bucket")
              Toy.downloaded Toy.bookings ToyTables.train_data ToyTables.test_data
              H1 H3 H2 H4 H5 H6) as (w' & _ & _ & _ & Hread).
  destruct (Hread ToyTables.test_data (or_intror eq_refl) H7 H8) as (_ & Hcol & Hindex).
  rewrite Hcol, Hindex. split; reflexivity.
Defined.

Lemma saved_table_read_back_witness :
  DataProcessor.save_data Toy.processor 0%nat "artifacts/processed/copy.csv" Toy.preprocessed
    = (Returns tt,
       snd (DataProcessor.save_data Toy.processor 0%nat "artifacts/processed/copy.csv"
              Toy.preprocessed)) /\
  plain_labels (heap Toy.preprocessed !!! 0%nat) /\
  columns (heap Toy.preprocessed !!! 0%nat) <> [] /\
  rectangular (heap Toy.preprocessed !!! 0%nat) /\
  df_index (heap Toy.preprocessed !!! 0%nat) = [0; 1; 2; 3; 4; 5; 6] /\
  exists w'',
    pd_read_csv "artifacts/processed/copy.csv"
      (snd (DataProcessor.save_data Toy.processor 0%nat "artifacts/processed/copy.csv"
              Toy.preprocessed))
    = (Returns 1%nat, w'') /\
    columns (heap w'' !!! 1%nat) = columns (heap Toy.preprocessed !!! 0%nat) /\
    df_index (heap w'' !!! 1%nat) = [0; 1; 2; 3; 4; 5; 6].
Proof.
  assert (Hrun : DataProcessor.save_data Toy.processor 0%nat "artifacts/processed/copy.csv"
                   Toy.preprocessed
                 = (Returns tt,
                    snd (DataProcessor.save_data Toy.processor 0%nat
                           "artifacts/processed/copy.csv" Toy.preprocessed)))
    by (apply run_returns; vm_compute; reflexivity).
  assert (Hp : plain_labels (heap Toy.preprocessed !!! 0%nat))
    by (split; [distinct_labels|no_such_label]).
  assert (Hc : columns (heap Toy.preprocessed !!! 0%nat) <> [])
    by (vm_compute; discriminate).
  assert (Hr : rectangular (heap Toy.preprocessed !!! 0%nat))
    by (vm_compute; repeat constructor).
  assert (Hi : df_index (heap Toy.preprocessed !!! 0%nat) = [0; 1; 2; 3; 4; 5; 6])
    by (vm_compute; reflexivity).
  split; [exact Hrun|]. split; [exact Hp|]. split; [exact Hc|]. split; [exact Hr|].
  split; [exact Hi|].
  assert (Hlen : length (heap Toy.preprocessed) = 1%nat) by (vm_compute; reflexivity).
  destruct (saved_table_read_back Toy.processor 0%nat "artifacts/processed/copy.csv"
              Toy.preprocessed _ Hrun Hp Hc Hr) as (w'' & Hread & Hcols & Hindex & _).
  rewrite Hlen in Hread, Hcols, Hindex.
  exists w''. split; [exact Hread|]. split; [exact Hcols|].
  rewrite Hindex, Hi. reflexivity.
Defined.

Lemma preprocess_data_changes_only_its_table_witness :
  DataProcessor.preprocess_data Toy.processor 0 Toy.loaded
    = (Returns 0%nat, Toy.preprocessed) /\
  fs Toy.preprocessed = fs Toy.loaded /\
  np_random Toy.preprocessed = np_random Toy.loaded.
Proof.
  assert (Hrun : DataProcessor.preprocess_data Toy.processor 0 Toy.loaded
                 = (Returns 0%nat, Toy.preprocessed))
    by (unfold Toy.preprocessed; apply run_returns; vm_compute; reflexivity).
  split; [exact Hrun|].
  destruct (preprocess_data_changes_only_its_table Toy.processor 0%nat Toy.loaded
              Toy.preprocessed (Returns 0%nat) Hrun) as [(Hfs & Hrng & _) _].
  split; [exact Hfs|exact Hrng].
Defined.

Lemma preprocess_data_keeps_other_columns_witness :
  DataProcessor.preprocess_data Toy.processor 0 Toy.loaded
    = (Returns 0%nat, Toy.preprocessed) /\
  ~ In "Unnamed: 0" (assigned_columns Toy.processor) /\
  exists without_id,
    drop_columns (heap Toy.loaded !!! 0%nat) ["Booking_ID"] = Returns without_id /\
    getitem (heap Toy.preprocessed !!! 0%nat) "Unnamed: 0"
    = getitem (drop_duplicates without_id) "Unnamed: 0".
Proof.
  assert (Hrun : DataProcessor.preprocess_data Toy.processor 0 Toy.loaded
                 = (Returns 0%nat, Toy.preprocessed))
    by (unfold Toy.preprocessed; apply run_returns; vm_compute; reflexivity).
  assert (Hn : ~ In "Unnamed: 0" (assigned_columns Toy.processor)) by no_such_label.
  split; [exact Hrun|]. split; [exact Hn|].
  destruct (preprocess_data_keeps_other_columns Toy.processor 0%nat 0%nat Toy.loaded
              Toy.preprocessed Hrun) as (d1 & Hdrop & _ & Hcols).
  exists d1. split; [exact Hdrop|exact (Hcols _ Hn)].
Defined.

(** The twins are told apart by their row labels: all three rows are
    there after [preprocess_data]. *)
Lemma split_rows_are_never_duplicates_witness :
  heap ToyTables.twins_loaded !!! 0%nat = read_csv (to_csv ToyTables.twins true) /\
  rectangular ToyTables.twins /\ List.NoDup (df_index ToyTables.twins) /\
  ~ In "" (columns ToyTables.twins) /\
  DataProcessor.preprocess_data Toy.processor 0 ToyTables.twins_loaded
    = (Returns 0%nat,
       snd (DataProcessor.preprocess_data Toy.processor 0 ToyTables.twins_loaded)) /\
  df_index (heap (snd (DataProcessor.preprocess_data Toy.processor 0 ToyTables.twins_loaded))
              !!! 0%nat)
    = [0; 1; 2].
Proof.
  assert (H1 : heap ToyTables.twins_loaded !!! 0%nat
               = read_csv (to_csv ToyTables.twins true)) by reflexivity.
  assert (H2 : rectangular ToyTables.twins) by (repeat constructor).
  assert (H3 : List.NoDup (df_index ToyTables.twins)) by distinct_labels.
  assert (H4 : ~ In "" (columns ToyTables.twins)) by no_such_label.
  assert (Hrun : DataProcessor.preprocess_data Toy.processor 0 ToyTables.twins_loaded
                 = (Returns 0%nat,
                    snd (DataProcessor.preprocess_data Toy.processor 0
                           ToyTables.twins_loaded)))
    by (apply run_returns; vm_compute; reflexivity).
  repeat (split; [assumption|]).
  destruct (split_rows_are_never_duplicates Toy.processor 0%nat 0%nat
              ToyTables.twins_loaded _ ToyTables.twins H1 H2 H3 H4 Hrun) as [Hidx _].
  rewrite Hidx. reflexivity.
Defined.

(** Without the row labels, the second twin is removed as a duplicate. *)
Example twins_without_row_labels :
  fst (DataProcessor.preprocess_data Toy.processor 0 ToyTables.twins_unlabelled)
    = Returns 0%nat /\
  df_index (heap (snd (DataProcessor.preprocess_data Toy.processor 0
                         ToyTables.twins_unlabelled)) !!! 0%nat)
    = [0; 2].
Proof. split; vm_compute; reflexivity. Qed.

Lemma balanced_data_outcomes_witness :
  (DataProcessor.balanced_data Toy.processor 0%nat Toy.preprocessed
   = (Returns 1%nat, ToyTables.balanced) /\
   columns (heap Toy.preprocessed !!! 0%nat)
   = ["Unnamed: 0"; "type_of_meal_plan"; "lead_time"; "no_of_previous_cancellations";
      "no_of_previous_bookings_not_canceled"; "booking_status"] /\
   columns (heap ToyTables.balanced !!! 1%nat)
   = ["Unnamed: 0"; "type_of_meal_plan"; "lead_time"; "no_of_previous_cancellations";
      "no_of_previous_bookings_not_canceled"; "booking_status"]) /\
  (has_column (heap ToyTables.unlabelled !!! 0%nat) "booking_status" = false /\
   exists w',
     DataProcessor.balanced_data Toy.processor 0%nat ToyTables.unlabelled
     = (Raises (new_CustomException data_preprocessing_py 76 (KeyError "booking_status")
                  "Failed to balance the data" (KeyError "booking_status")), w') /\
     heap w' = heap ToyTables.unlabelled /\ np_random w' = 0%nat) /\
  (drop_columns (heap ToyTables.one_class !!! 0%nat) ["booking_status"]
   = Returns (mkDataFrame [0; 1] [("lead_time", map VInt [5; 48])]) /\
   getitem (heap ToyTables.one_class !!! 0%nat) "booking_status" = Returns (map VInt [0; 0]) /\
   smote_fit_resample (np_random ToyTables.one_class)
     (mkDataFrame [0; 1] [("lead_time", map VInt [5; 48])]) (map VInt [0; 0])
   = (Raises (ValueError "The target 'y' needs to have more than 1 class."), 0%nat) /\
   exists w',
     DataProcessor.balanced_data Toy.processor 0%nat ToyTables.one_class
     = (Raises (new_CustomException data_preprocessing_py 80
                  (ValueError "The target 'y' needs to have more than 1 class.")
                  "Failed to balance the data"
                  (ValueError "The target 'y' needs to have more than 1 class.")), w') /\
     heap w' = heap ToyTables.one_class).
Proof.
  assert (Hrun : DataProcessor.balanced_data Toy.processor 0%nat Toy.preprocessed
                 = (Returns 1%nat, ToyTables.balanced))
    by (unfold ToyTables.balanced; apply run_returns; vm_compute; reflexivity).
  assert (Hcols : columns (heap Toy.preprocessed !!! 0%nat)
                  = ["Unnamed: 0"; "type_of_meal_plan"; "lead_time";
                     "no_of_previous_cancellations";
                     "no_of_previous_bookings_not_canceled"; "booking_status"])
    by (vm_compute; reflexivity).
  assert (Hno : has_column (heap ToyTables.unlabelled !!! 0%nat) "booking_status" = false)
    by (vm_compute; reflexivity).
  split; [|split].
  - split; [exact Hrun|]. split; [exact Hcols|].
    rewrite (proj1 (balanced_data_outcomes Toy.processor 0%nat Toy.preprocessed) _ _ Hrun).
    rewrite Hcols. reflexivity.
  - split; [exact Hno|].
    destruct (proj1 (proj2 (balanced_data_outcomes Toy.processor 0%nat ToyTables.unlabelled))
                Hno) as (w' & Hraise & Hheap & _ & Hrng).
    exists w'. split; [exact Hraise|]. split; [exact Hheap|exact Hrng].
  - split; [reflexivity|]. split; [reflexivity|]. split; [reflexivity|].
    destruct (proj2 (proj2 (balanced_data_outcomes Toy.processor 0%nat ToyTables.one_class))
                _ _ _ _ eq_refl eq_refl eq_refl) as (w' & Hraise & Hheap & _).
    exists w'. split; [exact Hraise|exact Hheap].
Defined.

Lemma select_feature_only_selects_witness :
  DataProcessor.select_feature Toy.processor 1%nat ToyTables.balanced
    = (Returns 2%nat,
       snd (DataProcessor.select_feature Toy.processor 1%nat ToyTables.balanced)) /\
  List.NoDup (columns (heap ToyTables.balanced !!! 1%nat)) /\
  exists top,
    columns (heap (snd (DataProcessor.select_feature Toy.processor 1%nat ToyTables.balanced))
               !!! 2%nat) = top ++ ["booking_status"] /\
    (length top <= 3)%nat.
Proof.
  assert (Hrun : DataProcessor.select_feature Toy.processor 1%nat ToyTables.balanced
                 = (Returns 2%nat,
                    snd (DataProcessor.select_feature Toy.processor 1%nat
                           ToyTables.balanced)))
    by (apply run_returns; vm_compute; reflexivity).
  assert (Hnd : List.NoDup (columns (heap ToyTables.balanced !!! 1%nat)))
    by distinct_labels.
  split; [exact Hrun|]. split; [exact Hnd|].
  destruct (select_feature_only_selects Toy.processor 1%nat 2%nat ToyTables.balanced _
              Hrun Hnd) as (top & Hcols & _ & Hlen & _).
  exists top. split; [exact Hcols|]. apply Hlen. discriminate.
Defined.

Lemma select_feature_count_edges_witness :
  DataProcessor.select_feature (ToyTables.processor_keeping 9) 1%nat ToyTables.balanced
    = (Returns 2%nat,
       snd (DataProcessor.select_feature (ToyTables.processor_keeping 9) 1%nat
              ToyTables.balanced)) /\
  List.NoDup (columns (heap ToyTables.balanced !!! 1%nat)) /\
  Permutation
    (columns (heap (snd (DataProcessor.select_feature (ToyTables.processor_keeping 9) 1%nat
                           ToyTables.balanced)) !!! 2%nat))
    (List.filter (fun x => negb (String.eqb x "booking_status"))
       (columns (heap ToyTables.balanced !!! 1%nat)) ++ ["booking_status"]).
Proof.
  assert (Hrun : DataProcessor.select_feature (ToyTables.processor_keeping 9) 1%nat
                   ToyTables.balanced
                 = (Returns 2%nat,
                    snd (DataProcessor.select_feature (ToyTables.processor_keeping 9) 1%nat
                           ToyTables.balanced)))
    by (apply run_returns; vm_compute; reflexivity).
  assert (Hnd : List.NoDup (columns (heap ToyTables.balanced !!! 1%nat)))
    by distinct_labels.
  split; [exact Hrun|]. split; [exact Hnd|].
  apply (proj1 (proj2 (select_feature_count_edges (ToyTables.processor_keeping 9) 1%nat 2%nat
                         ToyTables.balanced _ Hrun Hnd))).
  vm_compute. discriminate.
Defined.

Lemma failed_process_writes_nothing_witness :
  DataProcessor.process Toy.processor (Toy.ingested 0.875 10)
    = (Raises (Toy.raised (fst (DataProcessor.process Toy.processor (Toy.ingested 0.875 10)))),
       snd (DataProcessor.process Toy.processor (Toy.ingested 0.875 10))) /\
  (exists cause,
     Toy.raised (fst (DataProcessor.process Toy.processor (Toy.ingested 0.875 10)))
     = new_CustomException data_preprocessing_py 141 cause
         "Failed to process the data" cause /\
     is_CustomException cause = true) /\
  fs (snd (DataProcessor.process Toy.processor (Toy.ingested 0.875 10)))
    = fs (Toy.ingested 0.875 10) /\
  fs (Toy.ingested 0.875 10) !! TRAIN_FILE_PATH
    = Some (FCsv (Toy.table_at (Toy.ingested 0.875 10) TRAIN_FILE_PATH)) /\
  fs (Toy.ingested 0.875 10) !! PROCESSED_TRAIN_DATA_PATH = None.
Proof.
  assert (Hrun : DataProcessor.process Toy.processor (Toy.ingested 0.875 10)
                 = (Raises (Toy.raised (fst (DataProcessor.process Toy.processor
                                               (Toy.ingested 0.875 10)))),
                    snd (DataProcessor.process Toy.processor (Toy.ingested 0.875 10))))
    by (apply run_raises; vm_compute; reflexivity).
  assert (Hline : str_exn (Toy.raised (fst (DataProcessor.process Toy.processor
                                              (Toy.ingested 0.875 10))))
                  = get_detailed_error_message data_preprocessing_py 141
                      "Failed to process the data" tt)
    by (vm_compute; reflexivity).
  split; [exact Hrun|].
  destruct (failed_process_writes_nothing Toy.processor (Toy.ingested 0.875 10) _ _ Hrun)
    as (n & cause & He & _ & Hfs & Hc & _).
  assert (Hn : n = 141%nat).
  { rewrite He in Hline. unfold new_CustomException, str_exn in Hline.
    exact (detailed_error_message_line _ _ _ _ _ _ Hline). }
  subst n. split; [|split; [|split]].
  - exists cause. split; [exact He|]. apply Hc. simpl. tauto.
  - apply Hfs. lia.
  - vm_compute. reflexivity.
  - vm_compute. reflexivity.
Defined.

Lemma trainer_loads_iff_index_column_selected_witness :
  DataProcessor.process Toy.processor (Toy.ingested 0.75 10)
    = (Returns tt, Toy.processed 0.75 10) /\
  fs (Toy.ingested 0.75 10) !! DataProcessor.train_path Toy.processor
    = Some (FCsv (Toy.table_at (Toy.ingested 0.75 10) TRAIN_FILE_PATH)) /\
  List.NoDup (columns (read_csv (Toy.table_at (Toy.ingested 0.75 10) TRAIN_FILE_PATH))) /\
  ModelTraining.train_path Toy.trainer = PROCESSED_TRAIN_DATA_PATH /\
  ModelTraining.test_path Toy.trainer = PROCESSED_TEST_DATA_PATH /\
  exists top table,
    fs (Toy.processed 0.75 10) !! PROCESSED_TRAIN_DATA_PATH = Some (FCsv table) /\
    map fst table = top ++ ["booking_status"].
Proof.
  assert (Hrun : DataProcessor.process Toy.processor (Toy.ingested 0.75 10)
                 = (Returns tt, Toy.processed 0.75 10))
    by (unfold Toy.processed; apply run_returns; vm_compute; reflexivity).
  assert (H1 : fs (Toy.ingested 0.75 10) !! DataProcessor.train_path Toy.processor
               = Some (FCsv (Toy.table_at (Toy.ingested 0.75 10) TRAIN_FILE_PATH)))
    by (vm_compute; reflexivity).
  assert (H2 : List.NoDup
                 (columns (read_csv (Toy.table_at (Toy.ingested 0.75 10) TRAIN_FILE_PATH))))
    by distinct_labels.
  assert (H3 : ModelTraining.train_path Toy.trainer = PROCESSED_TRAIN_DATA_PATH)
    by reflexivity.
  assert (H4 : ModelTraining.test_path Toy.trainer = PROCESSED_TEST_DATA_PATH)
    by reflexivity.
  repeat (split; [assumption|]).
  destruct (trainer_loads_iff_index_column_selected Toy.processor Toy.trainer _ _ _
              Hrun H1 H2 H3 H4) as (top & table & Htab & Hcols & _).
  exists top, table. split; [exact Htab|exact Hcols].
Defined.

Lemma row_labels_are_a_candidate_feature_witness :
  DataProcessor.process Toy.processor (Toy.ingested 0.75 10)
    = (Returns tt, Toy.processed 0.75 10) /\
  fs (Toy.ingested 0.75 10) !! DataProcessor.train_path Toy.processor
    = Some (FCsv (to_csv ToyTables.train_data true)) /\
  exists X y importance,
    rf_feature_importances 42 X y = Returns importance /\
    In "Unnamed: 0" (columns X).
Proof.
  assert (Hrun : DataProcessor.process Toy.processor (Toy.ingested 0.75 10)
                 = (Returns tt, Toy.processed 0.75 10))
    by (unfold Toy.processed; apply run_returns; vm_compute; reflexivity).
  assert (H1 : fs (Toy.ingested 0.75 10) !! DataProcessor.train_path Toy.processor
               = Some (FCsv (to_csv ToyTables.train_data true)))
    by (vm_compute; reflexivity).
  split; [exact Hrun|]. split; [exact H1|].
  destruct (row_labels_are_a_candidate_feature Toy.processor _ _ ToyTables.train_data
              Hrun H1) as (X & y & imp & Hi & Hin & _).
  exists X, y, imp. split; [exact Hi|exact Hin].
Defined.

Lemma load_and_split_data_separates_label_witness :
  ModelTraining.load_and_split_data Toy.trainer (Toy.processed 0.75 10)
    = (Returns (ModelTraining.mk_split
                  (Toy.features (match drop_columns
                                         (read_csv (Toy.table_at (Toy.processed 0.75 10)
                                                      PROCESSED_TRAIN_DATA_PATH))
                                         ["Unnamed: 0"] with
                                 | Returns d => d
                                 | Raises _ => empty_frame
                                 end))
                  (Toy.labels (read_csv (Toy.table_at (Toy.processed 0.75 10)
                                           PROCESSED_TRAIN_DATA_PATH)))
                  (Toy.features (match drop_columns
                                         (read_csv (Toy.table_at (Toy.processed 0.75 10)
                                                      PROCESSED_TEST_DATA_PATH))
                                         ["Unnamed: 0"] with
                                 | Returns d => d
                                 | Raises _ => empty_frame
                                 end))
                  (Toy.labels (read_csv (Toy.table_at (Toy.processed 0.75 10)
                                           PROCESSED_TEST_DATA_PATH)))),
       snd (ModelTraining.load_and_split_data Toy.trainer (Toy.processed 0.75 10))) /\
  fs (snd (ModelTraining.load_and_split_data Toy.trainer (Toy.processed 0.75 10)))
    = fs (Toy.processed 0.75 10).
Proof.
  assert (Hrun : ModelTraining.load_and_split_data Toy.trainer (Toy.processed 0.75 10)
    = (Returns (ModelTraining.mk_split
                  (Toy.features (match drop_columns
                                         (read_csv (Toy.table_at (Toy.processed 0.75 10)
                                                      PROCESSED_TRAIN_DATA_PATH))
                                         ["Unnamed: 0"] with
                                 | Returns d => d
                                 | Raises _ => empty_frame
                                 end))
                  (Toy.labels (read_csv (Toy.table_at (Toy.processed 0.75 10)
                                           PROCESSED_TRAIN_DATA_PATH)))
                  (Toy.features (match drop_columns
                                         (read_csv (Toy.table_at (Toy.processed 0.75 10)
                                                      PROCESSED_TEST_DATA_PATH))
                                         ["Unnamed: 0"] with
                                 | Returns d => d
                                 | Raises _ => empty_frame
                                 end))
                  (Toy.labels (read_csv (Toy.table_at (Toy.processed 0.75 10)
                                           PROCESSED_TEST_DATA_PATH)))),
       snd (ModelTraining.load_and_split_data Toy.trainer (Toy.processed 0.75 10))))
    by (apply run_returns; vm_compute; reflexivity).
  split; [exact Hrun|].
  destruct (load_and_split_data_separates_label Toy.trainer _ _ _ Hrun)
    as (ctr & cte & _ & _ & _ & _ & _ & _ & _ & _ & Hfs).
  exact Hfs.
Defined.

Lemma run_fits_on_train_and_scores_on_test_witness :
  ModelTraining.run Toy.trainer (Toy.processed 0.75 10) = (Returns tt, ToyTables.trained) /\
  exists m,
    fs ToyTables.trained
    = <[ModelTraining.model_output_path Toy.trainer := FModel m]> (fs (Toy.processed 0.75 10)).
Proof.
  assert (Hrun : ModelTraining.run Toy.trainer (Toy.processed 0.75 10)
                 = (Returns tt, ToyTables.trained))
    by (unfold ToyTables.trained; apply run_returns; vm_compute; reflexivity).
  split; [exact Hrun|].
  destruct (run_fits_on_train_and_scores_on_test Toy.trainer _ _ Hrun)
    as (ctr & cte & dtr & dte & data & bp & m & yp & a & p & r & f & t & t'
        & _ & _ & _ & _ & _ & _ & _ & _ & _ & _ & _ & _ & _ & _ & _ & Hfs).
  exists m. exact Hfs.
Defined.

Lemma training_script_ends_normally_witness :
  (ModelTraining.run
     (ModelTraining.init PROCESSED_TRAIN_DATA_PATH PROCESSED_TEST_DATA_PATH MODEL_OUTPUT_PATH)
     (Toy.processed 0.75 10)
   = (Returns tt, ToyTables.trained) /\
   fst (model_training_main (Toy.processed 0.75 10)) = Returns tt /\
   log (snd (model_training_main (Toy.processed 0.75 10)))
   = log ToyTables.trained ++ [(INFO, "Model training completed with evaluation metrics")]) /\
  (ModelTraining.run
     (ModelTraining.init PROCESSED_TRAIN_DATA_PATH PROCESSED_TEST_DATA_PATH MODEL_OUTPUT_PATH)
     (Toy.processed 0.75 3)
   = (Raises (Toy.raised (fst (ModelTraining.run Toy.trainer (Toy.processed 0.75 3)))),
      snd (ModelTraining.run Toy.trainer (Toy.processed 0.75 3))) /\
   fst (model_training_main (Toy.processed 0.75 3)) = Returns tt /\
   log (snd (model_training_main (Toy.processed 0.75 3)))
   = log (snd (ModelTraining.run Toy.trainer (Toy.processed 0.75 3)))
       ++ [(ERROR, "Custom Exception: Error in src/model_training.py at line 152: "
                     +:+ "Failed to train the model")]).
Proof.
  assert (Hrun : ModelTraining.run
                   (ModelTraining.init PROCESSED_TRAIN_DATA_PATH PROCESSED_TEST_DATA_PATH
                      MODEL_OUTPUT_PATH) (Toy.processed 0.75 10)
                 = (Returns tt, ToyTables.trained))
    by (unfold ToyTables.trained;
        apply (run_returns (ModelTraining.run Toy.trainer)); vm_compute; reflexivity).
  assert (Hfail : ModelTraining.run
                    (ModelTraining.init PROCESSED_TRAIN_DATA_PATH PROCESSED_TEST_DATA_PATH
                       MODEL_OUTPUT_PATH) (Toy.processed 0.75 3)
                  = (Raises (Toy.raised (fst (ModelTraining.run Toy.trainer
                                                (Toy.processed 0.75 3)))),
                     snd (ModelTraining.run Toy.trainer (Toy.processed 0.75 3))))
    by (apply (run_raises (ModelTraining.run Toy.trainer)); vm_compute; reflexivity).
  assert (Hline : str_exn (Toy.raised (fst (ModelTraining.run Toy.trainer
                                              (Toy.processed 0.75 3))))
                  = get_detailed_error_message model_training_py 152
                      "Failed to train the model" tt)
    by (vm_compute; reflexivity).
  split.
  - split; [exact Hrun|].
    rewrite (proj1 (training_script_ends_normally (Toy.processed 0.75 10)) _ Hrun).
    split; reflexivity.
  - split; [exact Hfail|].
    destruct (proj1 (proj2 (training_script_ends_normally (Toy.processed 0.75 3)))
                _ _ Hfail) as (n & cause & He & Hmain).
    assert (Hn : n = 152%nat).
    { rewrite He in Hline. unfold new_CustomException, str_exn in Hline.
      exact (detailed_error_message_line _ _ _ _ _ _ Hline). }
    subst n. rewrite Hmain. split; reflexivity.
Defined.

Lemma completed_process_logs_no_error_witness :
  DataProcessor.process Toy.processor (Toy.ingested 0.75 10)
    = (Returns tt, Toy.processed 0.75 10) /\
  exists added,
    log (Toy.processed 0.75 10)
    = log (Toy.ingested 0.75 10) ++ added
        ++ [(INFO, "Data processing completed successfully")] /\
    Forall (fun q => fst q = INFO) added.
Proof.
  assert (Hrun : DataProcessor.process Toy.processor (Toy.ingested 0.75 10)
                 = (Returns tt, Toy.processed 0.75 10))
    by (unfold Toy.processed; apply run_returns; vm_compute; reflexivity).
  split; [exact Hrun|].
  exact (completed_process_logs_no_error Toy.processor _ _ Hrun).
Defined.

Lemma failed_split_writes_no_file_witness :
  (fs (Toy.start 10) !! RAW_FILE_PATH = None /\
   exists w',
     DataIngestion.split_data (Toy.ingestion 0.75 "hotel-bucket") (Toy.start 10)
     = (Raises (new_CustomException data_ingestion_py 44 (FileNotFoundError RAW_FILE_PATH)
                  "Failed to split the data into train and test sets"
                  (FileNotFoundError RAW_FILE_PATH)), w')) /\
  (fs ToyTables.headerless !! RAW_FILE_PATH = Some (FCsv []) /\
   exists w',
     DataIngestion.split_data (Toy.ingestion 0.75 "hotel-bucket") ToyTables.headerless
     = (Raises (new_CustomException data_ingestion_py 44 (EmptyDataError RAW_FILE_PATH)
                  "Failed to split the data into train and test sets"
                  (EmptyDataError RAW_FILE_PATH)), w') /\
     fs w' = fs ToyTables.headerless) /\
  (fs Toy.downloaded !! RAW_FILE_PATH = Some (FCsv Toy.bookings) /\
   Toy.bookings <> [] /\
   train_test_split (read_csv Toy.bookings) (PrimFloat.sub 1 1) 42
   = Raises (ValueError "the resulting train set will be empty") /\
   exists w',
     DataIngestion.split_data (Toy.ingestion 1 "hotel-bucket") Toy.downloaded
     = (Raises (new_CustomException data_ingestion_py 46
                  (ValueError "the resulting train set will be empty")
                  "Failed to split the data into train and test sets"
                  (ValueError "the resulting train set will be empty")), w') /\
     fs w' = fs Toy.downloaded) /\
  (DataIngestion.split_data (Toy.ingestion 1 "hotel-bucket") Toy.downloaded
   = (Raises (Toy.raised (fst (DataIngestion.split_data (Toy.ingestion 1 "hotel-bucket")
                                 Toy.downloaded))),
      snd (DataIngestion.split_data (Toy.ingestion 1 "hotel-bucket") Toy.downloaded)) /\
   fs (snd (DataIngestion.split_data (Toy.ingestion 1 "hotel-bucket") Toy.downloaded))
   = fs Toy.downloaded).
Proof.
  assert (H1 : fs (Toy.start 10) !! RAW_FILE_PATH = None) by reflexivity.
  assert (H2 : fs ToyTables.headerless !! RAW_FILE_PATH = Some (FCsv []))
    by (vm_compute; reflexivity).
  assert (H3 : fs Toy.downloaded !! RAW_FILE_PATH = Some (FCsv Toy.bookings))
    by (vm_compute; reflexivity).
  assert (H4 : Toy.bookings <> []) by discriminate.
  assert (H5 : train_test_split (read_csv Toy.bookings) (PrimFloat.sub 1 1) 42
               = Raises (ValueError "the resulting train set will be empty"))
    by (vm_compute; reflexivity).
  assert (Hrun : DataIngestion.split_data (Toy.ingestion 1 "hotel-bucket") Toy.downloaded
    = (Raises (Toy.raised (fst (DataIngestion.split_data (Toy.ingestion 1 "hotel-bucket")
                                  Toy.downloaded))),
       snd (DataIngestion.split_data (Toy.ingestion 1 "hotel-bucket") Toy.downloaded)))
    by (apply run_raises; vm_compute; reflexivity).
  assert (Hline : str_exn (Toy.raised (fst (DataIngestion.split_data
                                              (Toy.ingestion 1 "hotel-bucket")
                                              Toy.downloaded)))
                  = get_detailed_error_message data_ingestion_py 46
                      "Failed to split the data into train and test sets" tt)
    by (vm_compute; reflexivity).
  split; [|split; [|split]].
  - split; [exact H1|].
    destruct (proj1 (proj2 (failed_split_writes_no_file (Toy.ingestion 0.75 "hotel-bucket")
                              (Toy.start 10))) H1) as (w' & Hraise & _).
    exists w'. exact Hraise.
  - split; [exact H2|].
    exact (proj1 (proj2 (proj2 (failed_split_writes_no_file
                                  (Toy.ingestion 0.75 "hotel-bucket")
                                  ToyTables.headerless))) H2).
  - split; [exact H3|]. split; [exact H4|]. split; [exact H5|].
    exact (proj2 (proj2 (proj2 (failed_split_writes_no_file
                                  (Toy.ingestion 1 "hotel-bucket") Toy.downloaded)))
             _ _ H3 H4 H5).
  - split; [exact Hrun|].
    destruct (proj1 (failed_split_writes_no_file (Toy.ingestion 1 "hotel-bucket")
                       Toy.downloaded) _ _ Hrun) as (n & cause & He & _ & Hfs).
    assert (Hn : n = 46%nat).
    { rewrite He in Hline. unfold new_CustomException, str_exn in Hline.
      exact (detailed_error_message_line _ _ _ _ _ _ Hline). }
    subst n. apply Hfs. lia.
Defined.

Lemma failed_run_before_saving_writes_nothing_witness :
  ModelTraining.run Toy.trainer ToyTables.no_test_rows
    = (Raises (Toy.raised (fst (ModelTraining.run Toy.trainer ToyTables.no_test_rows))),
       snd (ModelTraining.run Toy.trainer ToyTables.no_test_rows)) /\
  (exists cause,
     Toy.raised (fst (ModelTraining.run Toy.trainer ToyTables.no_test_rows))
     = new_CustomException model_training_py 148 cause "Failed to train the model" cause /\
     is_CustomException cause = true) /\
  fs (snd (ModelTraining.run Toy.trainer ToyTables.no_test_rows))
    = fs ToyTables.no_test_rows /\
  fs ToyTables.no_test_rows !! MODEL_OUTPUT_PATH = None /\
  (exists c, fs ToyTables.no_test_rows !! PROCESSED_TRAIN_DATA_PATH = Some (FCsv c)).
Proof.
  assert (Hrun : ModelTraining.run Toy.trainer ToyTables.no_test_rows
    = (Raises (Toy.raised (fst (ModelTraining.run Toy.trainer ToyTables.no_test_rows))),
       snd (ModelTraining.run Toy.trainer ToyTables.no_test_rows)))
    by (apply run_raises; vm_compute; reflexivity).
  assert (Hline : str_exn (Toy.raised (fst (ModelTraining.run Toy.trainer
                                              ToyTables.no_test_rows)))
                  = get_detailed_error_message model_training_py 148
                      "Failed to train the model" tt)
    by (vm_compute; reflexivity).
  split; [exact Hrun|].
  destruct (failed_run_before_saving_writes_nothing Toy.trainer ToyTables.no_test_rows
              _ _ Hrun) as (n & cause & He & Hfs & Hc).
  assert (Hn : n = 148%nat).
  { rewrite He in Hline. unfold new_CustomException, str_exn in Hline.
    exact (detailed_error_message_line _ _ _ _ _ _ Hline). }
  subst n. split; [|split; [|split]].
  - exists cause. split; [exact He|]. apply Hc. simpl. tauto.
  - apply Hfs. simpl. tauto.
  - vm_compute. reflexivity.
  - eexists. vm_compute. reflexivity.
Defined.


(** On the train table of the small instance the counter is not skewed
    once transformed: it holds its [log1p], taken once. *)
Example counter_of_the_train_table :
  getitem (heap Toy.loaded !!! 0%nat) "no_of_previous_cancellations"
    = Returns (map VInt [0; 0; 1; 0; 0; 0; 2]) /\
  np_log1p (map VInt [0; 0; 1; 0; 0; 0; 2])
    = getitem (heap Toy.preprocessed !!! 0%nat) "no_of_previous_cancellations".
Proof. split; vm_compute; reflexivity. Qed.

Lemma categorical_columns_are_encoded_witness :
  In "type_of_meal_plan"
    (categorical_columns (data_processing (DataProcessor.config Toy.processor))) /\
  List.NoDup (categorical_columns (data_processing (DataProcessor.config Toy.processor))) /\
  ~ In "type_of_meal_plan"
      (numerical_columns (data_processing (DataProcessor.config Toy.processor))) /\
  DataProcessor.preprocess_data Toy.processor 0 Toy.loaded
    = (Returns 0%nat, Toy.preprocessed) /\
  exists col classes_ codes,
    le_fit col = Returns classes_ /\
    le_transform classes_ col = Returns codes /\
    getitem (heap Toy.preprocessed !!! 0%nat) "type_of_meal_plan" = Returns codes.
Proof.
  assert (H1 : In "type_of_meal_plan"
                 (categorical_columns (data_processing (DataProcessor.config Toy.processor))))
    by (left; reflexivity).
  assert (H2 : List.NoDup
                 (categorical_columns (data_processing (DataProcessor.config Toy.processor))))
    by distinct_labels.
  assert (H3 : ~ In "type_of_meal_plan"
                 (numerical_columns (data_processing (DataProcessor.config Toy.processor))))
    by no_such_label.
  assert (Hrun : DataProcessor.preprocess_data Toy.processor 0 Toy.loaded
                 = (Returns 0%nat, Toy.preprocessed))
    by (unfold Toy.preprocessed; apply run_returns; vm_compute; reflexivity).
  repeat (split; [assumption|]).
  destruct (categorical_columns_are_encoded Toy.processor 0%nat 0%nat Toy.loaded
              Toy.preprocessed "type_of_meal_plan" H1 H2) as (d1 & col & cl & codes & H).
  - discriminate.
  - discriminate.
  - exact H3.
  - exact Hrun.
  - destruct H as (_ & _ & Hfit & Hcodes & Hfin).
    exists col, cl, codes. split; [exact Hfit|]. split; [exact Hcodes|exact Hfin].
Defined.
